(* ===== verification/_CoqProject ===== *)
-Q . S2P
Prelude.v
PyStr.v
Proc.v
Rows.v
Symbols.v
Exports.v
Vtables.v
Relocs.v
Sections.v
DefFile.v
Probe.v
Template.v
World.v
Emit.v
Cmdline.v
Driver.v
