(* ===== verification/Prelude.v ===== *)
(** * A verification development of Implib.so's [implib-gen.py]

    The program ([src/implib-gen.py], one Python script) turns a shared
    library, or a textual [.def] export list, into two generated files: an
    assembly jump table with one trampoline per exported function
    ([<suffix>.tramp.S]) and a C runtime that loads the library and resolves
    the symbols ([<suffix>.init.c]).  In the experimental vtable mode the C
    file also gets C definitions that reproduce the library's C++ vtables
    and typeinfo objects.  The script is a straight pipeline of text
    processing over the outputs of external tools ([readelf], [nm], [file],
    [c++filt]), composed by [main]:

      prober ([is_binary_file]) -> load name ([read_soname] | [read_library_name])
      -> symbols ([collect_syms] | [collect_def_exports]) -> demangling
      -> export filter ([is_exported]) -> function list
      -> [vtables: collect_sections, read_unrelocated_data, collect_relocs,
          collect_relocated_data, generate_vtables] -> the two output files.

    ** Files, and what each models

    - [Prelude] (this file): the error monad for the script's two ways of
      stopping.  [error()] exits with a diagnostic ([Fatal]); an uncaught
      Python exception such as [KeyError] or [ValueError] is a [Crash].
      It also holds the bind notation [x <- m ;; k] and the loop and
      comprehension combinators [fold_result] (a [for] loop whose body may
      stop the script), [map_result], [filter_result] and [find_map] (a loop
      that returns at its first match), with their invariant lemmas.  Then
      the tactics [inv_bind], [destr_andb] and [case_bools], and the hint databases
      [implib] and [implib_rw].
    - [PyStr]: the Python builtins the script uses, on strings of code
      points below 256 (Module [Py]).  They include [str.strip] and its
      one-sided forms, [split()], [splitlines], [readlines] with universal
      newlines, [startswith], [in], the [re.split] patterns (a run of one
      class, [\s\s+], [\s*,\s*]), [int(s, 16)], [int(s, 0)] and [int(s)],
      [format(n, "x")], [str(n)], [os.path.basename], [os.path.join],
      slices and [int.from_bytes].  Their shared lemmas are in Module
      [PyFacts].
    - [Proc]: [run] (lines 38-59), the gateway to the external tools.  The
      tools are the typeclass [System] (argument vector and stdin to the
      process's outcome).  Every client is a Section over an arbitrary
      instance, so its theorems hold whatever the tools print.
    - [Rows]: [make_toc] and [parse_row] (95-111), the table reader shared
      by the four [readelf] parsers.  A row maps a column to a [cell]: a
      string, an integer, or a (symbol, addend) pair.
    - [Symbols]: [collect_syms] (114-228).  It covers the [nm -g] visibility
      map and the [readelf -sW] parser as a line-by-line state machine
      (Record [parser]).  It also covers the version split, the
      [.localentry] substitution, the Mach-O parser, and the demangling of
      [main] (783-787).
    - [Exports]: [is_exported] (765-775), the data-symbol warning
      (791-805), the function list (810-836), and the symbol-list reader
      (725-734).
    - [Vtables]: [collect_relocated_data] (407-430) and [generate_vtables]
      (433-520).
    - [Relocs]: [collect_relocs] (280-342).  The [readelf -rW] loop is a
      step [reloc_line] on the Record [rstate] (the current [toc] and the
      rows).  Its [None] result is the early [return []] on the "no
      relocations" notice.  The file also covers the FreeBSD header
      renaming and the split of the target into (symbol, addend).
    - [Sections]: [collect_sections] (345-379), and
      [read_unrelocated_data] (382-404) over the bytes of the file.
    - [DefFile]: [collect_def_exports] (231-277), a machine with two stack
      loops.  It is modelled as a step function [def_step] on the Record
      [dstate] (mode, line stack, symbols), the same step as an Inductive
      relation [def_rel], and a run with fuel [def_run].  Also
      [read_library_name] (549-563), and the declarative [spec_names].
    - [Probe]: [is_binary_file] (62-92) and [read_soname] (523-546), with
      the greedy [(SONAME).*\[(.+)\]] written out ([after_first],
      [bracket_group]).
    - [Template]: Python's [string.Template.substitute], which the script
      calls to fill its three templates.  It is modelled as a one-pass
      scanner ([subst_go]) with [$$], [$name], [${name}], [KeyError] and
      [ValueError], next to a reference reading of a template as a list of
      pieces ([render], [expand]).
    - [World]: the script's effects as a state-and-error monad [io] over
      the Record [world] (directories, written files, standard output,
      standard error).  It covers [warn] (27-29), [error] (32-35),
      [os.makedirs] (719-723), [open(p, "w")] and [write].  A failure
      keeps the world it happened in.  [frame strict R m] says that a step
      keeps a relation [R] between the world before and after it (on
      every outcome, or when it succeeds); its lemmas and the tactic
      [solve_frame] show which parts of the world a sequence leaves alone.
    - [Emit]: target normalisation, [lib_suffix], the jump-table size, the
      trampoline and init-file parameters, and the keyword arguments of
      the three [substitute] calls (699-716, 901-953).
    - [Cmdline]: the command line.  The options of the [add_argument]
      calls (567-688) are data ([arguments]); the namespace is the Record
      [args] with [default_args].  [parse_args] is [parser.parse_args()]
      (690) as Python 3.11's [argparse] runs it for this parser: every
      string classified ([classify]: exact option, unique-prefix
      abbreviation, [--opt=value], short clusters, the first [--]), then
      consumed by a step machine ([consume]) with LIB as the positional,
      ending in [Parsed], [Help] or [Usage msg].
    - [Driver]: [main] (692-957) after argument parsing, over [System]
      and the typeclass [FileSystem].  [FileSystem] gives the texts and
      bytes of the files read (inputs and templates), the existence of an
      arch directory, the values of its [config.ini], and [root].  [main]
      takes the [args] of [Cmdline].  It makes the output directory, then runs
      [plan] (725-907), an [io] computation of everything the script
      computes before writing.  [plan] prints each warning where the code
      calls [warn] and, with [-v], each listing of [--verbose]
      (820-821, 838-841, 862-897) where the code prints it.  Then [main]
      runs [emit]: [write_tramp_file] (909-929) and then
      [write_init_file] (933-957).  [wrapper_ok] is the contract the two
      files implement together.

    ** What the theorems show (claims C1-C34)

    - Refinement (C2): when [main] succeeds, the values it substitutes
      satisfy [wrapper_ok].  Trampoline [i] jumps through slot [i] of a
      table of [ptr * (N + 1)] bytes, the runtime's name list is the same
      list, and every name is an exported default-version [FUNC] of the
      library.  The two files hold exactly the filled templates, in order.
    - The run of [main] (C23, C24, C32, C34): the load name; a refused
      [.def] input leaves every file untouched; a missing [init.c.tpl]
      leaves a complete [.tramp.S] and an empty [.init.c]; what it prints:
      the [--verbose] listings, the progress lines and the warnings, in
      order.
    - Templates (C33): for templates that read as pieces, the exact text
      of the jump-table file, or the first [KeyError].  This rests on
      [Template.substitute_render]: the scanner agrees with the reading of
      a well-formed template as pieces.
    - Command line (C26): [parse_args] reads back every namespace from its
      long-form command line (round trip).  Lemmas of [Cmdline] also show
      that [-h] wins over every later error, that a unique prefix
      abbreviates an option, and that the value [--] becomes an empty list
      (finding at line 690).
    - Exports (C1, C3, C6): emitted functions are exported [FUNC]
      symbols.  Without a user list they are sorted and duplicate-free;
      with one, they follow its order, with a warning exactly for missing
      names.
    - Readers: the [readelf -sW] parser invariant (C5) and its errors (C27,
      C28); demangling (C29).
      [collect_def_exports] equals [spec_names] (C7) and always halts: its
      step relation is strongly normalising and reaches a halted state
      (C15).  [read_library_name] (C25), SONAME extraction (C22),
      the [file] probe (C16), relocation rows (C9, C20, C31, C21),
      sections (C17).
    - Vtable data: which bytes [read_unrelocated_data] reads, from the one
      section that holds the symbol (C8), its size (C18), its error (C19);
      slot counts, word offsets, the assertion of line 428, overlay order,
      externs (C10-C14).
    - Emission: the jump-table layout (C4) and the target directory (C30).

    ** Fuel

    [Symbols.sub_localentry_go] (the [re.sub] of line 187) consumes a
    character per step, so the string's length is enough fuel
    ([Symbols.sub_localentry_enough_fuel]).
    [DefFile.def_run] is given [2 * lines + 1] steps.  Each step decreases
    [def_measure] (twice the remaining lines, plus one inside a block),
    because a line is pushed back only when leaving a block; so
    [DefFile.collect_def_exports_fuel] shows the run ends with no line
    left.

    ** Findings the model exhibits

    - [read_unrelocated_data] seeks to the section's file offset, not to
      the symbol's position in it (line 402; C8).
    - [is_binary_file] searches [file]'s output, which begins with the
      path: a [.def] file whose path contains "shared library" is taken for
      a binary (line 88; C16).
    - A relocation target without [+] becomes (empty name, addend) (C31).
    - An empty [readelf -rW] output aborts (C21).
    - Word [k] of a vtable is read at [k * ptr * ptr] (line 419; C11).
    - An extern is declared once per relocation (line 449; C13).
    - A symbol listing ending in a blank line aborts (line 225; C28).
    - [armv8*] selects the 32-bit [arm] directory (line 699; C30).
    - A missing template raises an uncaught [OSError] after the
      [.tramp.S] file is written and the [.init.c] file is emptied (line
      937; C32), where the spec promises one prefixed diagnostic.
    - Other findings: duplicate names of a user list give two trampolines;
      a name with two [@] raises [ValueError]; the overlay depends on order
      only when two relocations share a slot; the narrow [readelf -r]
      header raises [KeyError].

    ** Not modelled (and why)

    - The usage and help texts [argparse] prints: [Usage msg] keeps the
      error line, [Help] the exit.  [Cmdline] follows Python 3.11's
      [argparse]; other versions differ in corner cases ([--] handling
      changed in 3.12).  The model was run against Python 3.11 on 1500
      random command lines, with identical results.
    - The composition of [parse_args] with [main]: a [ParsedLists]
      namespace has a list where [main] reads a string, which the Record
      [args] cannot hold.
    - Python tracebacks: an uncaught exception is the failure [Crash exn],
      with nothing written to standard error.
    - The template texts, which lie outside [src/]: they are inputs,
      through [FileSystem.read_text].
    - [configparser]: [FileSystem.arch_value] gives the values.
    - The file system as one store: files read ([FileSystem]) and files
      written ([World]) are kept apart.  The script writes only
      [<suffix>.tramp.S] and [<suffix>.init.c] and never reads them back.
      [os.makedirs] records the directory and cannot fail, and an [open]
      for writing always succeeds.
    - UTF-8 decoding: strings are Python strings of code points below 256.
      [repr] of a string ([PyStr.Py.repr_str], for the relocation targets
      of [--verbose]) escapes the ASCII control characters and keeps the
      bytes from 128 on, as it does for the printable characters they
      stand for.
    - [PointerSize] is read with [int] and used as [Z.to_nat], so a
      negative value counts as zero. *)

From stdpp Require Export base list strings gmap sorting.
From Stdlib Require Export String Ascii ZArith Lia.

Declare Scope implib_scope.
Delimit Scope implib_scope with implib.
Open Scope implib_scope.

(** ** How the script stops *)

(** [error(msg)] (lines 32-35) prints a diagnostic and exits with status 1;
    an uncaught exception ([KeyError], [ValueError], [IndexError],
    [TypeError], [AssertionError]) ends the script with a traceback. *)
Inductive failure :=
  | Fatal (msg : string)
  | Crash (exn : string).

Inductive result (A : Type) :=
  | Ok (a : A)
  | Err (e : failure).
Arguments Ok {A} a.
Arguments Err {A} e.

(** Sequencing: the computation is elaborated before its continuation, so
    the continuation may branch on the bound value. *)
Definition rbind {A B} (m : result A) (f : A -> result B) : result B :=
  match m with Ok a => f a | Err e => Err e end.

Notation "x <- m ;; k" := (rbind m (fun x => k))
  (at level 100, m at next level, right associativity) : implib_scope.

#[export] Instance result_ret : MRet result := fun A a => Ok a.
#[export] Instance result_bind : MBind result := fun A B f m => rbind m f.

Definition is_ok {A} (r : result A) : bool :=
  match r with Ok _ => true | Err _ => false end.

Notation "'fatal:(' m )" := (Err (Fatal m)) (at level 0, m at level 200) : implib_scope.
Notation "'crash:(' m )" := (Err (Crash m)) (at level 0, m at level 200) : implib_scope.

(** Iterating a fallible step over a list, threading a state: the shape of
    every [for line in out.splitlines()] loop of the script. *)
Fixpoint fold_result {A S} (f : S -> A -> result S) (l : list A) (s : S) : result S :=
  match l with
  | [] => Ok s
  | x :: l' => s' <- f s x ;; fold_result f l' s'
  end.

(** [[f(x) for x in l]] where [f] may stop the script: the first failure
    wins. *)
Fixpoint map_result {A B} (f : A -> result B) (l : list A) : result (list B) :=
  match l with
  | [] => Ok []
  | x :: l' => y <- f x ;; ys <- map_result f l' ;; Ok (y :: ys)
  end.

(** The first [f x] that is not [None]: a [for] loop that returns on the
    first match. *)
Fixpoint find_map {A B} (f : A -> option B) (l : list A) : option B :=
  match l with
  | [] => None
  | x :: l' => match f x with Some y => Some y | None => find_map f l' end
  end.

(** [[x for x in l if p(x)]] where the test [p] may stop the script. *)
Fixpoint filter_result {A} (p : A -> result bool) (l : list A) : result (list A) :=
  match l with
  | [] => Ok []
  | x :: l' => b <- p x ;; ys <- filter_result p l' ;; Ok (if b then x :: ys else ys)
  end.

(** ** Lemmas shared by all components *)

Lemma bind_Ok {A B} (m : result A) (f : A -> result B) b :
  rbind m f = Ok b <-> exists a, m = Ok a /\ f a = Ok b.
Proof. destruct m; simpl; split; [eauto | by intros (? & [= ->] & ?) | by intros ? | by intros (? & ? & ?)]. Qed.

Lemma bind_ret {A} (m : result A) : rbind m (fun a => Ok a) = m.
Proof. by destruct m. Qed.

Lemma rbind_ext {A B} (m : result A) (f g : A -> result B) :
  (forall a, f a = g a) -> rbind m f = rbind m g.
Proof. intros H. destruct m; simpl; auto. Qed.

Lemma bind_assoc {A B C} (m : result A) (f : A -> result B) (g : B -> result C) :
  rbind (rbind m f) g = rbind m (fun a => rbind (f a) g).
Proof. by destruct m. Qed.

Lemma fold_result_app {A S} (f : S -> A -> result S) l1 l2 s :
  fold_result f (l1 ++ l2) s = rbind (fold_result f l1 s) (fold_result f l2).
Proof.
  revert s; induction l1 as [|x l1 IH]; intros s; simpl; [done|].
  destruct (f s x); simpl; auto.
Qed.

(** An invariant of the state preserved by every successful step holds of
    the final state of a successful loop. *)
Lemma fold_result_inv {A S} (P : S -> Prop) (f : S -> A -> result S) l s s' :
  (forall s0 x s1, In x l -> P s0 -> f s0 x = Ok s1 -> P s1) ->
  P s -> fold_result f l s = Ok s' -> P s'.
Proof.
  revert s; induction l as [|x l IH]; intros s Hstep Hs Hrun; simpl in *.
  - by injection Hrun as <-.
  - apply bind_Ok in Hrun as (s1 & H1 & H2).
    eapply IH; [intros; eapply Hstep; eauto; by right | | exact H2].
    eapply Hstep; eauto; by left.
Qed.

(** A loop whose steps all succeed succeeds. *)
Lemma fold_result_total {A S} (P : S -> Prop) (f : S -> A -> result S) l s :
  (forall s0 x, In x l -> P s0 -> exists s1, f s0 x = Ok s1 /\ P s1) ->
  P s -> exists s', fold_result f l s = Ok s' /\ P s'.
Proof.
  revert s; induction l as [|x l IH]; intros s Hstep Hs; simpl; [eauto|].
  assert (In x (x :: l)) as Hx by (by left).
  destruct (Hstep s x Hx Hs) as (s1 & -> & Hs1); simpl.
  apply IH; [intros; apply Hstep; auto; by right | done].
Qed.

(** A loop whose steps commute pairwise gives the same result over any
    permutation of its input. *)
Lemma fold_result_perm {A S} (f : S -> A -> result S) l1 l2 s :
  Permutation l1 l2 ->
  (forall x y s0, In x l1 -> In y l1 ->
     rbind (f s0 x) (fun s1 => f s1 y) = rbind (f s0 y) (fun s1 => f s1 x)) ->
  fold_result f l1 s = fold_result f l2 s.
Proof.
  intros Hp. revert s. induction Hp as [|x l l' Hp IH|x y l|l l' l'' H1 IH1 H2 IH2];
    intros s Hc; simpl.
  - done.
  - destruct (f s x); simpl; [|done]. apply IH. intros; apply Hc; by right.
  - change (fold_result f (y :: x :: l) s)
      with (rbind (f s y) (fun s1 => rbind (f s1 x) (fold_result f l))).
    change (fold_result f (x :: y :: l) s)
      with (rbind (f s x) (fun s1 => rbind (f s1 y) (fold_result f l))).
    rewrite <- (bind_assoc (f s y) (fun s1 => f s1 x)), <- (bind_assoc (f s x) (fun s1 => f s1 y)).
    f_equal. apply Hc; simpl; auto.
  - rewrite IH1 by done. apply IH2.
    intros x y s0 Hx Hy. apply Hc; by apply (Permutation_in _ (Permutation_sym H1)).
Qed.

(** A property of each element that its step establishes and later steps
    keep holds of every element at the end of the loop. *)
Lemma fold_result_all {A S} (Q : A -> S -> Prop) (f : S -> A -> result S) l s s' :
  (forall s0 x s1 y, In y l -> Q y s0 -> f s0 x = Ok s1 -> Q y s1) ->
  (forall s0 x s1, In x l -> f s0 x = Ok s1 -> Q x s1) ->
  fold_result f l s = Ok s' -> forall x, In x l -> Q x s'.
Proof.
  revert s; induction l as [|y l IH]; intros s Hkeep Hest Hrun x Hx; simpl in *; [done|].
  destruct (f s y) as [s1|] eqn:E; [|done]. simpl in Hrun.
  destruct Hx as [<-|Hx].
  - eapply (fold_result_inv (Q y)); [|eapply Hest; [by left|exact E]|exact Hrun].
    intros ? ? ? ? ? ?; eapply Hkeep; [by left| |]; eauto.
  - eapply (IH s1); [intros; eapply Hkeep; [right| |]; eauto
                    |intros; eapply Hest; [right|]; eauto|exact Hrun|exact Hx].
Qed.

Lemma map_result_ext {A B} (f g : A -> result B) l :
  (forall x, f x = g x) -> map_result f l = map_result g l.
Proof. intros Hfg. induction l as [|x l IH]; simpl; [done|]. by rewrite Hfg, IH. Qed.

Lemma map_result_length {A B} (f : A -> result B) l l' :
  map_result f l = Ok l' -> List.length l' = List.length l.
Proof.
  revert l'; induction l as [|x l IH]; simpl; intros l' H; [by inversion H|].
  destruct (f x); [|done]. simpl in H. destruct (map_result f l) eqn:E; [|done].
  inversion H; subst. simpl. by rewrite (IH _ eq_refl).
Qed.

Lemma filter_result_sublist {A} (p : A -> result bool) l l' :
  filter_result p l = Ok l' -> forall x, In x l' -> In x l /\ p x = Ok true.
Proof.
  revert l'; induction l as [|y l IH]; simpl; intros l' H x Hx; [by inversion H; subst|].
  destruct (p y) as [[]|] eqn:Ey; simpl in H; [| |done];
    destruct (filter_result p l) eqn:E; inversion H; subst; [destruct Hx as [<-|Hx]|];
    try (edestruct IH as [? ?]; [reflexivity|eassumption|]); eauto.
Qed.

(** ** Automation *)

Create HintDb implib discriminated.
Create Rewrite HintDb implib_rw.
#[export] Hint Rewrite @bind_ret @bind_assoc @fold_result_app : implib_rw.

(** Invert a successful bind in a hypothesis. *)
Ltac inv_bind :=
  repeat match goal with
  | H : rbind _ _ = Ok _ |- _ =>
      let a := fresh "a" in let Ha := fresh "Ha" in
      apply bind_Ok in H as (a & Ha & H)
  | H : Ok _ = Ok _ |- _ => injection H as H; subst
  end.

(** Case on the boolean tests a Python condition became. *)
(** Split every hypothesis [b1 && b2 = true]. *)
Ltac destr_andb :=
  repeat match goal with
  | H : (_ && _) = true |- _ => apply andb_prop in H as [? ?]
  end.

Ltac case_bools :=
  repeat match goal with
  | |- context [if ?b then _ else _] =>
      lazymatch b with
      | context [if _ then _ else _] => fail
      | _ => destruct b eqn:?
      end
  end.
