(* ===== verification/PyStr.v ===== *)
(** * Python builtins used by [implib-gen.py]

    Executable models of the string, integer and byte operations the script
    calls: [str.strip], [str.split()], [str.splitlines()], [str.split(c)],
    [str.join], [str.startswith], [in], [str.replace(c, "")], [str.isupper],
    [str.upper] (ASCII letters), [re.split] on a run of one character class
    ([" +"], ["\s+"], ["@+"]), [int(s, 16)], [int(s, 0)], [str(n)],
    [bytes] slices, [range(0, n, step)] and [int.from_bytes(b, "little")].
    Strings are [Stdlib] strings: Python strings whose code points are below
    256.  These are library semantics, not code of the repository; they are
    stated once here so that every component translates the script's own
    lines on top of them. *)

From S2P Require Import Prelude.
From Stdlib Require Import DecimalString Strings.Byte.

Module Py.

(** ** Characters *)

(** [str.isspace()] and the regular-expression class [\s] for one code
    point below 256: tab to carriage return, the separators [\x1c]-[\x1f],
    space, [\x85] and no-break space [\xa0]. *)
Definition isspace (c : ascii) : bool :=
  let n := nat_of_ascii c in
  ((9 <=? n) && (n <=? 13)) || ((28 <=? n) && (n <=? 32)) || (n =? 133) || (n =? 160).

(** Line boundaries of [str.splitlines()] below 256 ([\r\n] is one). *)
Definition is_line_break (c : ascii) : bool :=
  let n := nat_of_ascii c in
  ((10 <=? n) && (n <=? 13)) || ((28 <=? n) && (n <=? 30)) || (n =? 133).

Definition is_lower_ascii (c : ascii) : bool :=
  let n := nat_of_ascii c in (97 <=? n) && (n <=? 122).
Definition is_upper_ascii (c : ascii) : bool :=
  let n := nat_of_ascii c in (65 <=? n) && (n <=? 90).

(** The class [[0-9]] *)
Definition is_digit (c : ascii) : bool :=
  let n := nat_of_ascii c in (48 <=? n) && (n <=? 57).

Definition upper_char (c : ascii) : ascii :=
  if is_lower_ascii c then ascii_of_nat (nat_of_ascii c - 32) else c.

Definition ceq (a b : ascii) : bool := bool_decide (a = b).

(** ** Strings *)

Fixpoint drop_while (p : ascii -> bool) (l : list ascii) : list ascii :=
  match l with
  | [] => []
  | c :: l' => if p c then drop_while p l' else l
  end.

(** [s.strip()] *)
Definition strip (s : string) : string :=
  string_of_list_ascii
    (rev (drop_while isspace (rev (drop_while isspace (list_ascii_of_string s))))).

(** [s.lstrip()] and [s.rstrip()] *)
Definition lstrip (s : string) : string :=
  string_of_list_ascii (drop_while isspace (list_ascii_of_string s)).

Definition rstrip (s : string) : string :=
  string_of_list_ascii (rev (drop_while isspace (rev (list_ascii_of_string s)))).

(** [s.rstrip(c)] for one character [c] *)
Definition rstrip_char (c : ascii) (s : string) : string :=
  string_of_list_ascii (rev (drop_while (ceq c) (rev (list_ascii_of_string s)))).

(** [s.startswith(p)] *)
Definition startswith (s p : string) : bool := String.prefix p s.

(** [p in s] *)
Fixpoint contains (p s : string) : bool :=
  String.prefix p s ||
  match s with
  | EmptyString => false
  | String _ s' => contains p s'
  end.

(** [s.replace(c, "")] for one character [c] *)
Fixpoint remove_char (c : ascii) (s : string) : string :=
  match s with
  | EmptyString => EmptyString
  | String d s' => if ceq c d then remove_char c s' else String d (remove_char c s')
  end.

(** [re.sub(r"X.*", "", s)] for one character [X], on a string without
    newline: everything from the first [X] on is removed. *)
Fixpoint cut_at (x : ascii) (s : string) : string :=
  match s with
  | EmptyString => EmptyString
  | String c rest => if ceq c x then EmptyString else String c (cut_at x rest)
  end.

(** [s.isupper()]: some cased character, and no lower-case one (cased
    characters are the ASCII letters). *)
Definition isupper (s : string) : bool :=
  let l := list_ascii_of_string s in
  existsb is_upper_ascii l && negb (existsb is_lower_ascii l).

(** [s.upper()] *)
Definition upper (s : string) : string :=
  string_of_list_ascii (map upper_char (list_ascii_of_string s)).

(** [re.split(r"X+", s)] where [X] is the class [sep]: the pieces between
    maximal runs of [sep]; an empty piece at either end when [s] begins or
    ends with a run, [[""]] for the empty string. *)
Fixpoint split_runs (sep : ascii -> bool) (s : string) : list string :=
  match s with
  | EmptyString => [EmptyString]
  | String c s' =>
      match split_runs sep s' with
      | [] => [EmptyString]
      | w :: ws =>
          if sep c then
            match s' with
            | String c' _ => if sep c' then EmptyString :: ws else EmptyString :: w :: ws
            | EmptyString => EmptyString :: w :: ws
            end
          else String c w :: ws
      end
  end.

(** [s.split()]: the maximal runs of non-whitespace characters. *)
Definition split (s : string) : list string :=
  List.filter (fun w => negb (String.eqb w EmptyString)) (split_runs isspace s).

(** [s.split(c)] for one character: every occurrence separates. *)
Fixpoint split_char (c : ascii) (s : string) : list string :=
  match s with
  | EmptyString => [EmptyString]
  | String d s' =>
      match split_char c s' with
      | [] => [EmptyString]
      | w :: ws => if ceq c d then EmptyString :: w :: ws else String d w :: ws
      end
  end.

(** The pieces between line boundaries, with [\r\n] as one boundary. *)
Fixpoint lines_raw (s : string) : list string :=
  match s with
  | EmptyString => [EmptyString]
  | String c s' =>
      if ceq c "013"%char then
        match s' with
        | String "010"%char s'' => EmptyString :: lines_raw s''
        | _ => EmptyString :: lines_raw s'
        end
      else if is_line_break c then EmptyString :: lines_raw s'
      else match lines_raw s' with
           | [] => [String c EmptyString]
           | w :: ws => String c w :: ws
           end
  end.

(** [s.splitlines()]: no final empty line for a terminated last line. *)
Definition splitlines (s : string) : list string :=
  match List.rev (lines_raw s) with
  | EmptyString :: rest => List.rev rest
  | l => List.rev l
  end.

(** [sep.join(l)] *)
Fixpoint join (sep : string) (l : list string) : string :=
  match l with
  | [] => EmptyString
  | [w] => w
  | w :: l' => w +:+ sep +:+ join sep l'
  end.

(** ** Integers *)

Definition digit_val (base : Z) (c : ascii) : option Z :=
  let n := Z.of_nat (nat_of_ascii c) in
  let v := (if (48 <=? n) && (n <=? 57) then n - 48
           else if (97 <=? n) && (n <=? 122) then n - 87
           else if (65 <=? n) && (n <=? 90) then n - 55
           else 99)%Z in
  if (v <? base)%Z then Some v else None.

(** Digits with single underscores between them. *)
Fixpoint digits_go (base acc : Z) (l : list ascii) : option Z :=
  match l with
  | [] => Some acc
  | c :: l' =>
      if ceq c "_"%char then
        match l' with
        | d :: l'' => v ← digit_val base d; digits_go base (acc * base + v)%Z l''
        | [] => None
        end
      else v ← digit_val base c; digits_go base (acc * base + v)%Z l'
  end.

(** A non-empty digit string; [after_prefix] allows an underscore right
    after a [0x]/[0o]/[0b] prefix. *)
Definition parse_uint (base : Z) (after_prefix : bool) (l : list ascii) : option Z :=
  match l with
  | [] => None
  | c :: _ => if ceq c "_"%char && negb after_prefix then None else digits_go base 0 l
  end.

Definition sign_of (l : list ascii) : Z * list ascii :=
  match l with
  | "-"%char :: l' => ((-1)%Z, l')
  | "+"%char :: l' => (1%Z, l')
  | _ => (1%Z, l)
  end.

Definition is_prefix_char (lo up : ascii) (c : ascii) : bool := ceq c lo || ceq c up.

(** [int(s, 16)] *)
Definition int16 (s : string) : option Z :=
  let '(sg, l) := sign_of (list_ascii_of_string (strip s)) in
  match l with
  | "0"%char :: x :: l' =>
      if is_prefix_char "x" "X" x then (v ← parse_uint 16 true l'; Some (sg * v)%Z)
      else v ← parse_uint 16 false l; Some (sg * v)%Z
  | _ => v ← parse_uint 16 false l; Some (sg * v)%Z
  end.

(** [int(s, 0)]: the base from the prefix; a decimal literal may not have a
    leading zero unless it is zero. *)
Definition int0 (s : string) : option Z :=
  let '(sg, l) := sign_of (list_ascii_of_string (strip s)) in
  match l with
  | "0"%char :: x :: l' =>
      if is_prefix_char "x" "X" x then (v ← parse_uint 16 true l'; Some (sg * v)%Z)
      else if is_prefix_char "o" "O" x then (v ← parse_uint 8 true l'; Some (sg * v)%Z)
      else if is_prefix_char "b" "B" x then (v ← parse_uint 2 true l'; Some (sg * v)%Z)
      else v ← parse_uint 10 false l; if bool_decide (v = 0%Z) then Some 0%Z else None
  | _ => v ← parse_uint 10 false l; Some (sg * v)%Z
  end.

(** [int(s)]: base 10, a sign, surrounding whitespace and single
    underscores between digits. *)
Definition int10 (s : string) : option Z :=
  let '(sg, l) := sign_of (list_ascii_of_string (strip s)) in
  v ← parse_uint 10 false l; Some (sg * v)%Z.

(** [str(n)] for an integer *)
Definition str_of_Z (z : Z) : string := DecimalString.NilEmpty.string_of_int (Z.to_int z).

(** ** Bytes *)

(** [b[x:y]] on a [bytes] value *)
Definition slice {A} (x y : nat) (l : list A) : list A := firstn (y - x) (skipn x l).

(** [int.from_bytes(b, byteorder="little")] *)
Fixpoint from_bytes_le (l : list byte) : Z :=
  match l with
  | [] => 0%Z
  | b :: l' => (Z.of_N (Byte.to_N b) + 256 * from_bytes_le l')%Z
  end.

(** [list(range(0, n, step))]; a zero step raises [ValueError]. *)
Definition range_step (n step : nat) : result (list nat) :=
  if step =? 0 then crash:("ValueError")
  else Ok ((fun k => k * step) <$> seq 0 ((n + step - 1) / step)).

(** ** Further patterns and text mode *)

(** [re.split(r"\s\s+", s)]: a run of two or more whitespace characters
    separates two pieces, a single one stays inside its piece.  The state
    records whether one whitespace character is pending. *)
Inductive ws_mode := WWord | WPend (c : ascii) | WRun.

Fixpoint split_ws2_go (m : ws_mode) (cur : list ascii) (s : string) : list string :=
  match s with
  | EmptyString =>
      [string_of_list_ascii (rev (match m with WPend p => p :: cur | _ => cur end))]
  | String c s' =>
      if isspace c then
        match m with
        | WWord => split_ws2_go (WPend c) cur s'
        | WPend _ => string_of_list_ascii (rev cur) :: split_ws2_go WRun [] s'
        | WRun => split_ws2_go WRun [] s'
        end
      else
        match m with
        | WPend p => split_ws2_go WWord (c :: p :: cur) s'
        | _ => split_ws2_go WWord (c :: cur) s'
        end
  end.

Definition split_ws2 (s : string) : list string := split_ws2_go WWord [] s.

Definition hex_digit (d : Z) : ascii :=
  ascii_of_nat (Z.to_nat (if (d <? 10)%Z then 48 + d else 87 + d)%Z).

Fixpoint hex_go (fuel : nat) (n : Z) (acc : string) : string :=
  match fuel with
  | O => acc
  | S f =>
      let acc' := String (hex_digit (n mod 16)) acc in
      if (n <? 16)%Z then acc' else hex_go f (n / 16) acc'
  end.

(** [f"{z:x}"]; a number has at most [log2 z + 1] hexadecimal digits, which
    is the fuel. *)
Definition hex_of (z : Z) : string :=
  if (z <? 0)%Z then "-" +:+ hex_go (Z.to_nat (Z.log2 (- z)) + 1) (- z) EmptyString
  else hex_go (Z.to_nat (Z.log2 z) + 1) z EmptyString.

(** Universal newlines of a file opened in text mode: [\r\n] and a lone
    [\r] are read as [\n]. *)
Fixpoint translate_newlines (s : string) : string :=
  match s with
  | EmptyString => EmptyString
  | String c s' =>
      if ceq c "013"%char then
        match s' with
        | String "010"%char s'' => String "010"%char (translate_newlines s'')
        | _ => String "010"%char (translate_newlines s')
        end
      else String c (translate_newlines s')
  end.

(** The lines of a text, each with its terminating newline (the last one
    may have none). *)
Fixpoint lines_keep (s : string) : list string :=
  match s with
  | EmptyString => []
  | String c s' =>
      if ceq c "010"%char then String c EmptyString :: lines_keep s'
      else match lines_keep s' with
           | [] => [String c EmptyString]
           | w :: ws => String c w :: ws
           end
  end.

(** [re.split(r"\s*,\s*", s)]: the commas separate, with the whitespace
    next to them. *)
Definition split_comma (s : string) : list string :=
  match split_char "," s with
  | [] => []
  | [w] => [w]
  | w :: ws => rstrip w :: map strip (removelast ws) ++ [lstrip (default "" (last ws))]
  end.

(** [os.path.join(a, b)] *)
Definition path_join (a b : string) : string :=
  if startswith b "/" then b
  else if String.eqb a "" then b
  else if String.eqb (default "" (option_map (fun c => String c EmptyString)
                                   (last (list_ascii_of_string a)))) "/" then a +:+ b
  else a +:+ "/" +:+ b.

(** [os.path.basename(p)] *)
Definition basename (p : string) : string := default "" (last (split_char "/" p)).

(** [f.readlines()] on a file opened with [open(name, "r")]. *)
Definition readlines (s : string) : list string := lines_keep (translate_newlines s).

(** [s.split(c, 1)] when [c] occurs in [s]: the text before its first
    occurrence and the text after it. *)
Fixpoint split_once (c : ascii) (s : string) : option (string * string) :=
  match s with
  | EmptyString => None
  | String x r =>
      if ceq x c then Some (EmptyString, r)
      else option_map (fun '(a, b) => (String x a, b)) (split_once c r)
  end.

(** ** [repr] of a string *)

(** One character of [repr(s)] in the quote [q]: the backslash, the quote
    and [\t], [\n], [\r] escaped, the other control characters as [\xNN],
    the rest as is.  A byte from 128 on stands for a character of a
    UTF-8 text and is kept. *)
Definition repr_char (q c : ascii) : string :=
  let n := Z.of_nat (nat_of_ascii c) in
  if Ascii.eqb c "\"%char then "\\"
  else if Ascii.eqb c q then String "\"%char (String q EmptyString)
  else if Ascii.eqb c "009"%char then "\t"
  else if Ascii.eqb c "010"%char then "\n"
  else if Ascii.eqb c "013"%char then "\r"
  else if (n <? 32)%Z || (n =? 127)%Z then
    String "\"%char (String "x"%char (String (hex_digit (n / 16)) (String (hex_digit (n mod 16)) EmptyString)))
  else String c EmptyString.

(** [repr(s)]: in single quotes, unless [s] has a single quote and no
    double quote. *)
Definition repr_str (s : string) : string :=
  let cs := list_ascii_of_string s in
  let q := if bool_decide ("'"%char ∈ cs) && negb (bool_decide ("034"%char ∈ cs))
           then "034"%char else "'"%char in
  String q (foldr (fun c acc => repr_char q c +:+ acc) (String q EmptyString) cs).

End Py.

(** ** Facts about the builtins *)

Module PyFacts.
Import Py.

Definition has_char (c : ascii) (s : string) : bool :=
  existsb (ceq c) (list_ascii_of_string s).

(** The last character, if any. *)
Definition last_char (s : string) : option ascii := last (list_ascii_of_string s).

Lemma prefix_nil s : String.prefix EmptyString s = true.
Proof. by destruct s. Qed.

Lemma contains_char c s : contains (String c EmptyString) s = has_char c s.
Proof.
  induction s as [|d s IH]; [done|]. unfold has_char in *. simpl. rewrite IH.
  unfold ceq. destruct (ascii_dec c d) as [<-|Hne].
  - by rewrite prefix_nil, bool_decide_true.
  - by rewrite bool_decide_false.
Qed.

Lemma split_runs_cons sep s : exists w ws, split_runs sep s = w :: ws.
Proof.
  induction s as [|c s (w & ws & IH)]; simpl; [eauto|]. rewrite IH.
  destruct (sep c); [destruct s as [|c' s']; [|destruct (sep c')]|]; eauto.
Qed.

(** Every piece of [re.split(r"X+", s)] is free of [X]. *)
Lemma split_runs_no_sep sep s w :
  In w (split_runs sep s) -> forall c, In c (list_ascii_of_string w) -> sep c = false.
Proof.
  revert w; induction s as [|c s IH]; intros w Hw; simpl in Hw.
  - destruct Hw as [<-|[]]. done.
  - destruct (split_runs_cons sep s) as (w0 & ws & E). rewrite E in Hw, IH.
    destruct (sep c) eqn:Hc.
    + destruct s as [|c' s'].
      { destruct Hw as [<-|Hw]; [done|]. by apply IH. }
      destruct (sep c'); (destruct Hw as [<-|Hw]; [done|]); apply IH; [by right|done].
    + destruct Hw as [<-|Hw]; [|by apply IH; right].
      simpl. intros d [<-|Hd]; [done|]. apply (IH w0); [by left|done].
Qed.

Lemma has_char_false c s :
  has_char c s = false <-> ~ In c (list_ascii_of_string s).
Proof.
  unfold has_char. rewrite <- Bool.not_true_iff_false, existsb_exists.
  unfold ceq. split.
  - intros H Hin. apply H. exists c. by rewrite bool_decide_true.
  - intros H (d & Hd & Heq). apply bool_decide_eq_true in Heq. by subst.
Qed.

(** The pieces of [re.split(r"@+", s)] never contain [@]. *)
Lemma split_runs_char_free c s w :
  In w (split_runs (ceq c) s) -> has_char c w = false.
Proof.
  intros Hw. apply has_char_false. intros Hin.
  pose proof (split_runs_no_sep _ _ _ Hw c Hin) as H.
  unfold ceq in H. by rewrite bool_decide_true in H.
Qed.

(** [String.append] does not unfold under [simpl] once stdpp is loaded. *)
Lemma append_nil_l s : EmptyString +:+ s = s.
Proof. reflexivity. Qed.
Lemma append_cons x s1 s2 : String x s1 +:+ s2 = String x (s1 +:+ s2).
Proof. reflexivity. Qed.
#[export] Hint Rewrite append_nil_l append_cons : implib_rw.

Lemma length_append s1 s2 :
  String.length (s1 +:+ s2) = String.length s1 + String.length s2.
Proof. induction s1; [done|]. rewrite append_cons; simpl. by f_equal. Qed.

Lemma list_ascii_app s1 s2 :
  list_ascii_of_string (s1 +:+ s2) = list_ascii_of_string s1 ++ list_ascii_of_string s2.
Proof. induction s1; [done|]. rewrite append_cons; simpl. by f_equal. Qed.

Lemma has_char_app c s1 s2 : has_char c (s1 +:+ s2) = has_char c s1 || has_char c s2.
Proof. unfold has_char. by rewrite list_ascii_app, existsb_app. Qed.

Lemma split_char_cons c s : exists w ws, split_char c s = w :: ws.
Proof.
  induction s as [|d s (w & ws & IH)]; simpl; [eauto|]. rewrite IH.
  destruct (ceq c d); eauto.
Qed.

Lemma split_char_free c d : has_char c d = false -> split_char c d = [d].
Proof.
  induction d as [|x d IH]; [done|]. unfold has_char; simpl.
  intros [Hx Hd]%orb_false_iff. fold (has_char c d) in Hd.
  by rewrite IH, Hx.
Qed.

Lemma split_char_app c d s :
  has_char c d = false -> split_char c (d +:+ String c EmptyString +:+ s) = d :: split_char c s.
Proof.
  induction d as [|x d IH]; intros Hd.
  - autorewrite with implib_rw; simpl.
    destruct (split_char_cons c s) as (w & ws & E). rewrite E. unfold ceq. by rewrite bool_decide_true.
  - unfold has_char in Hd; simpl in Hd. apply orb_false_iff in Hd as [Hx Hd].
    rewrite append_cons; simpl. rewrite IH by done. by rewrite Hx.
Qed.

(** [s.split(c)] undoes [c.join(ds)] when no piece contains [c]. *)
Lemma split_char_join c ds :
  ds <> [] -> Forall (fun d => has_char c d = false) ds ->
  split_char c (join (String c EmptyString) ds) = ds.
Proof.
  induction ds as [|d ds IH]; intros Hne Hall; [done|].
  inversion Hall as [|? ? Hd Hds]; subst.
  destruct ds as [|d' ds'].
  - by apply split_char_free.
  - change (join _ (d :: d' :: ds')) with (d +:+ String c EmptyString +:+ join (String c EmptyString) (d' :: ds')).
    rewrite split_char_app by done. f_equal. by apply IH.
Qed.

Lemma last_char_app s1 s2 : s2 <> EmptyString -> last_char (s1 +:+ s2) = last_char s2.
Proof.
  intros Hne. unfold last_char. rewrite list_ascii_app, last_app.
  destruct s2 as [|x s2]; [done|]. simpl. rewrite last_cons. by destruct (last _).
Qed.

Lemma rstrip_char_stable c s : last_char s <> Some c -> rstrip_char c s = s.
Proof.
  unfold rstrip_char, last_char. intros H.
  rewrite <- (string_of_list_ascii_of_string s) at 2. f_equal.
  destruct (list_ascii_of_string s) as [|x l _] using rev_ind; [done|].
  rewrite last_snoc in H. rewrite rev_unit. simpl.
  unfold ceq. rewrite bool_decide_false by (intros ->; done).
  by rewrite <- rev_unit, rev_involutive.
Qed.

Lemma rstrip_char_snoc c s : rstrip_char c (s +:+ String c EmptyString) = rstrip_char c s.
Proof.
  unfold rstrip_char. rewrite list_ascii_app, rev_app_distr. simpl.
  unfold ceq. by rewrite bool_decide_true.
Qed.

Lemma last_char_join sep ds d :
  last ds = Some d -> d <> EmptyString -> last_char (join sep ds) = last_char d.
Proof.
  induction ds as [|d0 ds IH]; intros Hl Hne; [done|].
  destruct ds as [|d1 ds].
  - simpl in Hl. by injection Hl as ->.
  - rewrite last_cons_cons in Hl.
    change (join sep (d0 :: d1 :: ds)) with (d0 +:+ sep +:+ join sep (d1 :: ds)).
    assert (join sep (d1 :: ds) <> EmptyString) as Hj.
    { intros Hj. pose proof (IH Hl Hne) as H. rewrite Hj in H.
      destruct d as [|x d]; [done|]. unfold last_char in H; simpl in H.
      rewrite last_cons in H. by destruct (last (list_ascii_of_string d)). }
    rewrite last_char_app.
    + destruct sep as [|x sep]; [by apply IH|]. rewrite last_char_app by done. by apply IH.
    + destruct sep; [done|discriminate].
Qed.

Lemma drop_while_suffix p l : exists pre, l = pre ++ drop_while p l.
Proof.
  induction l as [|c l (pre & IH)]; simpl; [by exists []|].
  destruct (p c); [exists (c :: pre); simpl; by f_equal | by exists []].
Qed.

Lemma drop_while_head p l c l' : drop_while p l = c :: l' -> p c = false.
Proof. induction l as [|d l IH]; simpl; [done|]. destruct (p d) eqn:E; [done|]. by intros [= -> _]. Qed.

Lemma drop_while_stable p l : (forall c l', l = c :: l' -> p c = false) -> drop_while p l = l.
Proof. destruct l as [|c l]; [done|]. intros H. simpl. by rewrite (H c l). Qed.

(** [s.strip().strip() == s.strip()] *)
Lemma strip_idem s : strip (strip s) = strip s.
Proof.
  unfold strip. rewrite list_ascii_of_string_of_list_ascii. f_equal.
  set (m := drop_while isspace (list_ascii_of_string s)).
  set (r := drop_while isspace (rev m)).
  destruct (drop_while_suffix isspace (rev m)) as (pre & Hpre). fold r in Hpre.
  assert (m = rev r ++ rev pre) as Hm.
  { rewrite <- rev_app_distr, <- Hpre. by rewrite rev_involutive. }
  rewrite (drop_while_stable _ (rev r)).
  - rewrite rev_involutive, (drop_while_stable _ r); [done|].
    intros c l' Hr. by apply (drop_while_head isspace (rev m) c l').
  - intros c l' Hr. apply (drop_while_head isspace (list_ascii_of_string s) c (l' ++ rev pre)).
    fold m. by rewrite Hm, Hr.
Qed.

Lemma strip_incl s c :
  In c (list_ascii_of_string (strip s)) -> In c (list_ascii_of_string s).
Proof.
  unfold strip. rewrite list_ascii_of_string_of_list_ascii. intros Hx%in_rev.
  destruct (drop_while_suffix isspace (list_ascii_of_string s)) as (p1 & E1).
  destruct (drop_while_suffix isspace (rev (drop_while isspace (list_ascii_of_string s)))) as (p2 & E2).
  rewrite E1. apply in_or_app; right. apply in_rev. rewrite E2. apply in_or_app; by right.
Qed.

Lemma strip_has_char c s : has_char c s = false -> has_char c (strip s) = false.
Proof. rewrite !has_char_false. intros H Hin. by apply H, strip_incl. Qed.

Lemma cut_at_free x s : has_char x (cut_at x s) = false.
Proof.
  induction s as [|c s IH]; [done|]. simpl.
  destruct (ceq c x) eqn:E; [done|]. unfold has_char in *. simpl.
  unfold ceq in *. rewrite bool_decide_false; [done|]. intros <-. by rewrite bool_decide_true in E.
Qed.

Lemma split_runs_free sep s :
  (forall c, In c (list_ascii_of_string s) -> sep c = false) -> split_runs sep s = [s].
Proof.
  induction s as [|c s IH]; intros H; [done|]. simpl.
  rewrite IH by (intros; apply H; by right). by rewrite (H c) by (by left).
Qed.

Lemma join_chars sep ws c :
  In c (list_ascii_of_string (join sep ws)) ->
  In c (list_ascii_of_string sep) \/ exists w, In w ws /\ In c (list_ascii_of_string w).
Proof.
  induction ws as [|w ws IH]; simpl; [done|].
  destruct ws as [|w' ws'].
  - intros Hc. right. exists w. auto.
  - rewrite !list_ascii_app. intros [Hc|[Hc|Hc]%in_app_or]%in_app_or.
    + right. exists w. auto.
    + by left.
    + destruct (IH Hc) as [?|(w0 & ? & ?)]; [by left|right; exists w0; auto].
Qed.

Lemma append_assoc_str s1 s2 s3 : (s1 +:+ s2) +:+ s3 = s1 +:+ (s2 +:+ s3).
Proof. induction s1 as [|c s1 IH]; [done|]. rewrite !append_cons. by f_equal. Qed.

Lemma ceq_false_sym a b : ceq a b = false -> ceq b a = false.
Proof. unfold ceq. rewrite !bool_decide_eq_false. congruence. Qed.

Lemma forallb_has_char (p : ascii -> bool) c s :
  forallb p (list_ascii_of_string s) = true -> p c = false -> has_char c s = false.
Proof.
  intros Hs Hc. apply has_char_false. intros Hin.
  rewrite forallb_forall in Hs. specialize (Hs c Hin). congruence.
Qed.

(** Reading a line without carriage return, then the rest. *)
Lemma translate_newlines_app a b :
  has_char "013" a = false -> translate_newlines (a +:+ b) = a +:+ translate_newlines b.
Proof.
  induction a as [|c a IH]; [done|]. unfold has_char; simpl.
  intros [Hc Ha]%orb_false_iff. fold (has_char "013" a) in Ha.
  rewrite (ceq_false_sym _ _ Hc). by rewrite IH.
Qed.

Lemma lines_keep_app a b :
  has_char "010" a = false ->
  lines_keep (a +:+ String "010" b) = (a +:+ String "010" EmptyString) :: lines_keep b.
Proof.
  induction a as [|c a IH]; intros Ha.
  - simpl. unfold ceq. by rewrite ?bool_decide_true.
  - unfold has_char in Ha; simpl in Ha. apply orb_false_iff in Ha as [Hc Ha].
    fold (has_char "010" a) in Ha. simpl. rewrite (ceq_false_sym _ _ Hc), IH by done. done.
Qed.

(** A line that begins and ends with a visible character loses only its
    newline to [strip]. *)
Lemma strip_line a :
  (forall c l, list_ascii_of_string a = c :: l -> isspace c = false) ->
  (forall c l, rev (list_ascii_of_string a) = c :: l -> isspace c = false) ->
  a <> EmptyString ->
  strip (a +:+ String "010" EmptyString) = a.
Proof.
  intros Hfirst Hlast Hne. unfold strip. rewrite list_ascii_app. simpl.
  destruct (list_ascii_of_string a) as [|c l] eqn:E.
  { destruct a; [done|discriminate]. }
  rewrite (drop_while_stable _ ((c :: l) ++ ["010"%char])).
  2: { intros c' l' [= <- _]. by apply (Hfirst c l). }
  rewrite rev_app_distr. simpl.
  rewrite (drop_while_stable _ (rev l ++ [c])) by exact (Hlast).
  rewrite rev_unit, rev_involutive, <- E. apply string_of_list_ascii_of_string.
Qed.

Lemma prefix_app_l p s : String.prefix p (p +:+ s) = true.
Proof.
  induction p as [|c p IH]; [apply prefix_nil|]. rewrite append_cons. simpl.
  destruct (ascii_dec c c); [done|congruence].
Qed.

Lemma prefix_trans p q s :
  String.prefix p q = true -> String.prefix q s = true -> String.prefix p s = true.
Proof.
  revert q s; induction p as [|c p IH]; intros q s; [intros _ _; apply prefix_nil|].
  destruct q as [|d q]; [done|]. destruct s as [|e s]; [simpl; by intros _ ?|]. simpl.
  destruct (ascii_dec c d), (ascii_dec d e); subst; try done.
  destruct (ascii_dec e e); [apply IH|congruence].
Qed.

(** A pattern found in a prefix of a text is found in the text. *)
Lemma contains_prefix p q s :
  contains p q = true -> String.prefix q s = true -> contains p s = true.
Proof.
  revert s; induction q as [|c q IH]; intros s Hq Hs.
  - destruct p; simpl in Hq; [by destruct s|done].
  - destruct s as [|d s]; [done|].
    assert (String.prefix (String c q) (String d s) = true) as Hcs by done.
    simpl in Hs. destruct (ascii_dec c d) as [<-|]; [|done].
    cbn [contains] in Hq |- *. apply orb_true_iff in Hq as [Hp|Hq]; apply orb_true_iff.
    + left. by eapply prefix_trans.
    + right. by apply IH.
Qed.

(** Two decompositions of one string: the longer right part ends with
    the shorter one. *)
Lemma append_suffix u r v b :
  u +:+ r = v +:+ b -> String.length b <= String.length r -> exists x, r = x +:+ b.
Proof.
  revert v; induction u as [|c u IH]; intros v E Hl.
  - exists v. by rewrite append_nil_l in E.
  - destruct v as [|d v].
    + rewrite append_nil_l in E. subst b. rewrite append_cons in Hl. simpl in Hl.
      rewrite length_append in Hl. lia.
    + rewrite !append_cons in E. injection E as -> E. by apply (IH v).
Qed.

End PyFacts.
