(* ===== verification/Proc.v ===== *)
(** * External tools: [run] (lines 38-59 of [implib-gen.py])

    Every tool the script calls ([readelf], [nm], [file], [c++filt]) is
    reached through [run], which aborts the script when the tool exits with a
    non-zero status or writes anything on standard error.  The tools
    themselves are an interface: the typeclass [System] gives, for an
    argument vector and a standard input, what the process does.  Every
    component that reads tool output is stated against this interface and
    holds for every instance of it. *)

From S2P Require Import Prelude PyStr.

(** What [subprocess.Popen(...).communicate()] yields. *)
Record completed := mk_completed {
  returncode : Z;
  stdout : string;
  stderr : string
}.

(** [Popen] either starts the program or raises [OSError] (for example
    [FileNotFoundError] when the tool is not installed). *)
Inductive spawn :=
  | Spawned (c : completed)
  | SpawnFailed.

Class System := exec : list string -> string -> spawn.

Definition nl : string := String "010"%char EmptyString.

Section Run.
Context `{System}.

(** [run(args, stdin)] *)
Definition run (args : list string) (stdin : string) : result string :=
  match exec args stdin with
  | SpawnFailed => crash:("OSError")
  | Spawned c =>
      if negb (bool_decide (returncode c = 0%Z)) || negb (String.eqb (stderr c) "")
      then fatal:(default "" (head args) +:+ " failed with retcode "
                   +:+ Py.str_of_Z (returncode c) +:+ ":" +:+ nl +:+ stderr c)
      else Ok (stdout c)
  end.

(** [try: ... except (OSError, subprocess.SubprocessError): <default>]
    around one call of [run]: only a failed spawn is caught, the exit of
    [error()] is not. *)
Definition catch_oserror {A} (r : result A) (dflt : A) : result A :=
  match r with
  | Err (Crash "OSError") => Ok dflt
  | _ => r
  end.

Lemma run_Ok args stdin o :
  run args stdin = Ok o <->
  exists c, exec args stdin = Spawned c /\ returncode c = 0%Z /\
            stderr c = "" /\ stdout c = o.
Proof.
  unfold run. destruct (exec args stdin) as [c|]; [|split; [done|by intros (? & ? & _)]].
  split.
  - destruct (bool_decide_reflect (returncode c = 0%Z)) as [Hr|Hr];
      destruct (String.eqb_spec (stderr c) "") as [He|He]; simpl; try done.
    intros [= <-]. by exists c.
  - intros (c' & [= <-] & Hr & He & <-). rewrite He, bool_decide_true by done. done.
Qed.
End Run.
