(* ===== verification/Rows.v ===== *)
(** * Listing rows: [make_toc] and [parse_row] (lines 95-111)

    The three [readelf] parsers ([collect_syms], [collect_relocs],
    [collect_sections]) name the columns of a listing from its header line
    ([make_toc]) and turn each row into a dict from column name to cell
    ([parse_row]), converting the hexadecimal columns.  A dict is a [gmap]
    from column name to [cell]. *)

From S2P Require Import Prelude PyStr.

Module Rows.
Import Py.

(** A cell of a row dict: the string read from the listing, the integer
    it becomes for a hexadecimal column, or the pair (symbol, addend) that
    [collect_relocs] stores in place of ["Symbol's Name + Addend"]. *)
Inductive cell :=
  | CStr (s : string)
  | CInt (z : Z)
  | CPair (n : string) (a : Z).

(** [make_toc(words, renames)]: column [i] is named [renames.get(n, n)]. *)
Definition make_toc (renames : gmap string string) (words : list string) : list string :=
  map (fun n => default n (renames !! n)) words.

(** [{k: (words[i] if i < len(words) else "") for i, k in toc.items()}]:
    a later column of the same name overrides an earlier one. *)
Fixpoint row_go (toc words : list string) (m : gmap string cell) : gmap string cell :=
  match toc with
  | [] => m
  | k :: toc' => row_go toc' (tail words) (<[k := CStr (default "" (head words))]> m)
  end.

(** [if vals[k]: vals[k] = int(vals[k], 16)] *)
Definition hex_cell (m : gmap string cell) (k : string) : result (gmap string cell) :=
  match m !! k with
  | None => crash:("KeyError")
  | Some (CStr s) =>
      if String.eqb s "" then Ok m
      else match int16 s with
           | Some z => Ok (<[k := CInt z]> m)
           | None => crash:("ValueError")
           end
  | Some (CInt _) | Some (CPair _ _) => crash:("TypeError")
  end.

Definition parse_row (words toc hex_keys : list string) : result (gmap string cell) :=
  fold_result hex_cell hex_keys (row_go toc words ∅).

Definition get_str (m : gmap string cell) (k : string) : result string :=
  match m !! k with
  | Some (CStr s) => Ok s
  | Some (CInt _) | Some (CPair _ _) => crash:("TypeError")
  | None => crash:("KeyError")
  end.

Definition get_hex (m : gmap string cell) (k : string) : option Z :=
  match m !! k with Some (CInt z) => Some z | _ => None end.

(** A hexadecimal column after [parse_row]: converted, or left empty. *)
Definition hex_ok (m : gmap string cell) (k : string) : Prop :=
  m !! k = Some (CStr "") \/ exists z, m !! k = Some (CInt z).

(** ** Lemmas *)

Lemma hex_cell_other m j m' k :
  hex_cell m j = Ok m' -> k <> j -> m' !! k = m !! k.
Proof.
  unfold hex_cell. intros H Hk.
  destruct (m !! j) as [[s|z|n a]|]; try done.
  destruct (String.eqb s ""); [by inversion H|].
  destruct (int16 s); inversion H; subst. by rewrite lookup_insert_ne.
Qed.

Lemma hex_cell_ok m k m' : hex_cell m k = Ok m' -> hex_ok m' k.
Proof.
  unfold hex_cell, hex_ok. destruct (m !! k) as [[s|z|n a]|] eqn:E; try done.
  destruct (String.eqb_spec s ""); [intros [= <-]; subst; by left|].
  destruct (int16 s) as [z|]; [|done]. intros [= <-]. right. exists z. by rewrite lookup_insert_eq.
Qed.

Lemma hex_cell_keeps m j m' k : hex_cell m j = Ok m' -> hex_ok m k -> hex_ok m' k.
Proof.
  intros H Hk. destruct (decide (k = j)) as [->|Hne]; [by eapply hex_cell_ok|].
  unfold hex_ok. by rewrite (hex_cell_other _ _ _ _ H Hne).
Qed.

Lemma parse_row_other words toc keys r k :
  parse_row words toc keys = Ok r -> k ∉ keys -> r !! k = row_go toc words ∅ !! k.
Proof.
  unfold parse_row. generalize (row_go toc words ∅) as m.
  induction keys as [|j keys IH]; simpl; intros m H Hk; [by inversion H|].
  inv_bind. rewrite (IH _ H) by set_solver. apply (hex_cell_other _ _ _ _ Ha). set_solver.
Qed.

(** Every hexadecimal column of a parsed row is converted or empty. *)
Lemma parse_row_hex words toc keys r :
  parse_row words toc keys = Ok r -> forall k, k ∈ keys -> hex_ok r k.
Proof.
  unfold parse_row. generalize (row_go toc words ∅) as m.
  intros m H k Hk. revert m H.
  induction keys as [|j keys IH]; simpl; intros m H; [by apply elem_of_nil in Hk|].
  inv_bind. apply elem_of_cons in Hk as [->|Hk].
  - eapply (fold_result_inv (fun m => hex_ok m j)); [|by eapply hex_cell_ok|exact H].
    intros ? x ? _ ? ?. by eapply hex_cell_keeps.
  - by eapply IH.
Qed.

End Rows.
