(* ===== verification/Symbols.v ===== *)
(** * Symbol collection: [collect_syms] (lines 114-228) and demangling (783-787)

    The symbol table is read from [readelf -sW] (ELF) or [nm -D] (Mach-O),
    with visibility taken from [nm -g].  The ELF reader is a state machine
    over the lines of the listing: its state is the column table [toc] of the
    current listing section (or none between sections), the symbols kept so
    far and the set of raw names already seen.  Rows become Python dicts;
    here a row is a [gmap] from column name to cell, and a kept symbol is the
    record [sym] with the keys the rest of the script reads. *)

From S2P Require Import Prelude PyStr Proc Rows.

Module Symbols.
Import Py Rows.

(** A symbol as the script keeps it: the dict with keys [Name], [Value],
    [Size], [Type], [Bind], [Ndx], [Default], [Version], [Visibility] and,
    once [main] has run [c++filt], ["Demangled Name"].  [s_value] is [None]
    when the [Value] cell was empty (the script then leaves the string [""]
    there); [s_demangled] is [None] while the key is absent. *)
Record sym := mk_sym {
  s_name : string;
  s_value : option Z;
  s_size : Z;
  s_type : string;
  s_bind : string;
  s_ndx : string;
  s_default : bool;
  s_version : option string;
  s_visibility : string;
  s_demangled : option string
}.

Definition with_demangled (d : string) (s : sym) : sym :=
  mk_sym (s_name s) (s_value s) (s_size s) (s_type s) (s_bind s) (s_ndx s)
         (s_default s) (s_version s) (s_visibility s) (Some d).

(** ** Visibility from [nm -g] (lines 118-128) *)

Definition visibility_line (vis : gmap string string) (line : string) : gmap string string :=
  match split line with
  | _ :: symbol_type :: symbol_name :: _ =>
      <[symbol_name := if isupper symbol_type then "DEFAULT" else "HIDDEN"]> vis
  | _ => vis
  end.

Definition collect_visibility (nm_out : string) : gmap string string :=
  foldl visibility_line ∅ (splitlines nm_out).

(** [visibility.get(name, "DEFAULT")] *)
Definition visibility_of (vis : gmap string string) (name : string) : string :=
  default "DEFAULT" (vis !! name).

(** ** Versioned names (lines 212-219) *)

(** [if "@" in name: Default = "@@" in name; name, ver = re.split(r"@+", name)];
    the unpacking raises [ValueError] unless there are exactly two pieces. *)
Definition split_version (name : string) : result (string * bool * option string) :=
  if contains "@" name then
    match split_runs (ceq "@") name with
    | [n; v] => Ok (n, contains "@@" name, Some v)
    | _ => crash:("ValueError")
    end
  else Ok (name, true, None).

(** ** The [re.sub(r"\[<localentry>: [0-9]+\]", "", line)] of line 187 *)

Fixpoint strip_prefix (p s : string) : option string :=
  match p, s with
  | EmptyString, _ => Some s
  | String a p', String b s' => if ceq a b then strip_prefix p' s' else None
  | String _ _, EmptyString => None
  end.

(** Digits, then the closing bracket. *)
Fixpoint skip_digits_bracket (s : string) : option string :=
  match s with
  | EmptyString => None
  | String c s' => if is_digit c then skip_digits_bracket s' else if ceq c "]" then Some s' else None
  end.

Definition match_localentry (s : string) : option string :=
  match strip_prefix "[<localentry>: " s with
  | Some (String c rest) => if is_digit c then skip_digits_bracket rest else None
  | _ => None
  end.

(** Left to right, removing each match; the fuel is the length of the
    string, and each step consumes at least one character. *)
Fixpoint sub_localentry_go (fuel : nat) (s : string) : string :=
  match fuel with
  | O => s
  | S fuel' =>
      match s with
      | EmptyString => EmptyString
      | String c s' =>
          match match_localentry s with
          | Some rest => sub_localentry_go fuel' rest
          | None => String c (sub_localentry_go fuel' s')
          end
      end
  end.

Definition sub_localentry (s : string) : string := sub_localentry_go (String.length s) s.

(** ** The parser state *)

Record parser := mk_parser {
  p_toc : option (list string);
  p_syms : list sym;
  p_seen : gset string
}.

Definition parser_init : parser := mk_parser None [] ∅.

Definition set_toc (t : option (list string)) (st : parser) : parser :=
  mk_parser t (p_syms st) (p_seen st).

Definition keep (raw : string) (s : sym) (st : parser) : parser :=
  mk_parser (p_toc st) (p_syms st ++ [s]) ({[raw]} ∪ p_seen st).

(** ** [readelf -sW] rows and lines (lines 183-223) *)

Definition elf_row (vis : gmap string string) (st : parser) (toc words : list string)
  : result parser :=
  r <- parse_row words toc ["Value"] ;;
  name <- get_str r "Name" ;;
  if String.eqb name "" then Ok st
  else if bool_decide (name ∈ p_seen st) then Ok st
  else
    size_s <- get_str r "Size" ;;
    size <- (match int0 size_s with Some z => Ok z | None => crash:("ValueError") end) ;;
    sv <- split_version name ;;
    let '(n, dflt, ver) := sv in
    typ <- get_str r "Type" ;;
    bind <- get_str r "Bind" ;;
    ndx <- get_str r "Ndx" ;;
    Ok (keep name (mk_sym n (get_hex r "Value") size typ bind ndx dflt ver
                          (visibility_of vis n) None) st).

Definition elf_line (vis : gmap string string) (st : parser) (raw : string) : result parser :=
  let line := sub_localentry (strip raw) in
  if String.eqb line "" then Ok (set_toc None st)
  else
    let words := split_runs (ceq " ") line in
    if startswith line "Num" then
      match p_toc st with
      | Some _ => fatal:("multiple headers in output of readelf")
      | None => Ok (set_toc (Some (make_toc ∅ (map (remove_char ":") words))) st)
      end
    else
      match p_toc st with
      | Some toc => elf_row vis st toc words
      | None => Ok st
      end.

(** The ELF branch of [collect_syms], with the check of line 225. *)
Definition parse_readelf_syms (f : string) (vis : gmap string string) (out : string)
  : result (list sym) :=
  st <- fold_result (elf_line vis) (splitlines out) parser_init ;;
  match p_toc st with
  | None => fatal:("failed to analyze symbols in " +:+ f)
  | Some _ => Ok (p_syms st)
  end.

(** ** The Mach-O branch (lines 149-178) *)

Definition macho_line (vis : gmap string string) (st : parser) (raw : string) : result parser :=
  let line := strip raw in
  if String.eqb line "" then Ok st
  else
    match split line with
    | address :: symbol_type :: name :: _ =>
        if bool_decide (name ∈ p_seen st) then Ok st
        else
          value <- (if String.eqb address "U" then Ok 0%Z
                   else match int16 address with Some z => Ok z | None => crash:("ValueError") end) ;;
          let ty := upper symbol_type in
          Ok (keep name (mk_sym name (Some value) 0
                           (if String.eqb ty "T" then "FUNC" else "OBJECT")
                           (if isupper symbol_type then "GLOBAL" else "LOCAL")
                           (if String.eqb ty "U" then "UND" else "1")
                           true None (visibility_of vis name) None) st)
    | _ => Ok st
    end.

Definition parse_macho_syms (vis : gmap string string) (out : string) : result (list sym) :=
  st <- fold_result (macho_line vis) (splitlines out) parser_init ;;
  Ok (p_syms st).

(** ** [collect_syms(f)] *)

Section Collect.
Context `{System}.

Definition is_macho_file (f : string) : result bool :=
  catch_oserror (file_out <- run ["file"; f] "" ;; Ok (contains "Mach-O" file_out)) false.

Definition collect_syms (f : string) : result (list sym) :=
  nm_out <- run ["nm"; "-g"; f] "" ;;
  let vis := collect_visibility nm_out in
  is_macho <- is_macho_file f ;;
  if is_macho then
    (out <- run ["nm"; "-D"; f] "" ;; parse_macho_syms vis out)
  else
    (out <- run ["readelf"; "-sW"; f] "" ;; parse_readelf_syms f vis out).

(** ** Demangled names (lines 783-787 of [main]) *)

(** [for i, name in enumerate(lines): syms[i]["Demangled Name"] = name] *)
Fixpoint set_demangled (syms : list sym) (names : list string) : result (list sym) :=
  match names, syms with
  | [], _ => Ok syms
  | n :: ns, s :: ss => rest <- set_demangled ss ns ;; Ok (with_demangled n s :: rest)
  | _ :: _, [] => crash:("IndexError")
  end.

Definition demangle (syms : list sym) : result (list sym) :=
  match syms with
  | [] => Ok syms
  | _ =>
      out <- run ["c++filt"] (join nl (map s_name syms)) ;;
      set_demangled syms (split_char "010"%char (rstrip_char "010"%char out))
  end.
End Collect.

(** ** Theorems *)

Import PyFacts.

(** *** Versioned names *)

Definition sym_wf (s : sym) : Prop :=
  has_char "@" (s_name s) = false /\ (s_version s = None -> s_default s = true).

(** The parser invariant: kept symbols are well formed, and each was kept
    for a raw name not seen before (one symbol per element of the set). *)
Definition parser_wf (st : parser) : Prop :=
  Forall sym_wf (p_syms st) /\ List.length (p_syms st) = size (p_seen st).

Definition listing_one : string :=
  "Num: Value Size Type Bind Vis Ndx Name" +:+ nl +:+
  "1: 0000000000001139 11 FUNC GLOBAL DEFAULT 12 foo".

Definition macho_shape (s : sym) : Prop :=
  (s_type s = "FUNC" \/ s_type s = "OBJECT") /\
  (s_bind s = "GLOBAL" \/ s_bind s = "LOCAL") /\
  (s_ndx s = "UND" \/ s_ndx s = "1") /\
  s_size s = 0%Z /\ s_default s = true /\ s_version s = None.

Definition filt_system (names : list string) : System :=
  fun args stdin => Spawned (mk_completed 0 (join nl names +:+ nl) "").

Definition two_syms : list sym :=
  [mk_sym "_ZN1C3fooEv" None 0 "FUNC" "GLOBAL" "12" true None "DEFAULT" None;
   mk_sym "bar" None 0 "FUNC" "GLOBAL" "12" true None "DEFAULT" None].

Lemma split_version_free name n d v :
  split_version name = Ok (n, d, v) -> has_char "@" n = false.
Proof.
  unfold split_version. destruct (contains "@" name) eqn:Hc.
  - destruct (split_runs (ceq "@") name) as [|n' [|v' [|]]] eqn:E; try discriminate.
    intros [= <- _ _]. apply (split_runs_char_free "@" name). rewrite E; by left.
  - intros [= <- _ _]. by rewrite <- contains_char.
Qed.

Lemma split_version_none name n d :
  split_version name = Ok (n, d, None) -> d = true.
Proof.
  unfold split_version. destruct (contains "@" name); [|by intros [= _ <-]].
  destruct (split_runs (ceq "@") name) as [|n' [|v' [|]]]; by try discriminate.
Qed.

(** Normalising a name twice is normalising it once: the name a
    successful version split returns has no [@], so splitting it again
    leaves it unchanged, as a default-version symbol without version. *)
Theorem split_version_idem name n d v :
  split_version name = Ok (n, d, v) -> split_version n = Ok (n, true, None).
Proof.
  intros H. unfold split_version at 1.
  by rewrite contains_char, (split_version_free _ _ _ _ H).
Qed.

Lemma split_version_idem_witness :
  split_version "read@@GLIBC_2.2.5" = Ok ("read", true, Some "GLIBC_2.2.5") /\
  split_version "read" = Ok ("read", true, None).
Proof.
  split; [vm_compute; reflexivity|].
  apply (split_version_idem "read@@GLIBC_2.2.5" "read" true (Some "GLIBC_2.2.5")).
  vm_compute. reflexivity.
Defined.

(** A name with two version separators cannot be unpacked into a name
    and a version: the script stops with [ValueError]. *)
Example split_version_two_separators :
  split_version "a@b@c" = crash:("ValueError").
Proof. vm_compute. reflexivity. Qed.

(** *** The readelf parser *)

Lemma parser_init_wf : parser_wf parser_init.
Proof. split; [constructor | done]. Qed.

Lemma set_toc_wf t st : parser_wf st -> parser_wf (set_toc t st).
Proof. done. Qed.

Lemma keep_wf raw s st :
  parser_wf st -> raw ∉ p_seen st -> sym_wf s -> parser_wf (keep raw s st).
Proof.
  intros [Hall Hlen] Hraw Hs. split; simpl.
  - apply Forall_app; auto.
  - rewrite length_app, size_union, size_singleton by set_solver. simpl. lia.
Qed.

Lemma elf_row_wf vis st toc words st' :
  parser_wf st -> elf_row vis st toc words = Ok st' -> parser_wf st'.
Proof.
  unfold elf_row. intros Hwf H. inv_bind.
  destruct (String.eqb _ "") ; [by inv_bind|].
  case_bool_decide as Hin; [by inv_bind|].
  inv_bind. match goal with H : split_version _ = Ok ?sv |- _ => destruct sv as [[n d] v] end.
  inv_bind.
  apply keep_wf; [done|done|]. split; simpl.
  - by eapply split_version_free.
  - intros ->. by eapply split_version_none.
Qed.

Lemma elf_line_wf vis st l st' :
  parser_wf st -> elf_line vis st l = Ok st' -> parser_wf st'.
Proof.
  unfold elf_line. intros Hwf H.
  destruct (String.eqb _ ""); [by inv_bind|].
  destruct (startswith _ "Num"); destruct (p_toc st);
    first [discriminate | by inv_bind | by eapply elf_row_wf].
Qed.

(** C5: the [readelf -sW] parser keeps its invariant over any listing:
    every kept symbol's name is free of [@], a symbol without version is a
    default-version one, and the number of kept symbols equals the number of
    distinct raw names seen (no raw name is kept twice). *)
Theorem readelf_parser_wf vis lines st :
  fold_result (elf_line vis) lines parser_init = Ok st -> parser_wf st.
Proof.
  intros H. eapply (fold_result_inv parser_wf); [|apply parser_init_wf|exact H].
  intros; eapply elf_line_wf; eauto.
Qed.

(** C27: a second header inside one listing section (no blank line since
    the previous header) is the fatal "multiple headers" error. *)
Theorem readelf_second_header vis st t l :
  p_toc st = Some t ->
  sub_localentry (strip l) <> "" ->
  startswith (sub_localentry (strip l)) "Num" = true ->
  elf_line vis st l = fatal:("multiple headers in output of readelf").
Proof.
  intros Ht Hne Hnum. unfold elf_line.
  destruct (String.eqb_spec (sub_localentry (strip l)) "") as [|_]; [done|].
  by rewrite Hnum, Ht.
Qed.

Lemma readelf_parser_wf_witness :
  exists st, fold_result (elf_line ∅) (splitlines listing_one) parser_init = Ok st /\ parser_wf st.
Proof.
  eexists; split; [vm_compute; reflexivity|].
  apply (readelf_parser_wf ∅ (splitlines listing_one)). vm_compute. reflexivity.
Defined.

Lemma readelf_second_header_witness :
  p_toc (set_toc (Some ["Num"]) parser_init) = Some ["Num"] /\
  elf_line ∅ (set_toc (Some ["Num"]) parser_init) "Num: Value Name" =
    fatal:("multiple headers in output of readelf").
Proof.
  split; [reflexivity|].
  apply (readelf_second_header ∅ _ ["Num"]); [reflexivity | vm_compute; discriminate | vm_compute; reflexivity].
Defined.

(** C28: the "no header" check of line 225 tests the state after the last
    line, so a listing whose last line is blank aborts with the fatal
    "failed to analyze symbols" error even when its table was read. *)
Theorem readelf_trailing_blank f vis out lines l :
  splitlines out = lines ++ [l] -> strip l = "" ->
  is_ok (parse_readelf_syms f vis out) = false.
Proof.
  intros Hsplit Hl. unfold parse_readelf_syms. rewrite Hsplit, fold_result_app.
  destruct (fold_result (elf_line vis) lines parser_init) as [st|e]; [|done].
  simpl. unfold elf_line. rewrite Hl. done.
Qed.

Lemma readelf_trailing_blank_witness :
  splitlines (listing_one +:+ nl +:+ nl) =
    ["Num: Value Size Type Bind Vis Ndx Name";
     "1: 0000000000001139 11 FUNC GLOBAL DEFAULT 12 foo"] ++ [""] /\
  is_ok (parse_readelf_syms "lib.so" ∅ (listing_one +:+ nl +:+ nl)) = false.
Proof.
  split; [vm_compute; reflexivity|].
  apply (readelf_trailing_blank _ _ _ ["Num: Value Size Type Bind Vis Ndx Name";
     "1: 0000000000001139 11 FUNC GLOBAL DEFAULT 12 foo"] ""); vm_compute; reflexivity.
Defined.

(** The same listing without the blank line is read. *)
Example listing_one_read :
  is_ok (parse_readelf_syms "lib.so" ∅ (listing_one +:+ nl)) = true.
Proof. vm_compute. reflexivity. Qed.

(** *** The Mach-O branch *)

(** Every symbol read from a Mach-O [nm] listing is a [FUNC] or
    [OBJECT] of size 0, [GLOBAL] or [LOCAL], with section index [UND] or
    [1], default version and no version string. *)
Theorem parse_macho_syms_shape vis out syms :
  parse_macho_syms vis out = Ok syms -> Forall macho_shape syms.
Proof.
  unfold parse_macho_syms. intros H. inv_bind.
  apply (fold_result_inv (fun st => Forall macho_shape (p_syms st))
           (macho_line vis) (splitlines out) parser_init); [|constructor|done].
  intros st x st' _ Hall Hstep. unfold macho_line in Hstep.
  destruct (String.eqb _ ""); [by inv_bind|].
  destruct (split (strip x)) as [|ad [|ty [|nm rest]]]; try by inv_bind.
  case_bool_decide; [by inv_bind|]. inv_bind.
  apply Forall_app; split; [done|]. constructor; [|constructor].
  repeat split; simpl; repeat case_match; auto.
Qed.

Lemma parse_macho_syms_shape_witness :
  exists syms, parse_macho_syms ∅ ("0000000100003f50 T _foo" +:+ nl +:+ "                 U _bar") = Ok syms /\
    Forall macho_shape syms.
Proof.
  eexists; split; [vm_compute; reflexivity|].
  apply (parse_macho_syms_shape ∅ ("0000000100003f50 T _foo" +:+ nl +:+ "                 U _bar")).
  vm_compute. reflexivity.
Defined.

(** *** Demangling *)

Lemma set_demangled_zip syms ds :
  List.length ds = List.length syms ->
  set_demangled syms ds = Ok (zip_with with_demangled ds syms).
Proof.
  revert syms; induction ds as [|d ds IH]; intros [|s ss] Hlen; simpl in *; try done.
  rewrite IH by lia. done.
Qed.

Lemma last_char_free c d : has_char c d = false -> last_char d <> Some c.
Proof.
  unfold last_char, has_char. intros Hd Hl.
  apply last_Some in Hl as (l' & Hl'). rewrite Hl', existsb_app in Hd.
  unfold ceq in Hd; simpl in Hd. rewrite bool_decide_true in Hd by done.
  by rewrite orb_true_r in Hd.
Qed.

(** C29: when [c++filt] answers with one line per name (no newline inside
    a line, the last line not empty, a final newline), every symbol receives
    the line of its own position as its demangled name. *)
Theorem demangle_roundtrip `{System} syms ds d :
  exec ["c++filt"] (join nl (map s_name syms)) =
    Spawned (mk_completed 0 (join nl ds +:+ nl) "") ->
  List.length ds = List.length syms ->
  Forall (fun x => has_char "010"%char x = false) ds ->
  last ds = Some d -> d <> "" ->
  demangle syms = Ok (zip_with with_demangled ds syms).
Proof.
  intros Hexec Hlen Hfree Hlast Hd.
  assert (ds <> []) as Hds by (intros ->; done).
  destruct syms as [|s0 ss]; [by destruct ds|].
  unfold demangle.
  assert (run ["c++filt"] (join nl (map s_name (s0 :: ss))) = Ok (join nl ds +:+ nl)) as ->.
  { apply run_Ok. eexists; split; [exact Hexec|done]. }
  cbn [rbind]. unfold nl. rewrite rstrip_char_snoc, rstrip_char_stable.
  - rewrite split_char_join by done. by apply set_demangled_zip.
  - rewrite (last_char_join _ _ d) by done. apply last_char_free.
    rewrite Forall_forall in Hfree. apply Hfree.
    by apply last_Some_elem_of in Hlast.
Qed.

Lemma demangle_roundtrip_witness :
  @demangle (filt_system ["C::foo()"; "bar"]) two_syms =
    Ok (zip_with with_demangled ["C::foo()"; "bar"] two_syms).
Proof.
  apply (@demangle_roundtrip (filt_system ["C::foo()"; "bar"]) two_syms _ "bar");
    [reflexivity | reflexivity | repeat constructor | reflexivity | discriminate].
Defined.

(** *** Termination of the [localentry] substitution *)

Lemma strip_prefix_length p s r :
  strip_prefix p s = Some r -> String.length r + String.length p = String.length s.
Proof.
  revert s; induction p as [|a p IH]; intros s H.
  - injection H as <-. simpl. lia.
  - destruct s as [|b s]; [done|]. simpl in H.
    destruct (ceq a b); [|done]. apply IH in H. simpl. lia.
Qed.

Lemma skip_digits_bracket_length s r :
  skip_digits_bracket s = Some r -> String.length r < String.length s.
Proof.
  induction s as [|c s IH]; simpl; [done|].
  destruct (is_digit c); [intros H; apply IH in H; lia|].
  destruct (ceq c "]"); [intros [= <-]; lia | done].
Qed.

Lemma match_localentry_length s r :
  match_localentry s = Some r -> String.length r < String.length s.
Proof.
  unfold match_localentry. destruct (strip_prefix _ s) as [[|c rest]|] eqn:E; try done.
  destruct (is_digit c); [|done]. intros H.
  apply skip_digits_bracket_length in H. apply strip_prefix_length in E. simpl in E. lia.
Qed.

Lemma sub_localentry_go_fuel n m s :
  String.length s <= n -> String.length s <= m ->
  sub_localentry_go n s = sub_localentry_go m s.
Proof.
  revert m s; induction n as [|n IH]; intros m s Hn Hm.
  - destruct s; [by destruct m|simpl in Hn; lia].
  - destruct m as [|m]; [destruct s; [done|simpl in Hm; lia]|].
    destruct s as [|c s]; [done|]. simpl.
    destruct (match_localentry (String c s)) as [r|] eqn:E.
    + apply match_localentry_length in E. simpl in *. apply IH; lia.
    + simpl in *. f_equal. apply IH; lia.
Qed.

(** The substitution of line 187 terminates within the fuel given
    (the length of the line): any larger fuel yields the same string. *)
Theorem sub_localentry_enough_fuel s n :
  String.length s <= n -> sub_localentry_go n s = sub_localentry s.
Proof. intros H. apply sub_localentry_go_fuel; [done|lia]. Qed.

Lemma sub_localentry_enough_fuel_witness :
  String.length "f [<localentry>: 8]" <= 40 /\
  sub_localentry_go 40 "f [<localentry>: 8]" = sub_localentry "f [<localentry>: 8]".
Proof. split; [vm_compute; lia | apply sub_localentry_enough_fuel; vm_compute; lia]. Defined.

End Symbols.
