(* ===== verification/Exports.v ===== *)
(** * Export policy and the function list: lines 725-734 and 765-836 of [main]

    [is_exported] decides which symbols the wrapper may bind; the exported
    [FUNC] symbols with a default version form the set [all_funs]; the list
    of functions that receive trampolines is that set sorted, or the user's
    [--symbol-list] restricted to it.  Warnings are returned as the list of
    messages the script writes to standard error, in order. *)

From S2P Require Import Prelude PyStr Proc Symbols.

Module Exports.
Import Py Symbols.

(** ** [is_exported(s)] (lines 765-775) *)
Definition is_exported (no_weak_symbols : bool) (s : sym) : bool :=
  negb (String.eqb (s_bind s) "LOCAL") &&
  negb (String.eqb (s_visibility s) "HIDDEN") &&
  negb (String.eqb (s_type s) "NOTYPE") &&
  negb (String.eqb (s_ndx s) "UND") &&
  negb (bool_decide (s_name s ∈ [""; "_init"; "_fini"])) &&
  (if no_weak_symbols then negb (String.eqb (s_bind s) "WEAK") else true).

(** ** [is_data_symbol(s)] (lines 791-796): the demangled name is read
    (and may be missing) before [args.vtables] is. *)
Definition is_data_symbol (vtables : bool) (s : sym) : result bool :=
  if String.eqb (s_type s) "OBJECT" then
    match s_demangled s with
    | None => crash:("KeyError")
    | Some d => Ok (negb (contains " for " d && vtables))
    end
  else Ok false.

(** Lines 798-805 *)
Definition data_warnings (input_name : string) (vtables : bool) (syms : list sym)
  : result (list string) :=
  data <- filter_result (is_data_symbol vtables) syms ;;
  Ok (match data with
      | [] => []
      | _ => ["library '" +:+ input_name +:+ "' contains data symbols which won't be intercepted: "
              +:+ join ", " (map s_name data)]
      end).

(** ** The function set (lines 810-823) *)

(** One iteration of the loop over [FUNC] symbols: the set [all_funs]
    and the flag [warn_versioned]. *)
Definition fun_step (acc : gset string * bool) (s : sym) : gset string * bool :=
  let '(all_funs, warned) := acc in
  if s_default s then ({[s_name s]} ∪ all_funs, warned) else (all_funs, true).

Definition collect_funs (syms : list sym) : gset string * bool :=
  foldl fun_step (∅, false)
    (List.filter (fun s => String.eqb (s_type s) "FUNC") syms).

Definition versioned_warning (input_name : string) (warned : bool) : list string :=
  if warned then ["library " +:+ input_name +:+ " contains versioned symbols which are NYI"]
  else [].

(** ** The functions that get trampolines (lines 825-836) *)
Definition select_funs (input_name : string) (quiet : bool) (all_funs : gset string)
    (user : option (list string)) : list string * list string :=
  match user with
  | None =>
      let funs := merge_sort String.le (elements all_funs) in
      (funs, match funs with
             | [] => if quiet then [] else ["no public functions were found in " +:+ input_name]
             | _ => []
             end)
  | Some l =>
      let missing := filter (fun n => n ∉ all_funs) l in
      (filter (fun n => n ∈ all_funs) l,
       match missing with
       | [] => []
       | _ => ["some user-specified functions are not present in library: " +:+ join ", " missing]
       end)
  end.

(** The part of [main] from the filter to the function list. *)
Definition exported_funs (no_weak_symbols quiet : bool) (input_name : string)
    (syms : list sym) (user : option (list string)) : list string * list string :=
  let exported := List.filter (is_exported no_weak_symbols) syms in
  let '(all_funs, warned) := collect_funs exported in
  let '(funs, ws) := select_funs input_name quiet all_funs user in
  (funs, versioned_warning input_name warned ++ ws).

(** ** The [--symbol-list] file (lines 725-734) *)

(** [re.split(r"\r?\n", text)]: the pieces between newlines, each piece but
    the last losing one carriage return before its newline. *)
Definition drop_cr (w : string) : string :=
  match PyFacts.last_char w with
  | Some "013"%char => string_of_list_ascii (removelast (list_ascii_of_string w))
  | _ => w
  end.

Fixpoint map_but_last {A} (f : A -> A) (l : list A) : list A :=
  match l with
  | [] => []
  | [x] => [x]
  | x :: l' => f x :: map_but_last f l'
  end.

Definition split_crlf (text : string) : list string :=
  map_but_last drop_cr (split_char "010"%char text).

(** [re.sub(r"#.*", "", line)], [line.strip()], [if line: funs.append(line)] *)
Definition parse_symbol_list (text : string) : list string :=
  List.filter (fun w => negb (String.eqb w ""))
    (map (fun line => strip (cut_at "#" line)) (split_crlf text)).

(** ** Theorems *)

Definition lib_abc : list sym :=
  [mk_sym "c" (Some 16%Z) 4%Z "FUNC" "GLOBAL" "12" true None "DEFAULT" None;
   mk_sym "a" (Some 32%Z) 4%Z "FUNC" "GLOBAL" "12" true None "DEFAULT" None;
   mk_sym "h" (Some 48%Z) 4%Z "FUNC" "GLOBAL" "12" true None "HIDDEN" None;
   mk_sym "b" (Some 64%Z) 4%Z "FUNC" "GLOBAL" "12" true None "DEFAULT" None].

Lemma foldl_fun_step l all w n :
  n ∈ (foldl fun_step (all, w) l).1 <->
  n ∈ all \/ exists s, In s l /\ s_default s = true /\ s_name s = n.
Proof.
  revert all w; induction l as [|s l IH]; intros all w; simpl.
  - split; [auto|]. by intros [?|(? & [] & _)].
  - destruct (s_default s) eqn:Hd; rewrite IH; split.
    + intros [[->%elem_of_singleton|Hin]%elem_of_union|(s' & ? & ? & ?)]; eauto 8.
    + intros [Hin|(s' & [<-|Hs'] & ? & <-)]; [set_solver|set_solver|eauto 8].
    + intros [Hin|(s' & ? & ? & ?)]; eauto 8.
    + intros [Hin|(s' & [<-|Hs'] & ? & <-)]; [auto|congruence|eauto 8].
Qed.

(** Membership in [all_funs]. *)
Lemma collect_funs_elem l n :
  n ∈ (collect_funs l).1 <->
  exists s, In s l /\ s_type s = "FUNC" /\ s_default s = true /\ s_name s = n.
Proof.
  unfold collect_funs. rewrite foldl_fun_step. split.
  - intros [Hin|(s & Hs & ? & ?)]; [set_solver|].
    apply filter_In in Hs as [? ?%String.eqb_eq]. eauto.
  - intros (s & Hs & ? & ? & ?). right. exists s.
    rewrite filter_In, String.eqb_eq. auto.
Qed.

Lemma select_funs_elem input q all user funs ws n :
  select_funs input q all user = (funs, ws) -> In n funs -> n ∈ all.
Proof.
  destruct user as [l|]; simpl; intros [= <- _] Hin.
  - by apply list_elem_of_In, list_elem_of_filter in Hin as [? _].
  - apply list_elem_of_In in Hin. rewrite (merge_sort_Permutation _ (elements all)) in Hin.
    by apply elem_of_elements.
Qed.

Lemma exported_funs_all nw q input syms user funs ws :
  exported_funs nw q input syms user = (funs, ws) ->
  funs = (select_funs input q (collect_funs (List.filter (is_exported nw) syms)).1 user).1.
Proof.
  unfold exported_funs.
  destruct (collect_funs _) as [all w]. destruct (select_funs _ _ _ _) as [f ws'].
  by intros [= <- _].
Qed.

Lemma is_exported_true nw s :
  is_exported nw s = true ->
  s_bind s <> "LOCAL" /\ s_visibility s <> "HIDDEN" /\ s_type s <> "NOTYPE" /\
  s_ndx s <> "UND" /\ s_name s ∉ [""; "_init"; "_fini"] /\ (nw = true -> s_bind s <> "WEAK").
Proof.
  unfold is_exported. intros H. destruct nw; simpl in H.
  all: repeat match type of H with (_ && _) = true => apply andb_prop in H as [H ?] end.
  all: repeat match goal with
         | Hb : negb (String.eqb _ _) = true |- _ => apply negb_true_iff, String.eqb_neq in Hb
         | Hb : negb (bool_decide _) = true |- _ => apply negb_true_iff, bool_decide_eq_false in Hb
         end.
  all: repeat split; auto; done.
Qed.

(** A function of the list is the name of an exported, default-version
    [FUNC] symbol. *)
Lemma exported_funs_elem nw q input syms user funs ws n :
  exported_funs nw q input syms user = (funs, ws) -> In n funs ->
  exists s, In s syms /\ s_name s = n /\ s_type s = "FUNC" /\ s_default s = true /\
    is_exported nw s = true.
Proof.
  intros H Hin. apply exported_funs_all in H. subst funs.
  destruct (select_funs _ _ _ _) as [f w] eqn:E. simpl in Hin.
  apply (select_funs_elem _ _ _ _ _ _ n E), collect_funs_elem in Hin
    as (s & Hs & Hfunc & Hdef & <-).
  apply filter_In in Hs as [Hs Hexp]. exists s. auto.
Qed.

(** C1: every function that receives a trampoline is the name of a symbol
    of the library that is a [FUNC] with the default version, not [LOCAL],
    not [HIDDEN], defined (section index not [UND]), not named [""],
    [_init] or [_fini], and not [WEAK] under [--no-weak-symbols]; with or
    without a user symbol list (spec section 8, first invariant). *)
Theorem exported_funs_sound nw q input syms user funs ws n :
  exported_funs nw q input syms user = (funs, ws) -> In n funs ->
  exists s, In s syms /\ s_name s = n /\ s_type s = "FUNC" /\ s_default s = true /\
    s_bind s <> "LOCAL" /\ s_visibility s <> "HIDDEN" /\ s_ndx s <> "UND" /\
    n ∉ [""; "_init"; "_fini"] /\ (nw = true -> s_bind s <> "WEAK").
Proof.
  intros H Hin. destruct (exported_funs_elem _ _ _ _ _ _ _ _ H Hin) as (s & Hs & <- & Hf & Hd & Hexp).
  apply is_exported_true in Hexp. exists s. naive_solver.
Qed.

Lemma exported_funs_sound_witness :
  exported_funs false false "lib.so" lib_abc None = (["a"; "b"; "c"], []) /\
  exists s, In s lib_abc /\ s_name s = "a" /\ s_type s = "FUNC" /\ s_default s = true /\
    s_bind s <> "LOCAL" /\ s_visibility s <> "HIDDEN" /\ s_ndx s <> "UND" /\
    "a" ∉ [""; "_init"; "_fini"] /\ (false = true -> s_bind s <> "WEAK").
Proof.
  split; [vm_compute; reflexivity|].
  apply (exported_funs_sound false false "lib.so" lib_abc None ["a"; "b"; "c"] []);
    [vm_compute; reflexivity | simpl; auto].
Defined.

(** C3: without a user list the functions are exactly the default-version
    exported [FUNC] names, sorted by [<=] on strings (Python's order for
    code points below 256) and without duplicates. *)
Theorem exported_funs_default nw q input syms funs ws :
  exported_funs nw q input syms None = (funs, ws) ->
  Sorted String.le funs /\ NoDup funs /\
  (forall s, In s syms -> is_exported nw s = true -> s_type s = "FUNC" ->
             s_default s = true -> In (s_name s) funs).
Proof.
  intros H. apply exported_funs_all in H. subst funs. unfold select_funs. cbn [fst].
  split; [apply Sorted_merge_sort, String.le_total|split].
  - apply (NoDup_Permutation_proper _ _ (merge_sort_Permutation _ _)), NoDup_elements.
  - intros s Hs Hexp Hf Hd.
    eapply Permutation_in; [symmetry; apply merge_sort_Permutation|].
    apply list_elem_of_In, elem_of_elements, collect_funs_elem.
    exists s. rewrite filter_In. auto.
Qed.

Lemma exported_funs_default_witness :
  exported_funs false true "lib.so" lib_abc None = (["a"; "b"; "c"], []) /\
  Sorted String.le ["a"; "b"; "c"] /\ NoDup ["a"; "b"; "c"] /\
  (forall s, In s lib_abc -> is_exported false s = true -> s_type s = "FUNC" ->
             s_default s = true -> In (s_name s) ["a"; "b"; "c"]).
Proof.
  assert (exported_funs false true "lib.so" lib_abc None = (["a"; "b"; "c"], [])) as H
    by (vm_compute; reflexivity).
  split; [exact H|]. exact (exported_funs_default false true "lib.so" lib_abc _ _ H).
Defined.

(** C6: with a user list the functions are the list's entries present in
    the library, in the list's order (a sub-list of it), and a warning is
    issued exactly when some entry is missing, naming the missing ones. *)
Theorem select_funs_user input q all l funs ws :
  select_funs input q all (Some l) = (funs, ws) ->
  funs `sublist_of` l /\ (forall n, In n funs <-> In n l /\ n ∈ all) /\
  (ws = [] <-> forall n, In n l -> n ∈ all) /\
  (forall n, In n l -> n ∉ all -> exists w, ws = [w] /\ In n (filter (fun m => m ∉ all) l)).
Proof.
  simpl. intros [= <- <-]. split; [apply sublist_filter|split; [|split]].
  - intros n. rewrite <- !list_elem_of_In, list_elem_of_filter. tauto.
  - destruct (filter (fun m => m ∉ all) l) as [|m ms] eqn:E; split; try done.
    + intros _ n Hn. destruct (decide (n ∈ all)) as [|Hn']; [done|].
      assert (n ∈ filter (fun m => m ∉ all) l) as Hf
        by (apply list_elem_of_filter; split; [done|by apply list_elem_of_In]).
      rewrite E in Hf. set_solver.
    + intros Hall. assert (m ∈ filter (fun m => m ∉ all) l) as Hf by (rewrite E; left).
      apply list_elem_of_filter in Hf as [Hm Hin%list_elem_of_In]. exfalso. by apply Hm, Hall.
  - intros n Hn Hnot.
    assert (n ∈ filter (fun m => m ∉ all) l) as Hf
      by (apply list_elem_of_filter; split; [done|by apply list_elem_of_In]).
    destruct (filter (fun m => m ∉ all) l) as [|m ms] eqn:E; [by apply not_elem_of_nil in Hf|].
    eexists; split; [reflexivity|]. by apply list_elem_of_In.
Qed.

(** Spec scenario 5: list [x, y, z] against a library exporting [x, y]. *)
Lemma select_funs_user_witness :
  select_funs "lib.so" false {["x"; "y"]} (Some ["x"; "y"; "z"]) =
    (["x"; "y"], ["some user-specified functions are not present in library: z"]) /\
  ["x"; "y"] `sublist_of` ["x"; "y"; "z"].
Proof.
  assert (select_funs "lib.so" false {["x"; "y"]} (Some ["x"; "y"; "z"]) =
    (["x"; "y"], ["some user-specified functions are not present in library: z"])) as H
    by (vm_compute; reflexivity).
  split; [exact H|]. exact (proj1 (select_funs_user _ _ _ _ _ _ H)).
Defined.

(** The user list is not de-duplicated: a name listed twice receives two
    trampolines. *)
Example select_funs_user_duplicate :
  (select_funs "lib.so" false {["x"]} (Some ["x"; "x"])).1 = ["x"; "x"].
Proof. vm_compute. reflexivity. Qed.

(** *** The symbol-list file *)

(** Each entry read from a [--symbol-list] file is non-empty, carries
    no comment character [#] and no surrounding whitespace. *)
Theorem parse_symbol_list_clean text w :
  In w (parse_symbol_list text) ->
  w <> "" /\ PyFacts.has_char "#" w = false /\ strip w = w.
Proof.
  unfold parse_symbol_list. intros (Hin & Hne)%filter_In.
  apply in_map_iff in Hin as (line & <- & _).
  split; [by intros E; rewrite E in Hne|split; [|apply PyFacts.strip_idem]].
  apply PyFacts.strip_has_char, PyFacts.cut_at_free.
Qed.

Lemma parse_symbol_list_clean_witness :
  In "y" (parse_symbol_list ("x" +:+ nl +:+ " y # comment" +:+ nl +:+ "#z")) /\
  "y" <> "" /\ PyFacts.has_char "#" "y" = false /\ strip "y" = "y".
Proof.
  assert (In "y" (parse_symbol_list ("x" +:+ nl +:+ " y # comment" +:+ nl +:+ "#z"))) as H
    by (vm_compute; auto).
  split; [exact H|]. exact (parse_symbol_list_clean _ _ H).
Defined.

End Exports.
