(* ===== verification/Vtables.v ===== *)
(** * Vtable reconstruction: [collect_relocated_data] (lines 407-430) and
      [generate_vtables] (lines 433-520)

    In vtable mode every exported vtable, typeinfo and typeinfo-name symbol
    is re-created in C.  Its unrelocated bytes are cut into pointer-sized
    little-endian words (or kept byte by byte for a typeinfo name); then
    each dynamic relocation of an accepted type that falls inside the
    symbol replaces the word it lands in.  The slot kinds are the inductive
    [slot] (the script's pairs [("byte", v)], [("offset", v)],
    [("reloc", rel)]).  Emission prints externs for the relocation targets
    outside the class symbols, one [typedef] and weak declaration per
    symbol, and one definition per symbol. *)

From S2P Require Import Prelude PyStr Proc Symbols.
From Stdlib Require Import Strings.Byte.

Module Vtables.
Import Py Symbols.

(** A relocation row: the dict of [collect_relocs] with the keys the
    vtable code reads.  [r_type] is [None] when the listing had no [Type]
    column (the key is absent and reading it raises [KeyError]);
    [r_offset] is [None] when the [Offset] cell was
    empty (the string [""] stays there); [r_target] is [None] when the
    ["Symbol's Name + Addend"] cell was empty, and otherwise the pair
    (symbol name, addend) split at the [+]. *)
Record reloc := mk_reloc {
  r_offset : option Z;
  r_type : option string;
  r_target : option (string * Z)
}.

Inductive slot :=
  | SByte (v : Z)
  | SOffset (v : Z)
  | SReloc (r : reloc).

(** ** One symbol (lines 411-429) *)

(** [s["Demangled Name"]], absent until [main] ran [c++filt]. *)
Definition demangled_of (s : sym) : result string :=
  match s_demangled s with Some d => Ok d | None => crash:("KeyError") end.

(** [for i in range(0, len(b), ptr_size):
       val = int.from_bytes(b[i * ptr_size : (i + 1) * ptr_size], "little")] *)
Definition words_of (ptr : nat) (b : list byte) : result (list slot) :=
  idx <- range_step (List.length b) ptr ;;
  Ok ((fun i => SOffset (from_bytes_le (slice (i * ptr) ((i + 1) * ptr) b))) <$> idx).

(** One relocation of the inner loop (lines 425-429). *)
Definition overlay (ptr : nat) (reloc_types : gset string) (start finish : Z)
    (slots : list slot) (rel : reloc) : result (list slot) :=
  match r_type rel with
  | None => crash:("KeyError")
  | Some t =>
      if bool_decide (t ∈ reloc_types) then
        match r_offset rel with
        | None => crash:("TypeError")
        | Some off =>
            if (start <=? off)%Z && (off <? finish)%Z then
              let i := Z.to_nat ((off - start) / Z.of_nat ptr) in
              if i <? List.length slots then Ok (<[i := SReloc rel]> slots)
              else crash:("AssertionError")
            else Ok slots
        end
      else Ok slots
  end.

Definition symbol_slots (ptr : nat) (reloc_types : gset string) (rels : list reloc)
    (s : sym) (b : list byte) : result (list slot) :=
  d <- demangled_of s ;;
  if startswith d "typeinfo name" then Ok ((fun x => SByte (Z.of_N (Byte.to_N x))) <$> b)
  else
    words <- words_of ptr b ;;
    start <- (match s_value s with Some v => Ok v | None => crash:("TypeError") end) ;;
    fold_result (overlay ptr reloc_types start (start + s_size s)) rels words.

(** [sorted(d.items())]: the keys in Python's string order. *)
Definition sorted_keys {A} (m : gmap string A) : list string :=
  merge_sort String.le (map fst (map_to_list m)).

(** [collect_relocated_data(syms, bites, rels, ptr_size, reloc_types)] *)
Definition collect_relocated_data (cls_syms : gmap string sym) (bites : gmap string (list byte))
    (rels : list reloc) (ptr : nat) (reloc_types : gset string)
  : result (gmap string (list slot)) :=
  fold_result
    (fun data name =>
       match cls_syms !! name, bites !! name with
       | Some s, Some b => slots <- symbol_slots ptr reloc_types rels s b ;; Ok (<[name := slots]> data)
       | _, _ => crash:("AssertionError")
       end)
    (sorted_keys cls_syms) ∅.

(** ** Emission (lines 433-520) *)

(** [sym_name, addend = val["Symbol's Name + Addend"]] and
    [re.sub(r"@.*", "", sym_name)] *)
Definition reloc_target (r : reloc) : result (string * Z) :=
  match r_target r with
  | Some (n, a) => Ok (cut_at "@" n, a)
  | None => crash:("ValueError")
  end.

(** The extern loop (lines 449-462): the set [printed] is consulted and
    never added to. *)
Definition extern_step (cls_syms : gmap string sym) (printed : gset string)
    (out : list string) (sl : slot) : result (list string) :=
  match sl with
  | SReloc r =>
      t <- reloc_target r ;;
      let sym_name := t.1 in
      if bool_decide (cls_syms !! sym_name = None) && bool_decide (sym_name ∉ printed)
      then Ok (out ++ [sym_name])
      else Ok out
  | _ => Ok out
  end.

(** The names, in order, that receive an [extern const char NAME[];]. *)
Definition extern_names (cls_syms : gmap string sym) (cls_data : gmap string (list slot))
  : result (list string) :=
  let printed : gset string := ∅ in
  fold_result (fun out name => fold_result (extern_step cls_syms printed) (default [] (cls_data !! name)) out)
    (sorted_keys cls_data) [].

Definition extern_decl (n : string) : string := "extern const char " +:+ n +:+ "[];" +:+ nl +:+ nl.

Definition c_type (sl : slot) : string :=
  match sl with
  | SReloc _ => "const void *"
  | SByte _ => "unsigned char"
  | SOffset _ => "size_t"
  end.

(** [f"{c_types[typ]} field_{i};"] *)
Definition field_decl (i : nat) (sl : slot) : string :=
  c_type sl +:+ " field_" +:+ str_of_Z (Z.of_nat i) +:+ ";".

(** The declarator, as a function of the name substituted for [%s]. *)
Definition declarator (s : sym) (data : list slot) (type_name : string) : result string :=
  d <- demangled_of s ;;
  if startswith d "typeinfo name" then Ok ("const unsigned char " +:+ type_name +:+ "[]")
  else Ok ("const struct { " +:+ join " " (imap field_decl data) +:+ " } " +:+ type_name).

(** A numeric slot prints as its decimal value followed by [UL]; a
    relocation prints as the address of its target plus the addend. *)
Definition slot_value (sl : slot) : result string :=
  match sl with
  | SByte v | SOffset v => Ok (str_of_Z v +:+ "UL")
  | SReloc r =>
      t <- reloc_target r ;;
      Ok ("(const char *)&" +:+ t.1 +:+ " + " +:+ str_of_Z t.2)
  end.

(** The declaration and the definition of one class symbol. *)
Definition symbol_code (cls_data : gmap string (list slot)) (name : string) (s : sym)
  : result (string * string) :=
  data <- (match cls_data !! name with Some d => Ok d | None => crash:("KeyError") end) ;;
  let type_name := name +:+ "_type" in
  decl <- declarator s data type_name ;;
  vals <- map_result slot_value data ;;
  Ok ("typedef " +:+ decl +:+ ";" +:+ nl +:+
      "extern __attribute__((weak)) " +:+ type_name +:+ " " +:+ name +:+ ";" +:+ nl,
      "const " +:+ type_name +:+ " " +:+ name +:+ " = " +:+ "{ " +:+ join ", " vals +:+ " }" +:+ ";" +:+ nl).

Definition dq : string := String "034"%char EmptyString.

Definition vtables_header : string :=
  "#ifdef __cplusplus" +:+ nl +:+ "extern " +:+ dq +:+ "C" +:+ dq +:+ " {" +:+ nl +:+
  "#endif" +:+ nl +:+ nl.

Definition vtables_footer : string :=
  "#ifdef __cplusplus" +:+ nl +:+ "}  // extern " +:+ dq +:+ "C" +:+ dq +:+ nl +:+
  "#endif" +:+ nl.

(** [generate_vtables(cls_tables, cls_syms, cls_data)] *)
Definition generate_vtables (cls_syms : gmap string sym) (cls_data : gmap string (list slot))
  : result string :=
  ext <- extern_names cls_syms cls_data ;;
  codes <- map_result (fun name =>
                         match cls_syms !! name with
                         | Some s => symbol_code cls_data name s
                         | None => crash:("KeyError")
                         end) (sorted_keys cls_syms) ;;
  Ok (vtables_header +:+ String.concat "" (map extern_decl ext) +:+
      String.concat "" (map fst codes) +:+ String.concat "" (map snd codes) +:+ vtables_footer).

(** ** Theorems *)

(** *** Words *)

Definition n_words (ptr : nat) (b : list byte) : nat := (List.length b + ptr - 1) / ptr.

Definition vtable_bytes : list byte :=
  [x00; x00; x00; x00; x00; x00; x00; x00;
   x10; x00; x00; x00; x00; x00; x00; x00;
   x20; x00; x00; x00; x00; x00; x00; x00].

Definition vt_sym : sym :=
  mk_sym "_ZTV1C" (Some 4096%Z) 24%Z "OBJECT" "GLOBAL" "20" true None "DEFAULT" (Some "vtable for C").

Definition foo_reloc : reloc := mk_reloc (Some 4112%Z) (Some "R_X86_64_64") (Some ("_ZN1C3fooEv", 0%Z)).

(** The slot a relocation lands in, when it is of an accepted type and
    inside [start, finish). *)
Definition slot_index (ptr : nat) (types : gset string) (start finish : Z) (rel : reloc)
  : option nat :=
  match r_type rel, r_offset rel with
  | Some t, Some off =>
      if bool_decide (t ∈ types) && (start <=? off)%Z && (off <? finish)%Z
      then Some (Z.to_nat ((off - start) / Z.of_nat ptr)) else None
  | _, _ => None
  end.

(** The two keys the overlay reads are there and the offset is a number. *)
Definition reloc_complete (r : reloc) : Prop := r_type r <> None /\ r_offset r <> None.

(** [assert i < len(data[name]); data[name][i] = "reloc", rel] *)
Definition put (i : nat) (v : slot) (slots : list slot) : result (list slot) :=
  if i <? List.length slots then Ok (<[i := v]> slots) else crash:("AssertionError").

Definition typeinfo_reloc : reloc := mk_reloc (Some 4104%Z) (Some "R_X86_64_64") (Some ("_ZTI1C", 0%Z)).

(** The target names of the relocation slots of one symbol, in order. *)
Definition reloc_names (data : list slot) : list string :=
  omap (fun sl => match sl with
                  | SReloc r => (fun t => cut_at "@" t.1) <$> r_target r
                  | _ => None
                  end) data.

Definition has_targets (data : list slot) : Prop :=
  Forall (fun sl => forall r, sl = SReloc r -> r_target r <> None) data.

Definition vt_sym_d : sym :=
  mk_sym "_ZTV1D" (Some 8192%Z) 16%Z "OBJECT" "GLOBAL" "20" true None "DEFAULT" (Some "vtable for D").

Lemma range_step_ok n step :
  step <> 0 -> range_step n step = Ok ((fun k => k * step) <$> seq 0 ((n + step - 1) / step)).
Proof. intros H. unfold range_step. by rewrite (proj2 (Nat.eqb_neq _ _) H). Qed.

Lemma words_of_ok ptr b :
  ptr <> 0 ->
  words_of ptr b = Ok ((fun k => SOffset (from_bytes_le (slice (k * ptr * ptr) ((k * ptr + 1) * ptr) b)))
                        <$> seq 0 (n_words ptr b)).
Proof.
  intros H. unfold words_of. rewrite range_step_ok by done. simpl.
  by rewrite <- list_fmap_compose.
Qed.

(** C11: the word in slot [k] of a vtable is decoded from the bytes at
    offset [k * ptr * ptr], not [k * ptr]: the loop variable of line 417
    already steps by [ptr_size] and the slice multiplies it again. *)
Theorem words_of_slot ptr b k :
  ptr <> 0 -> k < n_words ptr b ->
  exists ws, words_of ptr b = Ok ws /\
    ws !! k = Some (SOffset (from_bytes_le (slice (k * ptr * ptr) ((k * ptr + 1) * ptr) b))).
Proof.
  intros Hp Hk. eexists; split; [by apply words_of_ok|].
  rewrite list_lookup_fmap, lookup_seq_lt by done. done.
Qed.

(** The second word of [vtable_bytes] encodes 16; the model of line 417
    reads 0 for it. *)
Lemma words_of_slot_witness :
  from_bytes_le (slice 8 16 vtable_bytes) = 16%Z /\
  exists ws, words_of 8 vtable_bytes = Ok ws /\
    ws !! 1 = Some (SOffset (from_bytes_le (slice (1 * 8 * 8) ((1 * 8 + 1) * 8) vtable_bytes))) /\
    ws !! 1 = Some (SOffset 0).
Proof.
  split; [reflexivity|].
  destruct (words_of_slot 8 vtable_bytes 1) as (ws & Hws & Hk); [lia | vm_compute; lia |].
  exists ws. split; [exact Hws|]. split; [exact Hk|]. rewrite Hk. reflexivity.
Defined.

(** *** Slot counts and the relocation overlay *)

Lemma overlay_length ptr types start finish slots rel slots' :
  overlay ptr types start finish slots rel = Ok slots' -> List.length slots' = List.length slots.
Proof.
  unfold overlay. destruct (r_type rel); [|done]. case_bool_decide; [|by intros [= <-]].
  destruct (r_offset rel); [|done].
  destruct (_ && _); [|by intros [= <-]].
  destruct (_ <? _); [|done]. intros [= <-]. apply length_insert.
Qed.

(** C10: a reconstructed vtable or typeinfo has one slot per pointer-sized
    word of its bytes, rounded up ([ceil(len / ptr)]); a typeinfo name has
    one slot per byte (spec section 8, third invariant). *)
Theorem symbol_slots_count ptr types rels s b d slots :
  s_demangled s = Some d ->
  symbol_slots ptr types rels s b = Ok slots ->
  List.length slots = if startswith d "typeinfo name" then List.length b else n_words ptr b.
Proof.
  unfold symbol_slots, demangled_of. intros -> H. simpl in H.
  destruct (startswith d "typeinfo name").
  - injection H as <-. apply length_fmap.
  - inv_bind. unfold words_of, range_step in Ha.
    destruct (ptr =? 0); [done|]. inv_bind.
    destruct (s_value s) as [v|]; [|done]. inv_bind.
    apply (fold_result_inv (fun sl => List.length sl = n_words ptr b) _ _ _ _ (fun _ _ _ _ H1 H2 => eq_trans (overlay_length _ _ _ _ _ _ _ H2) H1)) in H; [done|].
    by rewrite !length_fmap, length_seq.
Qed.

Lemma symbol_slots_count_witness :
  symbol_slots 8 {["R_X86_64_64"]} [foo_reloc] vt_sym vtable_bytes =
    Ok [SOffset 0; SOffset 0; SReloc foo_reloc] /\ 3 = n_words 8 vtable_bytes.
Proof.
  assert (symbol_slots 8 {["R_X86_64_64"]} [foo_reloc] vt_sym vtable_bytes =
            Ok [SOffset 0; SOffset 0; SReloc foo_reloc]) as H by (vm_compute; reflexivity).
  split; [exact H|]. exact (symbol_slots_count 8 _ [foo_reloc] vt_sym vtable_bytes "vtable for C" _ eq_refl H).
Defined.

Lemma overlay_index ptr types start finish slots rel :
  reloc_complete rel ->
  overlay ptr types start finish slots rel =
    match slot_index ptr types start finish rel with
    | None => Ok slots
    | Some i => put i (SReloc rel) slots
    end.
Proof.
  unfold overlay, slot_index, put. intros [Ht Ho].
  destruct (r_type rel); [|done]. destruct (r_offset rel); [|done].
  case_bool_decide; [|done]. by destruct (_ && _).
Qed.

Lemma put_swap i j a b slots :
  i <> j -> rbind (put i a slots) (put j b) = rbind (put j b slots) (put i a).
Proof.
  intros Hne. unfold put.
  destruct (i <? _) eqn:Hi, (j <? _) eqn:Hj; simpl; rewrite ?length_insert, ?Hi, ?Hj;
    simpl; try done.
  by rewrite list_insert_insert_ne.
Qed.

Lemma slot_index_lt (d : Z) (n ptr : nat) :
  ptr <> 0 -> (0 <= d < Z.of_nat n)%Z ->
  Z.to_nat (d / Z.of_nat ptr) < (n + ptr - 1) / ptr.
Proof.
  intros Hp Hd. set (q := Z.to_nat (d / Z.of_nat ptr)).
  assert (Z.of_nat ptr * (d / Z.of_nat ptr) <= d)%Z as Hle by (apply Z.mul_div_le; lia).
  assert (0 <= d / Z.of_nat ptr)%Z as Hpos by (apply Z.div_pos; lia).
  assert (ptr * q < n) as Hq by (unfold q; lia).
  enough (S q <= (n + ptr - 1) / ptr) by lia.
  apply Nat.div_le_lower_bound; [done|]. nia.
Qed.

(** C12: the assertion of line 428 never fails: when the bytes read are
    exactly [Size] long, the address is known, every relocation has a
    type and an offset and the pointer size is not zero, the reconstruction of a
    symbol succeeds whatever the relocations. *)
Theorem symbol_slots_total ptr types rels s b d v :
  ptr <> 0 -> s_demangled s = Some d -> s_value s = Some v ->
  s_size s = Z.of_nat (List.length b) ->
  Forall reloc_complete rels ->
  exists slots, symbol_slots ptr types rels s b = Ok slots.
Proof.
  intros Hp Hd Hv Hsz Hoff. unfold symbol_slots, demangled_of. rewrite Hd. simpl.
  destruct (startswith d "typeinfo name"); [by eexists|].
  rewrite words_of_ok by done. simpl. rewrite Hv. simpl.
  destruct (fold_result_total (fun sl => List.length sl = n_words ptr b)
              (overlay ptr types v (v + s_size s)) rels
              ((fun k => SOffset (from_bytes_le (slice (k * ptr * ptr) ((k * ptr + 1) * ptr) b)))
                 <$> seq 0 (n_words ptr b))) as (sl & Hsl & _); [|by rewrite length_fmap, length_seq|eauto].
  intros sl0 r Hr Hlen. rewrite List.Forall_forall in Hoff.
  rewrite (overlay_index ptr types v (v + s_size s) sl0 r (Hoff r Hr)).
  unfold slot_index. destruct (r_type r), (r_offset r) as [off|]; [|eauto..].
  destruct (_ && _ && _) eqn:Hin; [|eauto].
  apply andb_prop in Hin as [[_ H1%Z.leb_le]%andb_prop H2%Z.ltb_lt].
  unfold put. rewrite Hlen. unfold n_words.
  rewrite (proj2 (Nat.ltb_lt _ _)) by (apply slot_index_lt; lia).
  eexists; split; [reflexivity|]. by rewrite length_insert.
Qed.

Lemma symbol_slots_total_witness :
  exists slots, symbol_slots 8 {["R_X86_64_64"]} [foo_reloc] vt_sym vtable_bytes = Ok slots.
Proof.
  apply (symbol_slots_total 8 _ _ _ _ "vtable for C" 4096%Z);
    [lia | reflexivity | reflexivity | reflexivity | repeat constructor; discriminate].
Defined.

Lemma overlay_swap ptr types start finish x y slots :
  reloc_complete x -> reloc_complete y ->
  (forall i, slot_index ptr types start finish x = Some i ->
             slot_index ptr types start finish y = Some i -> x = y) ->
  rbind (overlay ptr types start finish slots x) (fun s1 => overlay ptr types start finish s1 y) =
  rbind (overlay ptr types start finish slots y) (fun s1 => overlay ptr types start finish s1 x).
Proof.
  intros Hx Hy Hdist.
  rewrite !(overlay_index _ _ _ _ slots) by done.
  rewrite (rbind_ext _ _ _ (fun s1 => overlay_index ptr types start finish s1 y Hy)).
  rewrite (rbind_ext _ _ _ (fun s1 => overlay_index ptr types start finish s1 x Hx)).
  destruct (slot_index _ _ _ _ x) as [i|] eqn:Ei, (slot_index _ _ _ _ y) as [j|] eqn:Ej;
    simpl; rewrite ?bind_ret; try done.
  destruct (decide (i = j)) as [->|Hne]; [by rewrite (Hdist j)|]. by apply put_swap.
Qed.

(** C14: the order of the relocation list does not matter as long as no
    two different relocations land in the same slot (spec section 8: the
    overlay commutes). *)
Theorem overlay_order_irrelevant ptr types start finish rels1 rels2 slots :
  Permutation rels1 rels2 ->
  Forall reloc_complete rels1 ->
  (forall x y i, In x rels1 -> In y rels1 ->
     slot_index ptr types start finish x = Some i ->
     slot_index ptr types start finish y = Some i -> x = y) ->
  fold_result (overlay ptr types start finish) rels1 slots =
  fold_result (overlay ptr types start finish) rels2 slots.
Proof.
  intros Hp Hoff Hdist. apply fold_result_perm; [done|].
  intros x y s0 Hx Hy. rewrite List.Forall_forall in Hoff.
  apply overlay_swap; [by apply Hoff|by apply Hoff|]. intros i. by apply Hdist.
Qed.

Lemma overlay_order_irrelevant_witness :
  fold_result (overlay 8 {["R_X86_64_64"]} 4096 4120) [foo_reloc; typeinfo_reloc]
    [SOffset 0; SOffset 0; SOffset 0] =
  fold_result (overlay 8 {["R_X86_64_64"]} 4096 4120) [typeinfo_reloc; foo_reloc]
    [SOffset 0; SOffset 0; SOffset 0].
Proof.
  apply overlay_order_irrelevant.
  - apply perm_swap.
  - repeat constructor; discriminate.
  - intros x y i [<-|[<-|[]]] [<-|[<-|[]]]; vm_compute; congruence.
Defined.

(** Two different relocations in one slot: the later one wins, so the
    order matters. *)
Example overlay_order_matters :
  fold_result (overlay 8 {["R_X86_64_64"]} 4096 4120)
    [foo_reloc; mk_reloc (Some 4113%Z) (Some "R_X86_64_64") (Some ("bar", 0%Z))] [SOffset 0; SOffset 0; SOffset 0] <>
  fold_result (overlay 8 {["R_X86_64_64"]} 4096 4120)
    [mk_reloc (Some 4113%Z) (Some "R_X86_64_64") (Some ("bar", 0%Z)); foo_reloc] [SOffset 0; SOffset 0; SOffset 0].
Proof. vm_compute. congruence. Qed.

(** *** The extern declarations *)

Lemma extern_step_fold cls_syms data out :
  has_targets data ->
  fold_result (extern_step cls_syms ∅) data out =
    Ok (out ++ filter (fun n => cls_syms !! n = None) (reloc_names data)).
Proof.
  revert out; induction data as [|sl data IH]; intros out Hd; cbn [fold_result].
  - by rewrite app_nil_r.
  - inversion Hd as [|? ? Hsl Hrest]; subst.
    destruct sl as [v|v|r]; cbn [extern_step rbind reloc_names omap]; [by apply IH|by apply IH|].
    unfold reloc_target.
    destruct (r_target r) as [[n a]|] eqn:Et; [|by exfalso; apply (Hsl r)].
    cbn [rbind fst].
    assert (reloc_names (SReloc r :: data) = cut_at "@" n :: reloc_names data) as ->
      by (unfold reloc_names; simpl; by rewrite Et).
    rewrite filter_cons.
    destruct (decide (cls_syms !! cut_at "@" n = None)) as [Hn|Hn].
    + rewrite (bool_decide_true (_ = None)) by done.
      rewrite (bool_decide_true (_ ∉ _)) by set_solver. cbn [andb rbind].
      rewrite IH by done. by rewrite <- app_assoc.
    + rewrite bool_decide_false by done. cbn [andb rbind]. by apply IH.
Qed.

(** C13: the externs are one per relocation slot whose target (version
    suffix removed) is not a class symbol, in the order of the sorted
    symbols and of their slots; the list is not de-duplicated, because the
    set [printed] of line 449 is never added to. *)
Theorem extern_names_spec cls_syms cls_data :
  (forall name data, cls_data !! name = Some data -> has_targets data) ->
  extern_names cls_syms cls_data =
    Ok (List.concat ((fun name => filter (fun n => cls_syms !! n = None)
                                    (reloc_names (default [] (cls_data !! name))))
                <$> sorted_keys cls_data)).
Proof.
  intros Hall. unfold extern_names.
  generalize (sorted_keys cls_data) as keys. intros keys.
  change (List.concat _) with ([] ++ List.concat ((fun name => filter (fun n => cls_syms !! n = None)
                                    (reloc_names (default [] (cls_data !! name)))) <$> keys)).
  generalize (@nil string) as out.
  induction keys as [|k keys IH]; intros out; simpl; [by rewrite !app_nil_r|].
  rewrite extern_step_fold.
  - simpl. rewrite IH. by rewrite app_assoc.
  - destruct (cls_data !! k) as [data|] eqn:Ek; [by apply (Hall k)|constructor].
Qed.

(** Two vtables that both point at [_ZN1C3fooEv] give two identical
    extern declarations. *)
Lemma extern_names_spec_witness :
  extern_names {["_ZTV1C" := vt_sym; "_ZTV1D" := vt_sym_d]}
               {["_ZTV1C" := [SOffset 0; SReloc foo_reloc]; "_ZTV1D" := [SReloc foo_reloc]]} =
    Ok ["_ZN1C3fooEv"; "_ZN1C3fooEv"].
Proof.
  rewrite extern_names_spec.
  - vm_compute. reflexivity.
  - intros name data Hd.
    destruct (decide (name = "_ZTV1C")) as [->|H1]; [vm_compute in Hd; injection Hd as <-|].
    + repeat constructor; intros ? [= <-]; discriminate.
    + destruct (decide (name = "_ZTV1D")) as [->|H2]; [vm_compute in Hd; injection Hd as <-|].
      * repeat constructor; intros ? [= <-]; discriminate.
      * rewrite lookup_insert_ne, lookup_singleton_ne in Hd by done. discriminate.
Defined.

End Vtables.
