(* ===== verification/Relocs.v ===== *)
(** * Dynamic relocations: [collect_relocs] (lines 280-343)

    [readelf -rW] prints one table per relocation section, each introduced
    by a header line ([Offset Info Type ...], or [r_offset r_info ...] for
    FreeBSD's readelf, whose columns are renamed) and separated by blank
    lines.  The reader is a state machine over the lines: the column table
    of the current section (none between sections) and the rows kept so
    far.  A row becomes a dict; its ["Symbol's Name + Addend"] cell becomes
    the pair (symbol, addend) when it is not empty.  The line "There are no
    relocations in this file." ends the reading at once with no relocation.
    [reloc_of_row] gives the view of a row that [collect_relocated_data]
    and [generate_vtables] read ([Vtables.reloc]). *)

From S2P Require Import Prelude PyStr Proc Rows Symbols Vtables.

Module Relocs.
Import Py Rows Symbols Vtables.

Definition target_key : string := "Symbol's Name + Addend".

(** [re.match(r"^\s*Type[0-9]:", line)]: the extra lines of MIPS listings. *)
Definition is_mips_type_line (line : string) : bool :=
  match lstrip line with
  | String "T" (String "y" (String "p" (String "e" (String d (String ":" _))))) => is_digit d
  | _ => false
  end.

(** [re.sub(r" \+ ", "+", line)] *)
Fixpoint squeeze_plus (s : string) : string :=
  match s with
  | String a ((String b (String c rest)) as s1) =>
      if ceq a " " && ceq b "+" && ceq c " " then String "+" (squeeze_plus rest)
      else String a (squeeze_plus s1)
  | String a s1 => String a (squeeze_plus s1)
  | EmptyString => EmptyString
  end.

(** The renaming of FreeBSD's column names (lines 309-316). *)
Definition freebsd_rename : gmap string string :=
  list_to_map [("r_offset", "Offset"); ("r_info", "Info"); ("r_type", "Type");
               ("st_value", "Symbol's Value"); ("st_name + r_addend", target_key)].

(** [{idx: rename[name] for idx, name in toc.items()}] *)
Definition rename_toc (toc : list string) : result (list string) :=
  map_result (fun n => match freebsd_rename !! n with
                       | Some m => Ok m
                       | None => crash:("KeyError")
                       end) toc.

(** The split of the symbolic target (lines 322-334). *)
Definition split_target (rel : gmap string cell) : result (gmap string cell) :=
  rel1 <- (match rel !! target_key, rel !! "Symbol's Name" with
           | None, Some (CStr n) => Ok (<[target_key := CStr (n +:+ "+0")]> rel)
           | None, Some _ => crash:("TypeError")
           | _, _ => Ok rel
           end) ;;
  v <- get_str rel1 target_key ;;
  if String.eqb v "" then Ok rel1
  else
    let p := split_char "+" v in
    let p := match p with [x] => [""; x] | _ => p end in
    match p with
    | p0 :: p1 :: _ =>
        match int16 p1 with
        | Some a => Ok (<[target_key := CPair p0 a]> rel1)
        | None => crash:("ValueError")
        end
    | _ => crash:("IndexError")
    end.

Record rstate := mk_rstate {
  rs_toc : option (list string);
  rs_rels : list (gmap string cell)
}.

Definition rstate_init : rstate := mk_rstate None [].

(** One line of the loop; [None] is the early [return []]. *)
Definition reloc_line (st : rstate) (raw : string) : result (option rstate) :=
  let line := strip raw in
  if String.eqb line "" then Ok (Some (mk_rstate None (rs_rels st)))
  else if String.eqb line "There are no relocations in this file." then Ok None
  else if is_mips_type_line line then Ok (Some st)
  else if startswith (lstrip line) "Offset" then
    match rs_toc st with
    | Some _ => fatal:("multiple headers in output of readelf")
    | None => Ok (Some (mk_rstate (Some (make_toc ∅ (split_ws2 line))) (rs_rels st)))
    end
  else if startswith (lstrip line) "r_offset" then
    match rs_toc st with
    | Some _ => fatal:("multiple headers in output of readelf")
    | None =>
        toc <- rename_toc (make_toc ∅ (split_ws2 line)) ;;
        Ok (Some (mk_rstate (Some toc) (rs_rels st)))
    end
  else
    match rs_toc st with
    | Some toc =>
        let words := split_runs isspace (squeeze_plus line) in
        rel <- parse_row words toc ["Offset"; "Info"] ;;
        rel <- split_target rel ;;
        Ok (Some (mk_rstate (Some toc) (rs_rels st ++ [rel])))
    | None => Ok (Some st)
    end.

Fixpoint reloc_loop (f : string) (st : rstate) (lines : list string)
  : result (list (gmap string cell)) :=
  match lines with
  | [] =>
      match rs_toc st with
      | None => fatal:("failed to analyze relocations in " +:+ f)
      | Some _ => Ok (rs_rels st)
      end
  | l :: ls =>
      o <- reloc_line st l ;;
      match o with
      | None => Ok []
      | Some st' => reloc_loop f st' ls
      end
  end.

Section Collect.
Context `{System}.

(** [collect_relocs(f)] *)
Definition collect_relocs (f : string) : result (list (gmap string cell)) :=
  is_macho <- is_macho_file f ;;
  if is_macho then Ok []
  else
    out <- run ["readelf"; "-rW"; f] "" ;;
    reloc_loop f rstate_init (splitlines out).
End Collect.

(** The keys of a row that the vtable code reads: [rel["Type"]],
    [rel["Offset"]] and [rel["Symbol's Name + Addend"]]. *)
Definition reloc_of_row (row : gmap string cell) : reloc :=
  mk_reloc (get_hex row "Offset")
           (match row !! "Type" with Some (CStr t) => Some t | _ => None end)
           (match row !! target_key with Some (CPair n a) => Some (n, a) | _ => None end).

(** The shape of a row after [split_target]: [Offset] and [Info] converted
    or empty, the target a pair or empty. *)
Definition row_ok (row : gmap string cell) : Prop :=
  hex_ok row "Offset" /\ hex_ok row "Info" /\
  (row !! target_key = Some (CStr "") \/ exists n a, row !! target_key = Some (CPair n a)).

Definition no_header_line (l : string) : Prop :=
  strip l <> "There are no relocations in this file." /\
  startswith (lstrip (strip l)) "Offset" = false /\
  startswith (lstrip (strip l)) "r_offset" = false.

#[local] Instance no_header_line_dec l : Decision (no_header_line l).
Proof. unfold no_header_line. apply _. Defined.

Definition plt_listing : list string :=
  ["Relocation section '.rela.plt' at offset 0x5d0 contains 1 entry:";
   "  Offset          Info           Type           Sym. Value    Sym. Name + Addend"].

Definition gnu_listing : list string :=
  ["Relocation section '.rela.dyn' at offset 0x4a8 contains 2 entries:";
   "    Offset             Info             Type               Symbol's Value  Symbol's Name + Addend";
   "0000000000003df8  0000000000000008 R_X86_64_RELATIVE                         1130";
   "0000000000004028  0000000600000006 R_X86_64_GLOB_DAT      0000000000000000 __cxa_finalize@GLIBC_2.2.5 + 0"].

Definition listing_tools (out : string) : System := fun args _ =>
  match args with
  | ["readelf"; "-rW"; _] => Spawned (mk_completed 0 out "")
  | "file" :: _ => Spawned (mk_completed 0 "lib.so: ELF 64-bit LSB shared object" "")
  | _ => SpawnFailed
  end.

(** ** Theorems *)

Import PyFacts.

Lemma split_target_ok rel rel' :
  split_target rel = Ok rel' ->
  (forall k, k <> target_key -> rel' !! k = rel !! k) /\
  (rel' !! target_key = Some (CStr "") \/ exists n a, rel' !! target_key = Some (CPair n a)).
Proof.
  unfold split_target. intros H. inv_bind.
  assert (forall k, k <> target_key -> a !! k = rel !! k) as Ha1.
  { intros k Hk. destruct (rel !! target_key), (rel !! "Symbol's Name") as [[]|];
      inversion Ha; subst; rewrite ?lookup_insert_ne; congruence. }
  unfold get_str in Ha0. destruct (a !! target_key) as [[v'| |]|] eqn:Et; inversion Ha0; subst.
  destruct (String.eqb_spec a0 "") as [->|Hne].
  { inversion H; subst. split; [done|by left]. }
  repeat case_match; simplify_eq.
  all: split; [intros k Hk; rewrite lookup_insert_ne; auto|].
  all: right; do 2 eexists; by rewrite lookup_insert_eq.
Qed.

Lemma reloc_line_ok st l st' :
  Forall row_ok (rs_rels st) -> reloc_line st l = Ok (Some st') -> Forall row_ok (rs_rels st').
Proof.
  unfold reloc_line. intros Hst H.
  repeat case_match; simplify_eq/=; inv_bind; simplify_eq/=; try done.
  apply Forall_app; split; [done|]. constructor; [|done].
  destruct (split_target_ok _ _ Ha0) as [Hk Ht].
  split; [|split]; [| |done]; unfold hex_ok; rewrite Hk by done;
    eapply parse_row_hex; eauto; set_solver.
Qed.

Lemma reloc_loop_ok f st ls rows :
  Forall row_ok (rs_rels st) -> reloc_loop f st ls = Ok rows -> Forall row_ok rows.
Proof.
  revert st. induction ls as [|l ls IH]; simpl; intros st Hst H.
  - by destruct (rs_toc st); simplify_eq.
  - inv_bind. destruct a as [st'|]; [|by simplify_eq].
    eapply IH; [by eapply reloc_line_ok|done].
Qed.

(** C9: every relocation row [collect_relocs] returns has its [Offset]
    and [Info] converted from hexadecimal (or empty), and its symbolic
    target split into a (symbol, addend) pair (or empty): the shapes
    [collect_relocated_data] and [generate_vtables] read. *)
Theorem collect_relocs_rows_ok `{System} f rows :
  collect_relocs f = Ok rows -> Forall row_ok rows.
Proof.
  unfold collect_relocs. intros Hr. inv_bind.
  destruct a; [by simplify_eq; constructor|]. inv_bind.
  eapply reloc_loop_ok; [|exact Hr]. constructor.
Qed.

Lemma collect_relocs_rows_ok_witness :
  exists rows, @collect_relocs (listing_tools (join nl gnu_listing)) "lib.so" = Ok rows /\
               Forall row_ok rows.
Proof.
  eexists. split; [vm_compute; reflexivity|].
  apply (@collect_relocs_rows_ok (listing_tools (join nl gnu_listing)) "lib.so").
  vm_compute. reflexivity.
Defined.

(** C20: a target written [name + addend] is split at the [+] into the
    symbol name and the hexadecimal addend. *)
Theorem split_target_pair rel n h a :
  rel !! target_key = Some (CStr (n +:+ "+" +:+ h)) ->
  has_char "+" n = false -> has_char "+" h = false -> int16 h = Some a ->
  split_target rel = Ok (<[target_key := CPair n a]> rel).
Proof.
  intros Ht Hn Hh Ha. unfold split_target. rewrite Ht. simpl. unfold get_str. rewrite Ht. simpl.
  destruct (String.eqb_spec (n +:+ "+" +:+ h) "") as [E|_].
  { apply (f_equal String.length) in E. rewrite !length_append in E. simpl in E. lia. }
  rewrite (split_char_app "+" n h Hn), (split_char_free _ _ Hh). simpl. by rewrite Ha.
Qed.

Lemma split_target_pair_witness :
  split_target {[target_key := CStr "_ZTI1C+10"]} = Ok {[target_key := CPair "_ZTI1C" 16]}.
Proof.
  rewrite (split_target_pair _ "_ZTI1C" "10" 16); [|reflexivity..].
  by rewrite insert_singleton.
Defined.

(** C31: a target with no [+] (the addend of a [R_X86_64_RELATIVE]
    relocation) is read as an addend with an empty symbol name, not as a
    symbol name with addend 0. *)
Theorem split_target_addend_only rel h a :
  rel !! target_key = Some (CStr h) -> h <> EmptyString ->
  has_char "+" h = false -> int16 h = Some a ->
  split_target rel = Ok (<[target_key := CPair "" a]> rel).
Proof.
  intros Ht Hne Hh Ha. unfold split_target. rewrite Ht. simpl. unfold get_str. rewrite Ht. simpl.
  destruct (String.eqb_spec h "") as [E|_]; [done|].
  rewrite (split_char_free _ _ Hh). simpl. by rewrite Ha.
Qed.

Lemma split_target_addend_only_witness :
  split_target {[target_key := CStr "1130"]} = Ok {[target_key := CPair "" 4400]}.
Proof.
  rewrite (split_target_addend_only _ "1130" 4400); [|reflexivity|discriminate|reflexivity..].
  by rewrite insert_singleton.
Defined.

Lemma reloc_line_no_header rs l :
  no_header_line l ->
  exists rs', reloc_line (mk_rstate None rs) l = Ok (Some (mk_rstate None rs')).
Proof.
  intros (H1 & H2 & H3). unfold reloc_line.
  destruct (String.eqb _ ""); [by eexists|].
  destruct (String.eqb_spec (strip l) "There are no relocations in this file."); [done|].
  destruct (is_mips_type_line _); [by eexists|].
  unfold startswith in *. rewrite H2, H3. by eexists.
Qed.

(** C21: a [readelf -rW] output with no header line (and without the
    "no relocations" notice) is the fatal error "failed to analyze
    relocations". *)
Theorem reloc_loop_no_header f ls :
  Forall no_header_line ls ->
  reloc_loop f rstate_init ls = fatal:("failed to analyze relocations in " +:+ f).
Proof.
  unfold rstate_init. generalize (@nil (gmap string cell)) as rs.
  induction ls as [|l ls IH]; intros rs Hls; [done|].
  apply Forall_cons in Hls as [Hl Hls]. simpl.
  destruct (reloc_line_no_header rs l Hl) as [rs' ->]. simpl. by apply IH.
Qed.

Lemma reloc_loop_no_header_witness :
  Forall no_header_line ["Relocation section '.rela.dyn' at offset 0x4a8 contains 2 entries:"; "  "] /\
  reloc_loop "lib.so" rstate_init ["Relocation section '.rela.dyn' at offset 0x4a8 contains 2 entries:"; "  "]
    = fatal:("failed to analyze relocations in lib.so").
Proof.
  assert (Forall no_header_line ["Relocation section '.rela.dyn' at offset 0x4a8 contains 2 entries:"; "  "]) as H
    by (repeat constructor; apply (bool_decide_unpack _); vm_compute; exact I).
  split; [exact H|]. exact (reloc_loop_no_header "lib.so" _ H).
Defined.

(** The reader relies on the column names of the wide format: under a
    header that names the target column otherwise (the narrow format says
    [Sym. Name + Addend]) the first row raises [KeyError]. *)
Example narrow_header_row :
  reloc_loop "lib.so" rstate_init
    (plt_listing ++ ["000000003fc8  000300000007 R_X86_64_JUMP_SLO 0000000000000000 foo + 0"])
  = crash:("KeyError").
Proof. vm_compute. reflexivity. Qed.

End Relocs.
