(* ===== verification/Sections.v ===== *)
(** * Sections and unrelocated bytes: [collect_sections] (lines 345-379) and
      [read_unrelocated_data] (lines 382-404)

    In vtable mode the script locates each class symbol's bytes in the
    library file: [readelf -SW] lists the sections (a header row [[Nr]] and
    one row per section, of which only the allocatable ones, flag [A], are
    kept), and for each symbol, in the order of their addresses, the one
    section whose address range holds the symbol gives the file offset to
    read from.  The file is its list of bytes; the symbols are the dict
    [cls_syms] as the list of its items in insertion order. *)

From S2P Require Import Prelude PyStr Proc Rows Symbols.
From Stdlib Require Import Strings.Byte.

Module Sections.
Import Py Rows Symbols.

(** ** [collect_sections] *)

(** [re.sub(r"\[\s+", "[", line)]: the whitespace after an opening bracket
    is removed; [after] is true right after a bracket. *)
Fixpoint squeeze_bracket_go (after : bool) (s : string) : string :=
  match s with
  | EmptyString => EmptyString
  | String c s' =>
      if after && isspace c then squeeze_bracket_go true s'
      else if ceq c "[" then String c (squeeze_bracket_go true s')
      else String c (squeeze_bracket_go false s')
  end.

Definition squeeze_bracket (s : string) : string := squeeze_bracket_go false s.

Definition addr_rename : gmap string string := {["Addr" := "Address"]}.

Record sstate := mk_sstate {
  ss_toc : option (list string);
  ss_secs : list (gmap string cell)
}.

Definition sstate_init : sstate := mk_sstate None [].

(** One line of the loop of lines 362-375. *)
Definition section_line (st : sstate) (raw : string) : result sstate :=
  let line := strip raw in
  if String.eqb line "" then Ok st
  else
    let line := squeeze_bracket line in
    let words := split_runs (ceq " ") line in
    if startswith line "[Nr]" then
      match ss_toc st with
      | Some _ => fatal:("multiple headers in output of readelf")
      | None => Ok (mk_sstate (Some (make_toc addr_rename words)) (ss_secs st))
      end
    else if startswith line "[" then
      match ss_toc st with
      | Some toc =>
          sec <- parse_row words toc ["Address"; "Off"; "Size"] ;;
          flg <- get_str sec "Flg" ;;
          Ok (if contains "A" flg then mk_sstate (Some toc) (ss_secs st ++ [sec]) else st)
      | None => Ok st
      end
    else Ok st.

Definition parse_sections (f out : string) : result (list (gmap string cell)) :=
  st <- fold_result section_line (splitlines out) sstate_init ;;
  match ss_toc st with
  | None => fatal:("failed to analyze sections in " +:+ f)
  | Some _ => Ok (ss_secs st)
  end.

Section Collect.
Context `{System}.

(** [collect_sections(f)] *)
Definition collect_sections (f : string) : result (list (gmap string cell)) :=
  is_macho <- is_macho_file f ;;
  if is_macho then Ok []
  else
    out <- run ["readelf"; "-SW"; f] "" ;;
    parse_sections f out.
End Collect.

(** ** [read_unrelocated_data] *)

(** [d[k]] *)
Definition lookup_cell (m : gmap string cell) (k : string) : result cell :=
  match m !! k with Some c => Ok c | None => crash:("KeyError") end.

(** A cell used as a number: only a converted one is. *)
Definition cell_int (c : cell) : result Z :=
  match c with CInt z => Ok z | _ => crash:("TypeError") end.

(** [sym["Value"]] in a comparison; an empty cell is a string there. *)
Definition value_num (s : sym) : result Z :=
  match s_value s with Some v => Ok v | None => crash:("TypeError") end.

(** [is_symbol_in_section(sym, sec)] (lines 387-391) *)
Definition is_symbol_in_section (s : sym) (sec : gmap string cell) : result bool :=
  ca <- lookup_cell sec "Address" ;;
  cs <- lookup_cell sec "Size" ;;
  addr <- cell_int ca ;;
  size <- cell_int cs ;;
  v <- value_num s ;;
  let sec_end := (addr + size)%Z in
  Ok ((addr <=? v) && (v <? sec_end) && (v + s_size s <=? sec_end))%Z.

Definition value_le (p q : string * sym) : Prop :=
  (default 0 (s_value p.2) <= default 0 (s_value q.2))%Z.

#[local] Instance value_le_dec : RelDecision value_le.
Proof. intros p q. unfold value_le. apply _. Defined.

(** [sorted(syms.items(), key=lambda s: s[1]["Value"])]: a stable sort by
    address.  Empty [Value] cells are strings: comparing one with a number
    raises [TypeError], and strings that are all empty compare equal. *)
Definition sort_by_value (syms : list (string * sym)) : result (list (string * sym)) :=
  if bool_decide (List.length syms <= 1) then Ok syms
  else if forallb (fun p => bool_decide (is_Some (s_value p.2))) syms
  then Ok (merge_sort value_le syms)
  else if forallb (fun p => bool_decide (s_value p.2 = None)) syms then Ok syms
  else crash:("TypeError").

(** [f.seek(off); f.read(size)]: a negative position raises [ValueError],
    a negative size reads to the end, and the read stops at the end of the
    file. *)
Definition read_at (file : list byte) (off size : Z) : result (list byte) :=
  if (off <? 0)%Z then crash:("ValueError")
  else
    let rest := drop (Z.to_nat off) file in
    Ok (if (size <? 0)%Z then rest else take (Z.to_nat size) rest).

(** [f"{s['Value']:x}"]: an empty cell cannot be formatted with [x]. *)
Definition value_fmt (s : sym) : result Z :=
  match s_value s with Some v => Ok v | None => crash:("ValueError") end.

(** One iteration of the loop of lines 393-403. *)
Definition unrelocated_step (file : list byte) (secs : list (gmap string cell))
    (data : gmap string (list byte)) (p : string * sym) : result (gmap string (list byte)) :=
  let '(name, s) := p in
  found <- filter_result (is_symbol_in_section s) secs ;;
  match found with
  | [sec] =>
      c <- lookup_cell sec "Off" ;;
      off <- cell_int c ;;
      b <- read_at file off (s_size s) ;;
      Ok (<[name := b]> data)
  | _ =>
      v <- value_fmt s ;;
      fatal:("failed to locate section for interval [" +:+ hex_of v +:+ ", "
             +:+ hex_of (v + s_size s) +:+ ")")
  end.

(** [read_unrelocated_data(input_name, syms, secs)] on the file's bytes. *)
Definition read_unrelocated_data (file : list byte) (syms : list (string * sym))
    (secs : list (gmap string cell)) : result (gmap string (list byte)) :=
  sorted <- sort_by_value syms ;;
  fold_result (unrelocated_step file secs) sorted ∅.

(** A section [collect_sections] keeps: allocatable, with its numeric
    columns converted (or empty). *)
Definition alloc_section (sec : gmap string cell) : Prop :=
  (exists flg, sec !! "Flg" = Some (CStr flg) /\ contains "A" flg = true) /\
  hex_ok sec "Address" /\ hex_ok sec "Off" /\ hex_ok sec "Size".

(** The section of a symbol lies in the file: [off + size <= len(file)]. *)
Definition section_in_file (file : list byte) (sec : gmap string cell) : Prop :=
  exists off size, sec !! "Off" = Some (CInt off) /\ sec !! "Size" = Some (CInt size) /\
    (0 <= off)%Z /\ (off + size <= Z.of_nat (List.length file))%Z.

(** A data section at address [0x100], stored at file offset [0x40], with
    two 16-byte symbols: [A] at its start and [B] 16 bytes further. *)
Definition data_sec : gmap string cell :=
  <["Address" := CInt 256]> (<["Off" := CInt 64]> (<["Size" := CInt 48]> {["Flg" := CStr "WA"]})).

Definition sym_at (n : string) (v : Z) : sym :=
  mk_sym n (Some v) 16 "OBJECT" "GLOBAL" "19" true None "DEFAULT" (Some ("vtable for " +:+ n)).

Definition file_bytes : list byte := (fun k => match Byte.of_nat k with Some b => b | None => x00 end) <$> seq 0 128.

Definition sections_tools (out : string) : System := fun args _ =>
  match args with
  | ["readelf"; "-SW"; _] => Spawned (mk_completed 0 out "")
  | "file" :: _ => Spawned (mk_completed 0 "lib.so: ELF 64-bit LSB shared object" "")
  | _ => SpawnFailed
  end.

Definition sections_listing : string :=
  "  [Nr] Name              Type            Address          Off    Size   ES Flg Lk Inf Al" +:+ nl +:+
  "  [ 1] .note.gnu.property NOTE            00000000000002a8 0002a8 000020 00   A  0   0  8" +:+ nl +:+
  "  [26] .comment          PROGBITS        0000000000000000 003010 00002b 01  MS  0   0  1" +:+ nl.

(** ** Theorems *)

Lemma sort_by_value_perm syms l : sort_by_value syms = Ok l -> l ≡ₚ syms.
Proof.
  unfold sort_by_value. intros Hs. repeat case_match; simplify_eq; try done.
  apply merge_sort_Permutation.
Qed.

Lemma unrelocated_step_insert file secs data p data' :
  unrelocated_step file secs data p = Ok data' ->
  exists sec off b, filter_result (is_symbol_in_section p.2) secs = Ok [sec] /\
    sec !! "Off" = Some (CInt off) /\ read_at file off (p.2.(s_size)) = Ok b /\
    data' = <[p.1 := b]> data.
Proof.
  destruct p as [name s]. simpl. intros H. inv_bind.
  destruct a as [|sec [|]]; [by inv_bind; destruct (value_fmt s)|..|by inv_bind; destruct (value_fmt s)].
  inv_bind. unfold lookup_cell, cell_int in *.
  destruct (sec !! "Off") as [[| |]|] eqn:Eo; simplify_eq/=; eauto 10.
Qed.

Lemma unrelocated_data_complete file syms secs data :
  read_unrelocated_data file syms secs = Ok data ->
  forall n s, In (n, s) syms -> is_Some (data !! n).
Proof.
  unfold read_unrelocated_data. intros H n s Hin. inv_bind.
  apply sort_by_value_perm in Ha as Hp.
  refine (fold_result_all (fun p d => is_Some (d !! p.1)) _ _ _ _ _ _ H (n, s) _);
    [| |by rewrite Hp].
  - intros ? [n' s'] ? [m t] _ Hd Hs.
    destruct (unrelocated_step_insert _ _ _ _ _ Hs) as (? & ? & ? & _ & _ & _ & ->). simpl in *.
    destruct (decide (m = n')) as [->|Hne]; [by rewrite lookup_insert_eq|by rewrite lookup_insert_ne].
  - intros ? [n' s'] ? _ Hs.
    destruct (unrelocated_step_insert _ _ _ _ _ Hs) as (? & ? & ? & _ & _ & _ & ->).
    simpl. by rewrite lookup_insert_eq.
Qed.

Lemma unrelocated_data_origin file syms secs data :
  read_unrelocated_data file syms secs = Ok data ->
  forall n b, data !! n = Some b -> exists s sec off,
     In (n, s) syms /\ filter_result (is_symbol_in_section s) secs = Ok [sec] /\
     sec !! "Off" = Some (CInt off) /\ read_at file off (s_size s) = Ok b.
Proof.
  unfold read_unrelocated_data. intros H. inv_bind.
  apply sort_by_value_perm in Ha as Hp.
  pattern data. refine (fold_result_inv _ _ _ _ _ _ _ H);
    [|intros ? ? Hb; by rewrite lookup_empty in Hb].
  intros d0 [n' s'] d1 Hx IH Hs n b Hb.
  destruct (unrelocated_step_insert _ _ _ _ _ Hs) as (sec & off & b' & Hf & Ho & Hr & ->).
  simpl in *. destruct (decide (n = n')) as [->|Hne].
  - rewrite lookup_insert_eq in Hb. simplify_eq.
    exists s', sec, off. rewrite <- Hp. eauto 10.
  - rewrite lookup_insert_ne in Hb by done. by apply IH.
Qed.

(** C8: [read_unrelocated_data] reads every class symbol, and the bytes
    it keeps for a symbol are read at the file offset of the section whose
    address range holds it, the search of the sections finding exactly
    that one: from the start of the section, whatever the symbol's
    distance from the section's address. *)
Theorem read_unrelocated_data_spec file syms secs data :
  read_unrelocated_data file syms secs = Ok data ->
  (forall n s, In (n, s) syms -> is_Some (data !! n)) /\
  (forall n b, data !! n = Some b -> exists s sec off,
     In (n, s) syms /\ filter_result (is_symbol_in_section s) secs = Ok [sec] /\
     sec !! "Off" = Some (CInt off) /\ read_at file off (s_size s) = Ok b).
Proof.
  intros H. split; [by eapply unrelocated_data_complete|by eapply unrelocated_data_origin].
Qed.

Lemma read_unrelocated_data_spec_witness :
  read_unrelocated_data file_bytes [("B", sym_at "B" 272)] [data_sec] =
    Ok {["B" := take 16 (drop 64 file_bytes)]} /\
  exists s sec off, In ("B", s) [("B", sym_at "B" 272)] /\
    filter_result (is_symbol_in_section s) [data_sec] = Ok [sec] /\ sec !! "Off" = Some (CInt off) /\
    read_at file_bytes off (s_size s) = Ok (take 16 (drop 64 file_bytes)).
Proof.
  assert (read_unrelocated_data file_bytes [("B", sym_at "B" 272)] [data_sec] =
            Ok {["B" := take 16 (drop 64 file_bytes)]}) as H by (vm_compute; reflexivity).
  split; [exact H|].
  apply (proj2 (read_unrelocated_data_spec _ _ _ _ H)). apply lookup_singleton_eq.
Defined.

(** The bytes kept for [B], 16 bytes into its section, are those of [A]
    at the start of the section, not the 16 bytes at [B]'s own file
    position [0x50]. *)
Example unrelocated_data_section_start :
  read_unrelocated_data file_bytes [("A", sym_at "A" 256); ("B", sym_at "B" 272)] [data_sec] =
    Ok {["A" := take 16 (drop 64 file_bytes); "B" := take 16 (drop 64 file_bytes)]} /\
  take 16 (drop 64 file_bytes) <> take 16 (drop 80 file_bytes).
Proof. split; vm_compute; [reflexivity|congruence]. Qed.

(** C19: a class symbol that lies in no section, or in more than one, is
    the fatal error "failed to locate section for interval [v, v+size)"
    with the bounds in hexadecimal. *)
Theorem unlocated_symbol_fatal file n s secs found v :
  s_value s = Some v ->
  filter_result (is_symbol_in_section s) secs = Ok found -> List.length found <> 1 ->
  read_unrelocated_data file [(n, s)] secs =
    fatal:("failed to locate section for interval [" +:+ hex_of v +:+ ", "
           +:+ hex_of (v + s_size s) +:+ ")").
Proof.
  intros Hv Hf Hl. unfold read_unrelocated_data, sort_by_value. simpl.
  rewrite Hf. simpl. unfold value_fmt. rewrite Hv.
  destruct found as [|? [|]]; [done|simpl in Hl; lia|done].
Qed.

Lemma unlocated_symbol_fatal_witness :
  s_value (sym_at "C" 512) = Some 512%Z /\
  filter_result (is_symbol_in_section (sym_at "C" 512)) [data_sec] = Ok [] /\
  List.length (@nil (gmap string cell)) <> 1 /\
  read_unrelocated_data file_bytes [("C", sym_at "C" 512)] [data_sec] =
    fatal:("failed to locate section for interval [200, 210)").
Proof.
  split; [reflexivity|]. split; [reflexivity|]. split; [simpl; lia|].
  exact (unlocated_symbol_fatal file_bytes "C" (sym_at "C" 512) [data_sec] [] 512 eq_refl eq_refl ltac:(simpl; lia)).
Defined.

Lemma section_line_alloc st l st' :
  Forall alloc_section (ss_secs st) -> section_line st l = Ok st' -> Forall alloc_section (ss_secs st').
Proof.
  unfold section_line. intros Hst H.
  repeat case_match; simplify_eq/=; inv_bind; simplify_eq/=; try done.
  all: destruct (contains "A" _) eqn:Ha'; simplify_eq/=; [|done].
  apply Forall_app; split; [done|]. constructor; [|done].
  unfold get_str in *. split; [repeat case_match; simplify_eq; eauto|].
  split_and!; eapply parse_row_hex; eauto; set_solver.
Qed.

(** C17: every section [collect_sections] returns is allocatable (its
    [Flg] column has [A]) and has its [Address], [Off] and [Size] columns
    converted from hexadecimal (or empty). *)
Theorem collect_sections_alloc `{System} f secs :
  collect_sections f = Ok secs -> Forall alloc_section secs.
Proof.
  unfold collect_sections, parse_sections. intros Hr. inv_bind.
  destruct a; [by simplify_eq; constructor|]. inv_bind.
  destruct (ss_toc a0); simplify_eq.
  eapply (fold_result_inv (fun st => Forall alloc_section (ss_secs st))); [| |exact Ha1].
  - intros; by eapply section_line_alloc.
  - constructor.
Qed.

Lemma collect_sections_alloc_witness :
  exists secs, @collect_sections (sections_tools sections_listing) "lib.so" = Ok secs /\
               List.length secs = 1 /\ Forall alloc_section secs.
Proof.
  eexists. split; [vm_compute; reflexivity|]. split; [reflexivity|].
  apply (@collect_sections_alloc (sections_tools sections_listing) "lib.so"). vm_compute. reflexivity.
Defined.

Lemma is_symbol_in_section_true s sec :
  is_symbol_in_section s sec = Ok true ->
  exists addr size v, sec !! "Address" = Some (CInt addr) /\ sec !! "Size" = Some (CInt size) /\
    s_value s = Some v /\ (addr <= v /\ v < addr + size /\ v + s_size s <= addr + size)%Z.
Proof.
  unfold is_symbol_in_section, lookup_cell, cell_int, value_num.
  destruct (sec !! "Address") as [[| |]|] eqn:Ea, (sec !! "Size") as [[| |]|] eqn:Es,
    (s_value s) as [v|] eqn:Ev; simpl; try discriminate.
  intros [= Hb]. apply andb_true_iff in Hb as [[H1%Z.leb_le H2%Z.ltb_lt]%andb_true_iff H3%Z.leb_le].
  eexists _, _, v. split_and!; eauto; lia.
Qed.

(** C18: when the symbol's section lies inside the file and the symbol's
    size is not negative, the bytes read for it are exactly [Size] long
    (the condition under which [collect_relocated_data] reconstructs it,
    C12). *)
Theorem read_unrelocated_data_size file syms secs data n b :
  read_unrelocated_data file syms secs = Ok data -> data !! n = Some b ->
  Forall (section_in_file file) secs ->
  Forall (fun p => 0 <= s_size p.2)%Z syms ->
  exists s, In (n, s) syms /\ List.length b = Z.to_nat (s_size s).
Proof.
  intros H Hb Hsecs Hsz.
  destruct (unrelocated_data_origin _ _ _ _ H n b Hb) as (s & sec & off & Hin & Hf & Hoff & Hr).
  destruct (filter_result_sublist _ _ _ Hf sec (or_introl eq_refl)) as [Hsec Hins].
  exists s. split; [done|].
  apply List.Forall_forall with (x := sec) in Hsecs as (off' & size' & Ho & Hs' & Hoff0 & Hend); [|done].
  apply List.Forall_forall with (x := (n, s)) in Hsz; [|done]. simpl in Hsz.
  destruct (is_symbol_in_section_true _ _ Hins) as (addr & size & v & _ & Hs & _ & Hv).
  rewrite Hoff in Ho. injection Ho as <-. rewrite Hs in Hs'. injection Hs' as <-.
  unfold read_at in Hr. destruct (off <? 0)%Z eqn:E; [done|].
  destruct (s_size s <? 0)%Z eqn:E'; [lia|]. simplify_eq.
  rewrite length_take, length_drop. lia.
Qed.

Lemma read_unrelocated_data_size_witness :
  exists s, In ("B", s) [("B", sym_at "B" 272)] /\
    List.length (take 16 (drop 64 file_bytes)) = Z.to_nat (s_size s).
Proof.
  apply (read_unrelocated_data_size file_bytes [("B", sym_at "B" 272)] [data_sec]
           {["B" := take 16 (drop 64 file_bytes)]}).
  - vm_compute. reflexivity.
  - apply lookup_singleton_eq.
  - constructor; [|constructor]. exists 64%Z, 48%Z. split_and!; try reflexivity; vm_compute; congruence.
  - constructor; [simpl; lia|constructor].
Defined.

End Sections.
