(* ===== verification/DefFile.v ===== *)
(** * [.def] files: [collect_def_exports] (lines 231-277) and
      [read_library_name] (lines 549-563)

    A [.def] file lists exported functions in [EXPORTS] blocks: after a line
    [EXPORTS], each indented identifier line is a function, comment lines
    ([;]) are skipped, and the first other line ends the block and is read
    again as an ordinary line.  The script reads the lines as a stack
    ([lines.reverse()], [lines.pop()]) with two nested loops; here the two
    loops are the two modes of a state machine whose state is the mode, the
    lines still on the stack (top first) and the symbols found.  The step
    function [def_step] is the code; the inductive [def_rel] states its
    rules; [def_run] runs it with fuel.  [read_library_name] takes the
    library name from a [LIBRARY] or [NAME] line.  A file that cannot be
    read as UTF-8 text is [None]. *)

From S2P Require Import Prelude PyStr Proc Rows Symbols.

Module DefFile.
Import Py Symbols.

(** ** Line patterns *)

Definition is_symbol_char (c : ascii) : bool :=
  is_upper_ascii c || is_lower_ascii c || is_digit c || ceq c "_".

Fixpoint take_while (p : ascii -> bool) (l : list ascii) : list ascii :=
  match l with
  | [] => []
  | c :: l' => if p c then c :: take_while p l' else []
  end.

(** [re.match(r"^\s*;", line)] *)
Definition is_comment (line : string) : bool :=
  match drop_while isspace (list_ascii_of_string line) with
  | c :: _ => ceq c ";"
  | [] => false
  end.

(** [re.match(r"^\s+([A-Za-z0-9_]+)\s*$", line)] and its group: some
    whitespace, an identifier, then only whitespace (the [$] of Python
    also matches before a final newline, which [\s*] covers). *)
Definition export_name (line : string) : option string :=
  let l := list_ascii_of_string line in
  let rest := drop_while isspace l in
  let ident := take_while is_symbol_char rest in
  if bool_decide (List.length rest < List.length l) && negb (bool_decide (ident = []))
     && forallb isspace (drop_while is_symbol_char rest)
  then Some (string_of_list_ascii ident) else None.

(** The dict of lines 259-268. *)
Definition def_sym (n : string) : sym :=
  mk_sym n None 0 "FUNC" "GLOBAL" "0" true None "DEFAULT" None.

(** ** The state machine *)

Inductive mode := Outer | Inner.

#[export] Instance mode_eq_dec : EqDecision mode.
Proof. solve_decision. Defined.

Record dstate := mk_dstate {
  d_mode : mode;
  d_lines : list string;
  d_syms : list sym
}.

(** One iteration of the outer loop (lines 245-249) or of the inner loop
    (lines 251-269); [None] when the stack is empty and both loops end. *)
Definition def_step (st : dstate) : option dstate :=
  match d_mode st, d_lines st with
  | _, [] => None
  | Outer, l :: ls =>
      Some (mk_dstate (if String.eqb (strip l) "EXPORTS" then Inner else Outer) ls (d_syms st))
  | Inner, l :: ls =>
      if is_comment l then Some (mk_dstate Inner ls (d_syms st))
      else match export_name l with
           | Some n => Some (mk_dstate Inner ls (d_syms st ++ [def_sym n]))
           | None => Some (mk_dstate Outer (l :: ls) (d_syms st))
           end
  end.

(** The rules of the two loops. *)
Inductive def_rel : dstate -> dstate -> Prop :=
  | outer_exports l ls syms :
      strip l = "EXPORTS" -> def_rel (mk_dstate Outer (l :: ls) syms) (mk_dstate Inner ls syms)
  | outer_other l ls syms :
      strip l <> "EXPORTS" -> def_rel (mk_dstate Outer (l :: ls) syms) (mk_dstate Outer ls syms)
  | inner_comment l ls syms :
      is_comment l = true -> def_rel (mk_dstate Inner (l :: ls) syms) (mk_dstate Inner ls syms)
  | inner_symbol l ls syms n :
      is_comment l = false -> export_name l = Some n ->
      def_rel (mk_dstate Inner (l :: ls) syms) (mk_dstate Inner ls (syms ++ [def_sym n]))
  | inner_break l ls syms :
      is_comment l = false -> export_name l = None ->
      def_rel (mk_dstate Inner (l :: ls) syms) (mk_dstate Outer (l :: ls) syms).

Definition halted (st : dstate) : Prop := d_lines st = [].

Fixpoint def_run (fuel : nat) (st : dstate) : option dstate :=
  match fuel with
  | O => None
  | S f => match def_step st with None => Some st | Some st' => def_run f st' end
  end.

(** Every step removes a line, or leaves the inner loop: twice the number
    of lines, plus one in the inner loop. *)
Definition def_measure (st : dstate) : nat :=
  2 * List.length (d_lines st) + (if d_mode st is Inner then 1 else 0).

(** [collect_def_exports(filename)]: the symbols and the warnings. *)
Definition collect_def_exports (filename : string) (contents : option string)
  : list sym * list string :=
  match contents with
  | None => ([], [])
  | Some text =>
      let st0 := mk_dstate Outer (readlines text) [] in
      let syms := match def_run (S (def_measure st0)) st0 with Some st => d_syms st | None => [] end in
      (syms, match syms with [] => ["failed to locate symbols in " +:+ filename] | _ => [] end)
  end.

(** ** The library name *)

Definition is_libname_char (c : ascii) : bool :=
  is_symbol_char c || ceq c "." || ceq c "-".

(** [re.match(r"^(?:LIBRARY|NAME)\s+([A-Za-z0-9_.\-]+)$", line)] and its
    group, on a stripped line. *)
Definition library_name_of (line : string) : option string :=
  let after := match strip_prefix "LIBRARY" line with
               | Some r => Some r
               | None => strip_prefix "NAME" line
               end in
  match after with
  | None => None
  | Some rest =>
      let l := list_ascii_of_string rest in
      let name := drop_while isspace l in
      if bool_decide (List.length name < List.length l) && negb (bool_decide (name = []))
         && forallb is_libname_char name
      then Some (string_of_list_ascii name) else None
  end.

(** [read_library_name(filename)] *)
Definition read_library_name (contents : option string) : option string :=
  match contents with
  | None => None
  | Some text => find_map (fun l => library_name_of (strip l)) (readlines text)
  end.

(** ** The declarative description of the symbols *)

(** Line [i] lies in an [EXPORTS] block: some earlier line [j] is
    [EXPORTS], and every line strictly between them is a comment or an
    identifier line. *)
Definition block_open (ls : list string) (i : nat) : Prop :=
  exists j, j < i /\ (exists l, ls !! j = Some l /\ strip l = "EXPORTS") /\
    forall m l, j < m -> m < i -> ls !! m = Some l ->
      is_comment l = true \/ is_Some (export_name l).

(** Whether the next line lies in a block, from whether this one does. *)
Definition open_next (o : bool) (l : string) : bool :=
  (o && (is_comment l || bool_decide (is_Some (export_name l)))) || String.eqb (strip l) "EXPORTS".

Definition open_at (ls : list string) (i : nat) : bool := foldl open_next false (take i ls).

(** The names of the lines of a block that are identifier lines. *)
Fixpoint exports_go (o : bool) (ls : list string) : list string :=
  match ls with
  | [] => []
  | l :: ls' => (if o then option_list (export_name l) else []) ++ exports_go (open_next o l) ls'
  end.

Definition is_inner (st : dstate) : bool := if d_mode st is Inner then true else false.

(** [block_open] decided by bounded search over the line numbers below
    [i]: an [EXPORTS] line [j], then only comments and identifier lines. *)
Definition exports_at (ls : list string) (j : nat) : bool :=
  if ls !! j is Some l then String.eqb (strip l) "EXPORTS" else false.

Definition block_line_at (ls : list string) (m : nat) : bool :=
  if ls !! m is Some l then is_comment l || bool_decide (is_Some (export_name l)) else true.

Definition block_openb (ls : list string) (i : nat) : bool :=
  existsb (fun j => exports_at ls j && forallb (block_line_at ls) (seq (S j) (i - S j))) (seq 0 i).

(** The symbols of a list of lines: those of its identifier lines that lie
    in an [EXPORTS] block, in order. *)
Definition spec_names (ls : list string) : list string :=
  omap (fun i => if block_openb ls i then ls !! i ≫= export_name else None)
       (seq 0 (List.length ls)).

Definition sample_def : string :=
  "LIBRARY libfoo.so" +:+ nl +:+ "EXPORTS" +:+ nl +:+ "  foo" +:+ nl +:+ "  ; comment" +:+ nl +:+
  "  bar @1" +:+ nl +:+ "EXPORTS" +:+ nl +:+ "	baz  " +:+ nl +:+ "qux" +:+ nl.

(** ** Theorems *)

Import PyFacts.

Lemma def_step_rel st st' : def_step st = Some st' <-> def_rel st st'.
Proof.
  split.
  - intros H. destruct st as [[] [|l ls] syms]; unfold def_step in H; simpl in H; try done.
    + destruct (String.eqb (strip l) "EXPORTS") eqn:E; injection H as <-.
      * apply outer_exports. by apply String.eqb_eq.
      * apply outer_other. by apply String.eqb_neq.
    + destruct (is_comment l) eqn:Hc; [injection H as <-; by constructor|].
      destruct (export_name l) eqn:Hn; injection H as <-; by constructor.
  - intros []; unfold def_step; simpl.
    + by rewrite (proj2 (String.eqb_eq _ _)).
    + by rewrite (proj2 (String.eqb_neq _ _)).
    + by rewrite H.
    + by rewrite H, H0.
    + by rewrite H, H0.
Qed.

Lemma def_step_measure st st' : def_step st = Some st' -> def_measure st' < def_measure st.
Proof.
  unfold def_measure. unfold def_step. destruct st as [[] [|l ls] syms]; simpl; try done.
  - destruct (String.eqb _ _); intros [= <-]; simpl; lia.
  - destruct (is_comment l); [intros [= <-]; simpl; lia|].
    destruct (export_name l); intros [= <-]; simpl; lia.
Qed.

Lemma def_step_none st : def_step st = None <-> halted st.
Proof.
  unfold halted. unfold def_step. destruct st as [[] [|l ls] syms]; simpl; try done.
  destruct (is_comment l); [done|]. by destruct (export_name l).
Qed.

Lemma def_run_total fuel st :
  def_measure st < fuel -> exists st', def_run fuel st = Some st' /\ halted st'.
Proof.
  revert st; induction fuel as [|fuel IH]; intros st Hf; [lia|]. simpl.
  destruct (def_step st) as [st1|] eqn:E.
  - apply IH. apply def_step_measure in E. lia.
  - exists st. split; [done|]. by apply def_step_none.
Qed.

Lemma def_run_rtc fuel st st' : def_run fuel st = Some st' -> rtc def_rel st st'.
Proof.
  revert st; induction fuel as [|fuel IH]; intros st; simpl; [done|].
  destruct (def_step st) as [st1|] eqn:E; [|by intros [= <-]].
  intros H%IH. eapply rtc_l; [by apply def_step_rel|done].
Qed.

Lemma def_run_enough fuel st :
  def_measure st < fuel ->
  exists st', def_run fuel st = Some st' /\ rtc def_rel st st' /\ halted st'.
Proof.
  intros Hf. destruct (def_run_total fuel st Hf) as (st' & Hr & Hh).
  exists st'. split_and!; [done|by eapply def_run_rtc|done].
Qed.

Lemma def_sn n st : def_measure st < n -> sn def_rel st.
Proof.
  revert st; induction n as [|n IH]; intros st Hn; [lia|].
  constructor. intros st' Hst%def_step_rel. apply IH.
  apply def_step_measure in Hst. lia.
Qed.

(** C15: the reader of a [.def] file always halts: from every state,
    every sequence of steps is finite, and a state with no line left is
    reachable. *)
Theorem def_reader_halts st :
  sn def_rel st /\ exists st', rtc def_rel st st' /\ halted st'.
Proof.
  split; [apply (def_sn (S (def_measure st))); lia|].
  destruct (def_run_enough (S (def_measure st)) st) as (st' & _ & ? & ?); [lia|eauto].
Qed.

(** The fuel [collect_def_exports] gives its loops, twice the number
    of lines plus one, is enough: the run ends with every line consumed,
    through steps of the reader. *)
Theorem collect_def_exports_fuel text :
  let st0 := mk_dstate Outer (readlines text) [] in
  exists st, def_run (S (def_measure st0)) st0 = Some st /\ rtc def_rel st0 st /\ halted st.
Proof. intros st0. apply def_run_enough. lia. Qed.

Lemma comment_no_export l : is_comment l = true -> export_name l = None.
Proof.
  unfold is_comment, export_name.
  destruct (drop_while isspace (list_ascii_of_string l)) as [|c r]; [done|].
  intros Hc. unfold ceq in Hc. apply bool_decide_eq_true in Hc as ->. simpl.
  by rewrite andb_false_r.
Qed.

Lemma def_step_exports st st' :
  def_step st = Some st' ->
  d_syms st' ++ map def_sym (exports_go (is_inner st') (d_lines st')) =
  d_syms st ++ map def_sym (exports_go (is_inner st) (d_lines st)).
Proof.
  unfold def_step. destruct st as [[] [|l ls] syms]; simpl; try done.
  - unfold open_next. destruct (String.eqb _ _); intros [= <-]; simpl; done.
  - destruct (is_comment l) eqn:Hc.
    + intros [= <-]. simpl. rewrite comment_no_export by done.
      unfold open_next. by rewrite Hc.
    + destruct (export_name l) as [n|] eqn:Hn; intros [= <-]; simpl; unfold open_next;
        rewrite Hc, Hn; simpl; [by rewrite <- app_assoc|done].
Qed.

Lemma def_run_exports fuel st st' :
  def_run fuel st = Some st' ->
  d_syms st' = d_syms st ++ map def_sym (exports_go (is_inner st) (d_lines st)).
Proof.
  revert st; induction fuel as [|fuel IH]; intros st; simpl; [done|].
  destruct (def_step st) as [st1|] eqn:E.
  - intros H%IH. rewrite H. by apply def_step_exports.
  - intros [= <-]. apply def_step_none in E. unfold halted in E. rewrite E. simpl.
    by rewrite app_nil_r.
Qed.

Lemma block_open_0 ls : ~ block_open ls 0.
Proof. intros (j & ? & _). lia. Qed.

Lemma block_open_S ls i l :
  ls !! i = Some l ->
  block_open ls (S i) <->
  (block_open ls i /\ (is_comment l = true \/ is_Some (export_name l))) \/ strip l = "EXPORTS".
Proof.
  intros Hl. split.
  - intros (j & Hj & (l' & Hl' & He) & Hm).
    destruct (decide (j = i)) as [->|Hne]; [right; congruence|left].
    split; [|apply (Hm i); [lia|lia|done]].
    exists j. split_and!; [lia|eauto|]. intros m l'' ? ?. apply Hm; lia.
  - intros [[(j & Hj & Hx & Hm) Hc]|He].
    + exists j. split_and!; [lia|done|]. intros m l' ? ? Hm'.
      destruct (decide (m = i)) as [->|]; [congruence|]. apply (Hm m); [lia|lia|done].
    + exists i. split_and!; [lia|eauto|]. intros; lia.
Qed.

Lemma open_at_spec ls i : i <= List.length ls -> open_at ls i = true <-> block_open ls i.
Proof.
  induction i as [|i IH]; intros Hi.
  - split; [done|]. intros []%block_open_0.
  - destruct (lookup_lt_is_Some_2 ls i) as [l Hl]; [lia|].
    unfold open_at. rewrite (take_S_r _ _ _ Hl), foldl_app. simpl. fold (open_at ls i).
    rewrite (block_open_S _ _ _ Hl), <- IH by lia. unfold open_next.
    rewrite orb_true_iff, andb_true_iff, orb_true_iff, bool_decide_eq_true, String.eqb_eq.
    tauto.
Qed.

Lemma block_openb_spec ls i : block_openb ls i = true <-> block_open ls i.
Proof.
  unfold block_openb, block_open. rewrite existsb_exists. split.
  - intros (j & Hj%in_seq & Hb). apply andb_true_iff in Hb as [He Hf].
    unfold exports_at in He. destruct (ls !! j) as [l|] eqn:Hl; [|done].
    exists j. split_and!; [lia|exists l; split; [done|by apply String.eqb_eq]|].
    intros m l' ? ? Hm. rewrite forallb_forall in Hf.
    specialize (Hf m ltac:(apply in_seq; lia)). unfold block_line_at in Hf. rewrite Hm in Hf.
    apply orb_true_iff in Hf as [|Hf]; [by left|right]. by apply bool_decide_eq_true in Hf.
  - intros (j & Hj & (l & Hl & He) & Hm). exists j. split; [apply in_seq; lia|].
    apply andb_true_iff. split; [unfold exports_at; rewrite Hl; by apply String.eqb_eq|].
    apply forallb_forall. intros m Hm'%in_seq. unfold block_line_at.
    destruct (ls !! m) as [l'|] eqn:Hl'; [|done].
    destruct (Hm m l') as [->|?]; [lia|lia|done|done|].
    apply orb_true_iff; right; by apply bool_decide_eq_true.
Qed.

Lemma exports_go_spec_from ls k :
  k <= List.length ls ->
  exports_go (open_at ls k) (drop k ls) =
  omap (fun i => if block_openb ls i then ls !! i ≫= export_name else None)
       (seq k (List.length ls - k)).
Proof.
  intros Hk. remember (List.length ls - k) as n eqn:En. revert k Hk En.
  induction n as [|n IH]; intros k Hk En.
  - rewrite drop_ge by lia. done.
  - destruct (lookup_lt_is_Some_2 ls k) as [l Hl]; [lia|].
    rewrite (drop_S _ _ _ Hl). simpl.
    assert (open_next (open_at ls k) l = open_at ls (S k)) as ->.
    { unfold open_at. by rewrite (take_S_r _ _ _ Hl), foldl_app. }
    rewrite (IH (S k)) by lia. rewrite Hl. simpl.
    destruct (block_openb ls k) eqn:Eb.
    + apply block_openb_spec, open_at_spec in Eb as ->; [|lia]. by destruct (export_name l).
    + destruct (open_at ls k) eqn:E; [|done].
      apply open_at_spec, block_openb_spec in E; [congruence|lia].
Qed.

(** C7: the symbols [collect_def_exports] reads from a [.def] file are
    exactly the identifier lines that lie in an [EXPORTS] block (after an
    [EXPORTS] line, with only comments and identifier lines in between),
    in the order of the file, each as a default-version global [FUNC]:
    the two nested stack loops implement this description. *)
Theorem collect_def_exports_spec f text :
  (collect_def_exports f (Some text)).1 = map def_sym (spec_names (readlines text)).
Proof.
  unfold collect_def_exports. cbv zeta. cbn [fst].
  destruct (def_run_total (S (def_measure (mk_dstate Outer (readlines text) [])))
              (mk_dstate Outer (readlines text) [])) as (st & Hrun & _); [lia|].
  rewrite Hrun. rewrite (def_run_exports _ _ _ Hrun). simpl.
  pose proof (exports_go_spec_from (readlines text) 0 ltac:(lia)) as Hs.
  rewrite Nat.sub_0_r, drop_0 in Hs. unfold spec_names. by rewrite <- Hs.
Qed.

(** A block ends at its first line that is neither a comment nor a bare
    identifier ([bar @1]: ordinals are not read); a later [EXPORTS] opens
    a new block. *)
Example sample_def_symbols :
  map s_name (collect_def_exports "foo.def" (Some sample_def)).1 = ["foo"; "baz"] /\
  spec_names (readlines sample_def) = ["foo"; "baz"] /\
  read_library_name (Some sample_def) = Some "libfoo.so".
Proof. split_and!; vm_compute; reflexivity. Qed.

Lemma libname_not_space c : is_libname_char c = true -> isspace c = false.
Proof. destruct c as [[] [] [] [] [] [] [] []]; vm_compute; congruence. Qed.

(** C25: a [.def] file whose first line is [LIBRARY name] names the
    library [name], for every name of the characters the pattern allows. *)
Theorem read_library_name_first n text :
  n <> EmptyString -> forallb is_libname_char (list_ascii_of_string n) = true ->
  read_library_name (Some ("LIBRARY " +:+ n +:+ nl +:+ text)) = Some n.
Proof.
  intros Hne Hn. unfold read_library_name, readlines.
  assert (forall c, In c (list_ascii_of_string n) -> isspace c = false) as Hvis.
  { intros c Hc. apply libname_not_space. rewrite forallb_forall in Hn. by apply Hn. }
  assert (has_char "013" n = false /\ has_char "010" n = false) as [Hcr Hlf]
    by (split; apply (forallb_has_char _ _ _ Hn); reflexivity).
  replace ("LIBRARY " +:+ n +:+ nl +:+ text) with (("LIBRARY " +:+ n +:+ nl) +:+ text)
    by by rewrite !append_assoc_str.
  rewrite translate_newlines_app
    by (rewrite !has_char_app, Hcr; reflexivity).
  rewrite !append_assoc_str. change (nl +:+ translate_newlines text) with
    (String "010" (translate_newlines text)).
  replace ("LIBRARY " +:+ n +:+ String "010" (translate_newlines text)) with
    (("LIBRARY " +:+ n) +:+ String "010" (translate_newlines text))
    by by rewrite append_assoc_str.
  rewrite lines_keep_app by (rewrite has_char_app, Hlf; reflexivity). simpl find_map.
  rewrite strip_line; [|by intros ? ? [= <- _]| |done].
  2: { intros c l. rewrite list_ascii_app, rev_app_distr.
       destruct (rev (list_ascii_of_string n)) as [|c' r] eqn:Er.
       - apply (f_equal (@rev ascii)) in Er. rewrite rev_involutive in Er.
         destruct n; [done|discriminate].
       - intros [= <- _]. apply Hvis, in_rev. rewrite Er. by left. }
  unfold library_name_of. simpl. rewrite !append_nil_l.
  destruct (list_ascii_of_string n) as [|c l] eqn:E; [destruct n; [done|discriminate]|].
  rewrite (drop_while_stable isspace (c :: l)) by (intros ? ? [= <- _]; apply Hvis; by left).
  rewrite bool_decide_true by (simpl; lia). rewrite bool_decide_false by done. rewrite Hn. simpl.
  by rewrite <- (string_of_list_ascii_of_string n), E.
Qed.

Lemma read_library_name_first_witness :
  read_library_name (Some ("LIBRARY " +:+ "libfoo.so.1" +:+ nl +:+ "EXPORTS" +:+ nl)) = Some "libfoo.so.1".
Proof. apply read_library_name_first; [discriminate|reflexivity]. Defined.

End DefFile.
