(* ===== verification/Probe.v ===== *)
(** * The binary prober and the SONAME: [is_binary_file] (lines 62-91) and
      [read_soname] (lines 523-546)

    [is_binary_file] decides whether the input is a library (ELF or Mach-O)
    or a [.def] text: [readelf -d] succeeding means ELF; otherwise the
    output of [file] is searched for ["Mach-O"] or ["shared library"].
    Neither call goes through [run]: the exit status of [file] is not
    looked at, and a missing [readelf] is an uncaught [OSError].
    [read_soname] takes the name in brackets after [(SONAME)] in the
    output of [readelf -d], or the base name of a Mach-O file. *)

From S2P Require Import Prelude PyStr Proc Rows Symbols.

Module Probe.
Import Py Symbols.

Section Tools.
Context `{System}.

(** [is_binary_file(filename)] *)
Definition is_binary_file (f : string) : result bool :=
  match exec ["readelf"; "-d"; f] "" with
  | SpawnFailed => crash:("OSError")
  | Spawned c =>
      if bool_decide (returncode c = 0%Z) then Ok true
      else
        match exec ["file"; f] "" with
        | SpawnFailed => Ok false
        | Spawned c' => Ok (contains "Mach-O" (stdout c') || contains "shared library" (stdout c'))
        end
  end.
End Tools.

(** ** [re.search(r"\(SONAME\).*\[(.+)\]", line)] *)

(** The rest of [s] after the first occurrence of [p]. *)
Fixpoint after_first (p s : string) : option string :=
  match strip_prefix p s with
  | Some r => Some r
  | None => match s with EmptyString => None | String _ s' => after_first p s' end
  end.

Fixpoint last_index_go (p : ascii -> bool) (i : nat) (l : list ascii) (acc : option nat)
  : option nat :=
  match l with
  | [] => acc
  | c :: l' => last_index_go p (S i) l' (if p c then Some i else acc)
  end.

(** The position of the last character satisfying [p]. *)
Definition last_index (p : ascii -> bool) (l : list ascii) : option nat := last_index_go p 0 l None.

(** [.*\[(.+)\]] after [(SONAME)]: the greedy [.*] leaves the last [[]
    that still has a character and a []] after it, and the greedy [.+]
    runs to the last []]; the group is what lies between. *)
Definition bracket_group (rest : string) : option string :=
  let l := list_ascii_of_string rest in
  match last_index (ceq "]") l with
  | None => None
  | Some k =>
      match last_index (ceq "[") (take (k - 1) l) with
      | None => None
      | Some j => Some (string_of_list_ascii (take (k - j - 1) (drop (S j) l)))
      end
  end.

Definition soname_of (line : string) : option string :=
  match after_first "(SONAME)" line with
  | None => None
  | Some rest => bracket_group rest
  end.

(** One line of the loop of lines 535-543. *)
Definition soname_line (raw : string) : option string :=
  let line := strip raw in
  if String.eqb line "" then None else soname_of line.

Section Soname.
Context `{System}.

(** [read_soname(f)] *)
Definition read_soname (f : string) : result (option string) :=
  is_macho <- is_macho_file f ;;
  if is_macho then Ok (Some (basename f))
  else
    out <- run ["readelf"; "-d"; f] "" ;;
    Ok (find_map soname_line (splitlines out)).
End Soname.

(** [readelf] rejects a text file; [file] describes it after its path. *)
Definition text_tools : System := fun args _ =>
  match args with
  | ["readelf"; "-d"; f] =>
      Spawned (mk_completed 1 "" ("readelf: Error: " +:+ f +:+ ": Failed to read file header"))
  | ["file"; f] => Spawned (mk_completed 0 (f +:+ ": ASCII text") "")
  | _ => SpawnFailed
  end.

Definition elf_tools (readelf_d : string) : System := fun args _ =>
  match args with
  | ["readelf"; "-d"; _] => Spawned (mk_completed 0 readelf_d "")
  | "file" :: _ => Spawned (mk_completed 0 "libndp.so: ELF 64-bit LSB shared object" "")
  | _ => SpawnFailed
  end.

(** ** Theorems *)

Import PyFacts.

(** C16: the prober takes a text file for a binary when [readelf] rejects
    it but its path contains "shared library": [file] prints the path
    before its description, and the whole output is searched.  A [.def]
    file in such a directory is then read as a library. *)
Theorem is_binary_file_path `{System} f c c' :
  exec ["readelf"; "-d"; f] "" = Spawned c -> returncode c <> 0%Z ->
  exec ["file"; f] "" = Spawned c' -> String.prefix f (stdout c') = true ->
  contains "shared library" f = true ->
  is_binary_file f = Ok true.
Proof.
  intros Hr Hc Hf Hp Hs. unfold is_binary_file. rewrite Hr.
  rewrite bool_decide_false by done. rewrite Hf.
  rewrite (contains_prefix _ _ _ Hs Hp). by rewrite orb_true_r.
Qed.

Lemma is_binary_file_path_witness :
  @is_binary_file text_tools "shared library wrappers/libfoo.def" = Ok true.
Proof.
  apply (@is_binary_file_path text_tools "shared library wrappers/libfoo.def"
           (mk_completed 1 "" ("readelf: Error: shared library wrappers/libfoo.def: Failed to read file header"))
           (mk_completed 0 ("shared library wrappers/libfoo.def" +:+ ": ASCII text") ""));
    try reflexivity; discriminate.
Defined.

(** The same file elsewhere is a [.def] file. *)
Example is_binary_file_text :
  @is_binary_file text_tools "wrappers/libfoo.def" = Ok false.
Proof. vm_compute. reflexivity. Qed.

Lemma strip_prefix_app p s : strip_prefix p (p +:+ s) = Some s.
Proof.
  induction p as [|c p IH]; [done|]. rewrite append_cons. simpl.
  unfold ceq. by rewrite bool_decide_true.
Qed.

Lemma strip_prefix_spec p s r : strip_prefix p s = Some r -> s = p +:+ r.
Proof.
  revert s; induction p as [|c p IH]; intros s; [by intros [= ->]|].
  destruct s as [|d s]; [done|]. simpl. unfold ceq.
  case_bool_decide as E; [subst|done]. intros H. rewrite append_cons. f_equal. by apply IH.
Qed.

Lemma after_first_unfold p s :
  after_first p s = match strip_prefix p s with
                    | Some r => Some r
                    | None => match s with EmptyString => None | String _ s' => after_first p s' end
                    end.
Proof. by destruct s. Qed.

(** The rest after the first occurrence of [p] ends with what follows any
    occurrence of [p]. *)
Lemma after_first_app p a b : exists x, after_first p (a +:+ p +:+ b) = Some (x +:+ b).
Proof.
  induction a as [|c a (x & IH)].
  - exists EmptyString. rewrite !append_nil_l, after_first_unfold, strip_prefix_app. done.
  - rewrite append_cons, after_first_unfold.
    destruct (strip_prefix p (String c (a +:+ p +:+ b))) as [r|] eqn:E; [|by exists x].
    apply strip_prefix_spec in E.
    destruct (append_suffix p r (String c (a +:+ p)) b) as [y ->]; [| |by exists y].
    + rewrite <- E, append_cons, append_assoc_str. done.
    + apply (f_equal String.length) in E. simpl in E. rewrite !length_append in E.
      lia.
Qed.

Lemma last_index_go_app p i l1 l2 acc :
  last_index_go p i (l1 ++ l2) acc = last_index_go p (i + List.length l1) l2 (last_index_go p i l1 acc).
Proof.
  revert i acc; induction l1 as [|c l1 IH]; intros i acc; simpl; [by rewrite Nat.add_0_r|].
  rewrite IH. by rewrite Nat.add_succ_r.
Qed.

Lemma last_index_go_none p i l acc :
  Forall (fun c => p c = false) l -> last_index_go p i l acc = acc.
Proof.
  revert i acc; induction l as [|c l IH]; intros i acc; simpl; [done|].
  intros [Hc Hl]%Forall_cons. rewrite Hc. by apply IH.
Qed.

Lemma last_index_snoc p l c : p c = true -> last_index p (l ++ [c]) = Some (List.length l).
Proof. intros Hc. unfold last_index. rewrite last_index_go_app. simpl. by rewrite Hc. Qed.

Lemma last_index_app_none p l1 l2 :
  Forall (fun c => p c = false) l2 -> last_index p (l1 ++ l2) = last_index p l1.
Proof. intros H. unfold last_index. rewrite last_index_go_app. by apply last_index_go_none. Qed.

Lemma ceq_refl c : ceq c c = true.
Proof. unfold ceq. by rewrite bool_decide_true. Qed.

(** [.*\[(.+)\]] on a text ending in [[name]], with a name that has no
    bracket: the group is the name. *)
Lemma bracket_group_last x n :
  n <> EmptyString -> has_char "[" n = false -> has_char "]" n = false ->
  bracket_group (x +:+ "[" +:+ n +:+ "]") = Some n.
Proof.
  intros Hne Ho Hc. unfold bracket_group. rewrite !list_ascii_app.
  change (list_ascii_of_string "[") with ["["%char].
  change (list_ascii_of_string "]") with ["]"%char].
  rewrite has_char_false in Ho, Hc.
  destruct (list_ascii_of_string n) as [|c0 m] eqn:En.
  { destruct n; [done|discriminate]. }
  set (lx := list_ascii_of_string x).
  assert (Forall (fun c => ceq "[" c = false) (c0 :: m) /\ Forall (fun c => ceq "]" c = false) (c0 :: m))
    as [Fo Fc].
  { split; apply List.Forall_forall; intros c Hin; unfold ceq; apply bool_decide_eq_false;
      intros <-; [apply Ho|apply Hc]; rewrite ?En; done. }
  replace (lx ++ ["["%char] ++ (c0 :: m) ++ ["]"%char]) with ((lx ++ "["%char :: c0 :: m) ++ ["]"%char])
    by by rewrite <- app_assoc.
  rewrite last_index_snoc by apply ceq_refl. rewrite length_app. simpl.
  replace (List.length lx + S (S (List.length m)) - 1) with (List.length lx + S (List.length m)) by lia.
  rewrite take_app_le by (rewrite length_app; simpl; lia).
  rewrite take_app_add. simpl.
  replace (lx ++ "["%char :: take (List.length m) (c0 :: m)) with
    ((lx ++ ["["%char]) ++ take (List.length m) (c0 :: m)) by by rewrite <- app_assoc.
  rewrite last_index_app_none by (apply Forall_take; exact Fo).
  rewrite last_index_snoc by apply ceq_refl.
  replace (List.length lx + S (S (List.length m)) - List.length lx - 1) with (S (List.length m)) by lia.
  rewrite <- app_assoc, drop_app_ge by lia.
  replace (S (List.length lx) - List.length lx) with 1 by lia. simpl.
  rewrite take_app_le by (simpl; lia). rewrite take_ge by (simpl; lia).
  by rewrite <- (string_of_list_ascii_of_string n), En.
Qed.

(** C22: the SONAME is the text between the last brackets after
    [(SONAME)]: a line [... (SONAME) ... [name]] of [readelf -d] gives
    [name], whatever precedes it, for every name without brackets. *)
Theorem soname_of_line pre mid n :
  n <> EmptyString -> has_char "[" n = false -> has_char "]" n = false ->
  soname_of (pre +:+ "(SONAME)" +:+ mid +:+ "[" +:+ n +:+ "]") = Some n.
Proof.
  intros Hne Ho Hc. unfold soname_of.
  destruct (after_first_app "(SONAME)" pre (mid +:+ "[" +:+ n +:+ "]")) as (x & ->).
  rewrite <- append_assoc_str. by apply bracket_group_last.
Qed.

Lemma soname_of_line_witness :
  soname_of (" 0x000000000000000e " +:+ "(SONAME)" +:+ "             Library soname: " +:+ "[" +:+
             "libndp.so.0" +:+ "]") = Some "libndp.so.0".
Proof. apply soname_of_line; [discriminate|reflexivity|reflexivity]. Defined.

(** [read_soname] on a [readelf -d] listing: the first line with a
    SONAME; [NEEDED] lines, also bracketed, are skipped. *)
Example read_soname_listing :
  @read_soname (elf_tools ("Dynamic section at offset 0x2df8 contains 27 entries:" +:+ nl +:+
     "  Tag        Type                         Name/Value" +:+ nl +:+
     " 0x0000000000000001 (NEEDED)             Shared library: [libc.so.6]" +:+ nl +:+
     " 0x000000000000000e (SONAME)             Library soname: [libndp.so.0]" +:+ nl))
    "libndp.so" = Ok (Some "libndp.so.0").
Proof. vm_compute. reflexivity. Qed.

End Probe.
