(* ===== verification/Template.v ===== *)
(** * [string.Template.substitute]: the template engine of the emitter

    [main] fills three template files with [string.Template(text)
    .substitute(key=value, ...)] (lines 913-928 and 937-953).  This file
    models that library call as the script relies on it: the scanner of
    [Template.pattern], which after a [$] tries in turn a second [$], an
    identifier (an ASCII letter or [_], then letters, digits and [_],
    case-insensitively), an identifier in braces, and the empty
    [invalid] group, left to right over the text.  [$$] gives [$], [$name] and [${name}] give
    [str(mapping[name])] ([KeyError] when the call does not pass [name]),
    and any other [$] is an invalid placeholder ([ValueError]).

    The scanner is a one-pass machine ([subst_go], state [tmode]); the
    reference reading is a template as a list of [piece]s, printed by
    [render] and expanded piece by piece by [expand].  [substitute_render]
    shows that the scanner expands every well-formed template the way its
    pieces say. *)

From S2P Require Import Prelude PyStr.

Module Template.
Import Py PyFacts.

(** [idpattern] under [re.IGNORECASE], ASCII only. *)
Definition is_id_start (c : ascii) : bool := is_upper_ascii c || is_lower_ascii c || ceq c "_".
Definition is_id_char (c : ascii) : bool := is_id_start c || is_digit c.

(** Where the scanner stands. *)
Inductive tmode :=
  | TText                        (* copying text *)
  | TDollar                      (* just read [$] *)
  | TNamed (k : list ascii)      (* read [$] and the identifier [k] so far *)
  | TBraced (k : list ascii).    (* read [${] and the identifier [k] so far *)

(** [str(mapping[name])]: the values are passed already converted. *)
Definition lookup_key (m : gmap string string) (k : list ascii) : result (list ascii) :=
  match m !! string_of_list_ascii k with
  | Some v => Ok (list_ascii_of_string v)
  | None => crash:("KeyError")
  end.

(** One pass over the template: [re.sub] of [Template.pattern] with the
    [convert] function of [Template.substitute]. *)
Fixpoint subst_go (m : gmap string string) (md : tmode) (s : list ascii) : result (list ascii) :=
  match md, s with
  | TText, [] => Ok []
  | TNamed k, [] => lookup_key m k
  | _, [] => crash:("ValueError")
  | TText, c :: s' =>
      if ceq c "$" then subst_go m TDollar s'
      else r <- subst_go m TText s' ;; Ok (c :: r)
  | TDollar, c :: s' =>
      if ceq c "$" then (r <- subst_go m TText s' ;; Ok ("$"%char :: r))
      else if is_id_start c then subst_go m (TNamed [c]) s'
      else if ceq c "{" then subst_go m (TBraced []) s'
      else crash:("ValueError")
  | TNamed k, c :: s' =>
      if is_id_char c then subst_go m (TNamed (k ++ [c])) s'
      else
        v <- lookup_key m k ;;
        r <- (if ceq c "$" then subst_go m TDollar s'
              else r <- subst_go m TText s' ;; Ok (c :: r)) ;;
        Ok (v ++ r)
  | TBraced [], c :: s' =>
      if is_id_start c then subst_go m (TBraced [c]) s' else crash:("ValueError")
  | TBraced k, c :: s' =>
      if is_id_char c then subst_go m (TBraced (k ++ [c])) s'
      else if ceq c "}" then (v <- lookup_key m k ;; r <- subst_go m TText s' ;; Ok (v ++ r))
      else crash:("ValueError")
  end.

(** [string.Template(tpl).substitute(m)], the keyword arguments as the map [m] *)
Definition substitute (m : gmap string string) (tpl : string) : result string :=
  r <- subst_go m TText (list_ascii_of_string tpl) ;; Ok (string_of_list_ascii r).

(** ** The reference reading: a template as pieces *)

Inductive piece :=
  | PText (s : string)
  | PDollar
  | PNamed (k : string)
  | PBraced (k : string).

Definition render_piece (p : piece) : string :=
  match p with
  | PText s => s
  | PDollar => "$$"
  | PNamed k => "$" +:+ k
  | PBraced k => "${" +:+ k +:+ "}"
  end.

Fixpoint render (ps : list piece) : string :=
  match ps with
  | [] => ""
  | p :: ps' => render_piece p +:+ render ps'
  end.

Definition expand_piece (m : gmap string string) (p : piece) : result string :=
  match p with
  | PText s => Ok s
  | PDollar => Ok "$"
  | PNamed k | PBraced k => match m !! k with Some v => Ok v | None => crash:("KeyError") end
  end.

Fixpoint expand (m : gmap string string) (ps : list piece) : result string :=
  match ps with
  | [] => Ok ""
  | p :: ps' => v <- expand_piece m p ;; r <- expand m ps' ;; Ok (v +:+ r)
  end.

Definition is_ident (k : string) : bool :=
  match list_ascii_of_string k with
  | c :: cs => is_id_start c && forallb is_id_char cs
  | [] => false
  end.

Definition starts_with_id (s : string) : bool :=
  match s with String c _ => is_id_char c | EmptyString => false end.

(** A template whose pieces read back as themselves: text without [$],
    identifiers as names, and no identifier character right after a
    [$name] (which would lengthen the name). *)
Fixpoint wf_pieces (ps : list piece) : bool :=
  match ps with
  | [] => true
  | PText s :: ps' => negb (has_char "$" s) && wf_pieces ps'
  | PDollar :: ps' => wf_pieces ps'
  | PNamed k :: ps' => is_ident k && negb (starts_with_id (render ps')) && wf_pieces ps'
  | PBraced k :: ps' => is_ident k && wf_pieces ps'
  end.

(** ** Theorems *)

Section Scanner.
Context (m : gmap string string).

Lemma subst_go_text s rest :
  has_char "$" s = false ->
  subst_go m TText (list_ascii_of_string s ++ rest) =
    (r <- subst_go m TText rest ;; Ok (list_ascii_of_string s ++ r)).
Proof.
  induction s as [|c s IH]; intros Hs; [simpl; by destruct (subst_go m TText rest)|].
  unfold has_char in Hs. simpl in Hs. apply orb_false_iff in Hs as [Hc Hs].
  simpl. rewrite (ceq_false_sym _ _ Hc), IH by done.
  by destruct (subst_go m TText rest).
Qed.

Lemma subst_go_named cs k rest :
  forallb is_id_char cs = true ->
  subst_go m (TNamed k) (cs ++ rest) = subst_go m (TNamed (k ++ cs)) rest.
Proof.
  revert k; induction cs as [|c cs IH]; intros k Hcs; simpl; [by rewrite app_nil_r|].
  apply andb_prop in Hcs as [Hc Hcs]. rewrite Hc, IH by done. by rewrite <- app_assoc.
Qed.

Lemma subst_go_braced cs x k rest :
  forallb is_id_char cs = true ->
  subst_go m (TBraced (x :: k)) (cs ++ rest) = subst_go m (TBraced (x :: k ++ cs)) rest.
Proof.
  revert k; induction cs as [|c cs IH]; intros k Hcs; simpl; [by rewrite app_nil_r|].
  apply andb_prop in Hcs as [Hc Hcs]. rewrite Hc. rewrite (IH (k ++ [c])) by done.
  by rewrite <- app_assoc.
Qed.

(** A name ends at the first character that cannot continue it. *)
Lemma subst_go_named_end k rest :
  (if rest is c :: _ then is_id_char c = false else True) ->
  subst_go m (TNamed k) rest = (v <- lookup_key m k ;; r <- subst_go m TText rest ;; Ok (v ++ r)).
Proof.
  destruct rest as [|c rest]; simpl; intros Hc.
  - destruct (lookup_key m k); simpl; [by rewrite app_nil_r|done].
  - by rewrite Hc.
Qed.

Lemma lookup_key_string k : lookup_key m (list_ascii_of_string k) =
  (r <- expand_piece m (PNamed k) ;; Ok (list_ascii_of_string r)).
Proof. unfold lookup_key. simpl. rewrite string_of_list_ascii_of_string. by destruct (m !! k). Qed.


Lemma id_start_not_dollar c : is_id_start c = true -> ceq c "$" = false.
Proof. destruct c as [[] [] [] [] [] [] [] []]; vm_compute; congruence. Qed.

Lemma subst_go_piece p rest :
  match p with
  | PText s => has_char "$" s = false
  | PDollar => True
  | PNamed k => is_ident k = true /\ (if rest is c :: _ then is_id_char c = false else True)
  | PBraced k => is_ident k = true
  end ->
  subst_go m TText (list_ascii_of_string (render_piece p) ++ rest) =
    (v <- expand_piece m p ;; r <- subst_go m TText rest ;; Ok (list_ascii_of_string v ++ r)).
Proof.
  destruct p as [s| |k|k]; cbn [render_piece].
  - intros Hs. rewrite subst_go_text by done. done.
  - intros _. simpl. by destruct (subst_go m TText rest).
  - intros [Hk Hr]. unfold is_ident in Hk.
    destruct (list_ascii_of_string k) as [|c cs] eqn:Ek; [done|]. apply andb_prop in Hk as [Hc Hcs].
    rewrite list_ascii_app, Ek. simpl. rewrite (id_start_not_dollar _ Hc), Hc.
    rewrite (subst_go_named cs [c]), subst_go_named_end by done.
    cbn [app]. rewrite <- Ek, lookup_key_string. cbn [expand_piece].
    by destruct (m !! k); [destruct (subst_go m TText rest)|].
  - intros Hk. unfold is_ident in Hk.
    destruct (list_ascii_of_string k) as [|c cs] eqn:Ek; [done|]. apply andb_prop in Hk as [Hc Hcs].
    rewrite !list_ascii_app, Ek. simpl. rewrite Hc.
    rewrite <- app_assoc, (subst_go_braced cs c []) by done. simpl.
    rewrite <- Ek, lookup_key_string. cbn [expand_piece].
    by destruct (m !! k); [destruct (subst_go m TText rest)|].
Qed.

Lemma subst_go_render ps :
  wf_pieces ps = true ->
  subst_go m TText (list_ascii_of_string (render ps)) = (r <- expand m ps ;; Ok (list_ascii_of_string r)).
Proof.
  induction ps as [|p ps IH]; intros Hwf; [done|]. cbn [render expand]. rewrite list_ascii_app.
  assert (wf_pieces ps = true) as Hps by (destruct p; simpl in Hwf; destr_andb; done).
  rewrite subst_go_piece, IH; [|done|].
  2:{ destruct p; simpl in Hwf; destr_andb; [by apply negb_true_iff|done| |done].
      split; [done|]. destruct (render ps) as [|c s]; simpl in *; [done|by apply negb_true_iff]. }
  destruct (expand_piece m p) as [v|]; [|done]. simpl.
  destruct (expand m ps) as [r|]; [|done]. simpl. by rewrite list_ascii_app.
Qed.

End Scanner.

(** The scanner of [string.Template] expands a well-formed template
    piece by piece: [$$] to [$], [$name] and [${name}] to the value passed
    for [name] (the first missing name raising [KeyError]), and text
    unchanged.  The one-pass machine [substitute] agrees with the reading
    of the template as pieces. *)
Theorem substitute_render m ps :
  wf_pieces ps = true -> substitute m (render ps) = expand m ps.
Proof.
  unfold substitute. intros Hwf. rewrite subst_go_render by done.
  destruct (expand m ps) as [r|]; simpl; [by rewrite string_of_list_ascii_of_string|done].
Qed.

Example substitute_render_example :
  wf_pieces [PText "  .globl "; PNamed "sym"; PText (String "010" "  jmp *");
             PBraced "lib_suffix"; PText "_tramp_table+"; PNamed "offset"; PDollar] = true /\
  substitute (list_to_map [("sym", "foo"); ("lib_suffix", "libfoo_so"); ("offset", "8")])
    (render [PText "  .globl "; PNamed "sym"; PText (String "010" "  jmp *");
             PBraced "lib_suffix"; PText "_tramp_table+"; PNamed "offset"; PDollar]) =
    Ok ("  .globl foo" +:+ String "010" "  jmp *libfoo_so_tramp_table+8$").
Proof.
  split; [reflexivity|].
  rewrite substitute_render by reflexivity. reflexivity.
Qed.

(** Python's error behaviour on the two kinds of bad template: a name the
    call does not pass, and a [$] that starts no placeholder. *)
Example substitute_errors :
  substitute {[ "a" := "1" ]} "x = $a + $b" = crash:("KeyError") /\
  substitute {[ "a" := "1" ]} "cost: 5$" = crash:("ValueError") /\
  substitute {[ "a" := "1" ]} "${a}b $$a" = Ok "1b $a".
Proof. split_and!; reflexivity. Qed.

End Template.
