(* ===== verification/World.v ===== *)
(** * The effects of [main]: files, directories and the output streams

    What the script changes outside itself: the directories it creates
    ([os.makedirs], lines 719-723), the files it writes ([open(p, "w")] and
    [f.write], lines 909-957), its standard output ([print]) and its
    standard error ([warn], lines 27-29, and [error], lines 32-35).  They
    are the Record [world]; a step of the script is an [io] computation, a
    state monad over [world] whose result may be a failure.  A failure
    keeps the world it happened in: what was written before an exception
    stays written, as with Python's [with open(...)] blocks, which close
    (and flush) their file on the way out.  [frame] states which parts of
    the world a step leaves as they were. *)

From S2P Require Import Prelude PyStr.

Module World.
Import PyFacts.

Record world := mk_world {
  w_dirs : gset string;
  w_files : gmap string string;
  w_stdout : list string;
  w_stderr : list string
}.

Definition io (A : Type) : Type := world -> world * result A.

Definition io_ret {A} (a : A) : io A := fun w => (w, Ok a).

Definition io_bind {A B} (m : io A) (f : A -> io B) : io B := fun w =>
  match m w with
  | (w', Ok a) => f a w'
  | (w', Err e) => (w', Err e)
  end.

#[export] Instance io_mret : MRet io := @io_ret.
#[export] Instance io_mbind : MBind io := fun A B f m => io_bind m f.

(** [me = os.path.basename(__file__)] (line 23) *)
Definition me : string := "implib-gen.py".

Definition put_stderr (line : string) (w : world) : world :=
  mk_world (w_dirs w) (w_files w) (w_stdout w) (w_stderr w ++ [line]).

(** A step that cannot touch the world; [error(msg)] writes its
    diagnostic before the exit.  An uncaught exception's traceback is not
    modelled: the failure records the exception. *)
Definition lift {A} (r : result A) : io A := fun w =>
  match r with
  | Err (Fatal msg) => (put_stderr (me +:+ ": error: " +:+ msg) w, Err (Fatal msg))
  | _ => (w, r)
  end.

(** The line [warn(msg)] (lines 27-29) writes. *)
Definition warning_line (msg : string) : string := me +:+ ": warning: " +:+ msg.

Definition warn (msg : string) : io unit := fun w => (put_stderr (warning_line msg) w, Ok tt).

(** [print(s)] *)
Definition print (s : string) : io unit := fun w =>
  (mk_world (w_dirs w) (w_files w) (w_stdout w ++ [s]) (w_stderr w), Ok tt).

(** [if not os.path.exists(d): os.makedirs(d)] (lines 719-720) *)
Definition makedirs (d : string) : io unit := fun w =>
  if bool_decide (d ∈ w_dirs w) then (w, Ok tt)
  else (mk_world ({[d]} ∪ w_dirs w) (w_files w) (w_stdout w) (w_stderr w), Ok tt).

(** The file [p] now holds [t]. *)
Definition set_file (p t : string) (w : world) : world :=
  mk_world (w_dirs w) (<[p := t]> (w_files w)) (w_stdout w) (w_stderr w).

(** [open(p, "w")]: the file is created, or emptied. *)
Definition open_w (p : string) : io unit := fun w => (set_file p "" w, Ok tt).

(** [f.write(t)] on the file [p] opened for writing. *)
Definition write (p t : string) : io unit := fun w =>
  (set_file p (default "" (w_files w !! p) +:+ t) w, Ok tt).

(** The text of a sequence of writes. *)
Definition concat_str (ts : list string) : string := foldr String.append "" ts.

(** [if b: ...] around a block that only prints *)
Definition when (b : bool) (m : io unit) : io unit := if b then m else io_ret tt.

(** [for x in l: f(x)] *)
Fixpoint io_iter {A} (f : A -> io unit) (l : list A) : io unit :=
  match l with
  | [] => io_ret tt
  | x :: l' => io_bind (f x) (fun _ => io_iter f l')
  end.

(** A step keeps the relation [R] between the world before it and the
    world after it: on every outcome when [strict], else when it
    succeeds. *)
Definition frame (strict : bool) (R : relation world) {A} (m : io A) : Prop :=
  forall w, (strict || is_ok (m w).2) = true -> R w (m w).1.

Definition same_files : relation world := fun w w' => w_files w' = w_files w /\ w_dirs w' = w_dirs w.
Definition same_stdout : relation world := fun w w' => w_stdout w' = w_stdout w.
Definition same_stderr : relation world := fun w w' => w_stderr w' = w_stderr w.
Definition stdout_grows : relation world := fun w w' => exists l, w_stdout w' = w_stdout w ++ l.

(** ** Theorems *)

Lemma io_bind_ret_l {A B} (a : A) (f : A -> io B) w : io_bind (io_ret a) f w = f a w.
Proof. done. Qed.

Lemma io_bind_ret_r {A} (m : io A) w : io_bind m io_ret w = m w.
Proof. unfold io_bind. by destruct (m w) as [? []]. Qed.

Lemma io_bind_assoc {A B C} (m : io A) (f : A -> io B) (g : B -> io C) w :
  io_bind (io_bind m f) g w = io_bind m (fun a => io_bind (f a) g) w.
Proof. unfold io_bind. by destruct (m w) as [? []]. Qed.

(** Inverting a successful sequence. *)
Lemma io_bind_Ok {A B} (m : io A) (f : A -> io B) w w'' b :
  io_bind m f w = (w'', Ok b) <-> exists w' a, m w = (w', Ok a) /\ f a w' = (w'', Ok b).
Proof.
  unfold io_bind. destruct (m w) as [w' [a|e]]; split.
  - eauto.
  - by intros (? & ? & [= -> ->] & ?).
  - done.
  - by intros (? & ? & ? & ?).
Qed.

(** A failed step ends the sequence in the world it left. *)
Lemma io_bind_Err {A B} (m : io A) (f : A -> io B) w w' e :
  m w = (w', Err e) -> io_bind m f w = (w', Err e).
Proof. unfold io_bind. by intros ->. Qed.

(** Running the first step of a sequence. *)
Lemma io_bind_step {A B} (m : io A) (f : A -> io B) w w' a :
  m w = (w', Ok a) -> io_bind m f w = f a w'.
Proof. unfold io_bind. by intros ->. Qed.

Lemma write_run p t w x : w_files w !! p = Some x -> write p t w = (set_file p (x +:+ t) w, Ok tt).
Proof. unfold write. by intros ->. Qed.

Lemma lift_Ok {A} (r : result A) w w' a : lift r w = (w', Ok a) <-> r = Ok a /\ w' = w.
Proof.
  destruct r as [a'|[]]; simpl; split.
  all: first [by intros [= -> ->] | by intros [[= ->] ->] | by intros [[=] _] | by intros [=]].
Qed.

Lemma set_file_set_file p t t' w : set_file p t (set_file p t' w) = set_file p t w.
Proof. unfold set_file. simpl. by rewrite insert_insert_eq. Qed.

Lemma set_file_lookup p t w : w_files (set_file p t w) !! p = Some t.
Proof. apply lookup_insert_eq. Qed.

Lemma append_empty_r (s : string) : s +:+ "" = s.
Proof. induction s as [|c s IH]; [done|]. rewrite append_cons. by rewrite IH. Qed.

Lemma makedirs_run d w :
  exists w1, makedirs d w = (w1, Ok tt) /\ w_files w1 = w_files w /\ w_stdout w1 = w_stdout w /\
    w_stderr w1 = w_stderr w /\ w_dirs w1 ≡ {[d]} ∪ w_dirs w.
Proof. unfold makedirs. case_decide; eexists; (split; [reflexivity|]); simpl; split_and!; set_solver. Qed.

(** [for msg in l: warn(msg)] *)
Lemma io_iter_print l w :
  io_iter print l w =
    (mk_world (w_dirs w) (w_files w) (w_stdout w ++ l) (w_stderr w), Ok tt).
Proof.
  revert w. induction l as [|m l IH]; intros w; simpl.
  - unfold io_ret. destruct w; simpl. by rewrite app_nil_r.
  - unfold io_bind. simpl. rewrite IH. simpl. by rewrite <- app_assoc.
Qed.

Lemma when_print_run b l w :
  when b (io_iter print l) w =
    (mk_world (w_dirs w) (w_files w) (w_stdout w ++ if b then l else []) (w_stderr w), Ok tt).
Proof. destruct b; [apply io_iter_print|]. destruct w. simpl. by rewrite app_nil_r. Qed.

Lemma io_iter_warn l w :
  io_iter warn l w =
    (mk_world (w_dirs w) (w_files w) (w_stdout w) (w_stderr w ++ map warning_line l), Ok tt).
Proof.
  revert w. induction l as [|m l IH]; intros w; simpl.
  - unfold io_ret. destruct w; simpl. by rewrite app_nil_r.
  - unfold io_bind. simpl. rewrite IH. simpl. by rewrite <- app_assoc.
Qed.

Section Writes.
Context {A : Type} (g : A -> result string) (p : string).

(** A loop that writes one computed text per element to the open file
    [p] grows the file by the texts, in order. *)
Lemma io_iter_write_ok l ts w x :
  w_files w !! p = Some x -> map_result g l = Ok ts ->
  io_iter (fun a => io_bind (lift (g a)) (write p)) l w = (set_file p (x +:+ concat_str ts) w, Ok tt).
Proof.
  revert ts w x. induction l as [|a l IH]; intros ts w x Hx Hl; simpl in *.
  - injection Hl as <-. simpl. rewrite append_empty_r.
    destruct w; unfold set_file; simpl in *. by rewrite insert_id.
  - destruct (g a) as [t|e]; [|done]. simpl in Hl.
    destruct (map_result g l) as [ts'|] eqn:El; [|done]. injection Hl as <-.
    unfold io_bind at 1. simpl. rewrite Hx. simpl.
    rewrite (IH ts' _ (x +:+ t)) by (done || apply set_file_lookup).
    by rewrite set_file_set_file, append_assoc_str.
Qed.

(** The loop stops with the first text that cannot be computed. *)
Lemma io_iter_write_err l w e :
  map_result g l = Err e ->
  exists w', io_iter (fun a => io_bind (lift (g a)) (write p)) l w = (w', Err e).
Proof.
  revert w. induction l as [|a l IH]; intros w Hl; simpl in *; [done|].
  unfold io_bind at 1. destruct (g a) as [t|[msg|exn]]; simpl in *.
  - destruct (map_result g l) eqn:El; [done|]. injection Hl as <-. by apply IH.
  - injection Hl as <-. eauto.
  - injection Hl as <-. eauto.
Qed.

(** The loop succeeds only when every text can be computed. *)
Lemma io_iter_write_inv l w w' :
  io_iter (fun a => io_bind (lift (g a)) (write p)) l w = (w', Ok tt) ->
  exists ts, map_result g l = Ok ts.
Proof.
  revert w. induction l as [|a l IH]; intros w H; simpl in *; [eauto|].
  unfold io_bind at 1 in H. destruct (g a) as [t|[]]; simpl in H; [|done|done].
  destruct (IH _ H) as [ts ->]. simpl. eauto.
Qed.

End Writes.

(** *** Frames *)

#[export] Instance same_files_preorder : PreOrder same_files.
Proof. split; [by intros w|intros ??? [] []; split; congruence]. Qed.
#[export] Instance same_stdout_preorder : PreOrder same_stdout.
Proof. split; unfold same_stdout; repeat intro; congruence. Qed.
#[export] Instance same_stderr_preorder : PreOrder same_stderr.
Proof. split; unfold same_stderr; repeat intro; congruence. Qed.

#[export] Instance stdout_grows_preorder : PreOrder stdout_grows.
Proof.
  split; [intros w; exists []; by rewrite app_nil_r|].
  intros ??? [l1 E1] [l2 E2]. exists (l1 ++ l2). by rewrite E2, E1, app_assoc.
Qed.

Lemma frame_ok st R {A} (m : io A) w w' a : frame st R m -> m w = (w', Ok a) -> R w w'.
Proof. intros Hm E. specialize (Hm w). rewrite E in Hm. apply Hm. by destruct st. Qed.

Lemma frame_ret st R `{!Reflexive R} {A} (a : A) : frame st R (io_ret a).
Proof. intros w _. simpl. reflexivity. Qed.

Lemma frame_bind st R `{!Transitive R} {A B} (m : io A) (f : A -> io B) :
  frame st R m -> (forall a, frame st R (f a)) -> frame st R (io_bind m f).
Proof.
  intros Hm Hf w. unfold io_bind. pose proof (Hm w) as Hw.
  destruct (m w) as [w1 [a|e]] eqn:E; simpl in *; [|done].
  intros H. transitivity w1; [apply Hw; by destruct st|by apply Hf].
Qed.

Lemma frame_iter st R `{!PreOrder R} {A} (f : A -> io unit) l :
  (forall x, frame st R (f x)) -> frame st R (io_iter f l).
Proof. intros Hf. induction l; simpl; [apply frame_ret|apply frame_bind; auto]. all: exact _. Qed.

Lemma frame_when st R `{!Reflexive R} b m : frame st R m -> frame st R (when b m).
Proof. destruct b; [done|]. intros _. apply frame_ret. all: exact _. Qed.

Lemma frame_when_false st R `{!Reflexive R} m : frame st R (when false m).
Proof. apply frame_ret. all: exact _. Qed.

(** A step that fails through [lift] has only written to standard error. *)
Lemma frame_lift_ok R `{!Reflexive R} {A} (r : result A) : frame false R (lift r).
Proof. intros w. destruct r as [|[]]; simpl; done || (intros; reflexivity). Qed.

Lemma frame_lift st R `{!Reflexive R} {A} (r : result A) :
  (forall w s, R w (put_stderr s w)) -> frame st R (lift r).
Proof. intros HR w. destruct r as [|[]]; simpl; intros; done || reflexivity. Qed.

Lemma frame_warn st R msg : (forall w s, R w (put_stderr s w)) -> frame st R (warn msg).
Proof. intros HR w _. apply HR. Qed.

Lemma put_stderr_files w s : same_files w (put_stderr s w).
Proof. done. Qed.

Lemma put_stderr_stdout w s : same_stdout w (put_stderr s w).
Proof. done. Qed.

Lemma frame_print_files st s : frame st same_files (print s).
Proof. done. Qed.

Lemma frame_print_stderr st s : frame st same_stderr (print s).
Proof. done. Qed.

Lemma put_stderr_grows w s : stdout_grows w (put_stderr s w).
Proof. exists []. by rewrite app_nil_r. Qed.

Lemma frame_print_grows st s : frame st stdout_grows (print s).
Proof. intros w _. by exists [s]. Qed.

Create HintDb io_frame discriminated.
#[export] Hint Resolve frame_ret frame_bind frame_iter frame_when frame_when_false frame_lift_ok frame_lift
  frame_warn put_stderr_files put_stderr_stdout frame_print_files frame_print_stderr
  put_stderr_grows frame_print_grows : io_frame.

(** Prove a frame property of a sequence: split the binds, the [let]
    patterns and the branches, then use the lemmas of [io_frame]. *)
Ltac solve_frame :=
  unfold mbind, io_mbind; cbv beta;
  repeat first
    [ progress intros
    | apply frame_bind
    | apply frame_when_false
    | apply frame_when
    | match goal with |- context [match ?x with _ => _ end] => destruct x end ];
  eauto 10 with io_frame typeclass_instances.

(** Run the first step of an [io] sequence in the goal, [tac] proving
    what the step returns. *)
Tactic Notation "io_run" tactic3(tac) := erewrite io_bind_step; [|tac].

(** Split a successful [io] sequence in hypothesis [H] at its first step,
    whose run is named [Hs]. *)
Ltac io_inv H Hs :=
  apply io_bind_Ok in H as (?w & ?a & Hs & H);
  repeat match goal with u : unit |- _ => destruct u end.

(** Split off a first step [lift r] that succeeded: [E : r = Ok x], with
    [x] destructed by the pattern [p]. *)
Tactic Notation "io_lift" hyp(H) ident(E) simple_intropattern(p) :=
  let Hs := fresh "Hs" in
  apply io_bind_Ok in H as (?w & p & Hs & H); apply lift_Ok in Hs as [E ->]; cbv beta iota in H.

(** Split off a first step of type [io unit], named [Hs]. *)
Tactic Notation "io_unit" hyp(H) ident(Hs) :=
  apply io_bind_Ok in H as (?w & [] & Hs & H); cbv beta in H.

End World.
