(* ===== verification/Emit.v ===== *)
(** * Emission parameters: lines 699-716, 754-763 and 901-953 of [main]

    The generated files are templates filled by [string.Template]: the jump
    table ([table.S.tpl]) with [lib_suffix] and [table_size], one copy of
    [trampoline.S.tpl] per function with [lib_suffix], [sym], [offset] and
    [number], and [init.c.tpl] with the loader settings and the quoted list
    of names.  The templates themselves live outside [src/]; this file
    models the values the script computes for them and the keyword
    arguments it passes ([table_args], [tramp_args], [init_args]; the
    substitution is [Template.substitute]), the target
    normalisation that picks the architecture directory and the
    [lib_suffix] sanitiser. *)

From S2P Require Import Prelude PyStr Proc.

Module Emit.
Import Py.

(** ** Target normalisation (lines 699-716) *)

(** [re.match(r"^i[0-9]86", t)] *)
Definition is_i86 (t : string) : bool :=
  match t with
  | String "i" (String d (String "8" (String "6" _))) => is_digit d
  | _ => false
  end.

Definition normalize_target (t : string) : string :=
  if startswith t "arm" then "arm"
  else if is_i86 t then "i386"
  else if startswith t "amd64" then "x86_64"
  else if startswith t "mips64" then "mips64"
  else if startswith t "mips" then "mips"
  else if startswith t "ppc64le" then "powerpc64le"
  else if startswith t "ppc64" then "powerpc64"
  else if startswith t "rv64" then "riscv64"
  else default "" (head (split_char "-" t)).

(** Lines 754-757: the architecture directory must exist; [arch_exists]
    is the file system's answer for [arch/<target>]. *)
Definition select_target (arch_exists : string -> bool) (t : string) : result string :=
  let target := normalize_target t in
  if arch_exists target then Ok target
  else fatal:("unknown architecture '" +:+ target +:+ "'").

(** ** Output names (lines 901-907) *)

Fixpoint strip_suffix (suf s : string) : option string :=
  if String.eqb s suf then Some EmptyString
  else match s with
       | EmptyString => None
       | String c s' => String c <$> strip_suffix suf s'
       end.

(** [re.sub(r"\.def$", "", s)]: [$] also matches before a final newline. *)
Definition strip_def (s : string) : string :=
  match strip_suffix ".def" s with
  | Some r => r
  | None =>
      match strip_suffix (".def" +:+ nl) s with
      | Some r => r +:+ nl
      | None => s
      end
  end.

Definition output_suffix (suffix_arg : option string) (binary : bool) (input_name : string)
  : string :=
  match suffix_arg with
  | Some s => s
  | None => let b := basename input_name in if binary then b else strip_def b
  end.

Definition is_ident_char (c : ascii) : bool :=
  is_upper_ascii c || is_lower_ascii c || is_digit c || ceq c "_".

(** [re.sub(r"[^a-zA-Z_0-9]+", "_", suffix)] *)
Definition lib_suffix_of (suffix : string) : string :=
  join "_" (split_runs (fun c => negb (is_ident_char c)) suffix).

(** ** Template parameters (lines 909-953) *)

(** [table_size=ptr_size * (len(funs) + 1)]: one slot per function and a
    final sentinel. *)
Definition table_size (ptr_size : Z) (funs : list string) : Z :=
  (ptr_size * (Z.of_nat (List.length funs) + 1))%Z.

Record tramp := mk_tramp {
  t_lib_suffix : string;
  t_sym : string;
  t_offset : Z;
  t_number : Z
}.

(** [for i, name in enumerate(funs): tramp_tpl.substitute(...)] *)
Definition trampolines (lib_suffix symbol_prefix : string) (ptr_size : Z) (funs : list string)
  : list tramp :=
  imap (fun i name => mk_tramp lib_suffix (symbol_prefix +:+ name)
                               (Z.of_nat i * ptr_size)%Z (Z.of_nat i)) funs.

Definition dquote : string := String "034"%char EmptyString.

(** [",\n  ".join(f'"{name}"' for name in funs) + ","], or [""] *)
Definition sym_names (funs : list string) : string :=
  match funs with
  | [] => ""
  | _ => join ("," +:+ nl +:+ "  ") (map (fun n => dquote +:+ n +:+ dquote) funs) +:+ ","
  end.

Record init_params := mk_init {
  i_lib_suffix : string;
  i_load_name : string;
  i_dlopen_callback : string;
  i_dlsym_callback : string;
  i_has_dlopen_callback : Z;
  i_has_dlsym_callback : Z;
  i_no_dlopen : Z;
  i_lazy_load : Z;
  i_thread_safe : Z;
  i_sym_names : string
}.

(** [int(bool(x))] *)
Definition int_of_bool (b : bool) : Z := if b then 1%Z else 0%Z.

Definition init_params_of (lib_suffix load_name dlopen_callback dlsym_callback : string)
    (dlopen lazy_load thread_safe : bool) (funs : list string) : init_params :=
  mk_init lib_suffix load_name dlopen_callback dlsym_callback
    (int_of_bool (negb (String.eqb dlopen_callback "")))
    (int_of_bool (negb (String.eqb dlsym_callback "")))
    (int_of_bool (negb dlopen)) (int_of_bool lazy_load) (int_of_bool thread_safe)
    (sym_names funs).

(** ** The keyword arguments of the three [substitute] calls *)

(** Lines 914-916: [lib_suffix=..., table_size=ptr_size * (len(funs) + 1)],
    each value passed through [str()] by [Template.substitute]. *)
Definition table_args (lib_suffix : string) (size : Z) : gmap string string :=
  list_to_map [("lib_suffix", lib_suffix); ("table_size", str_of_Z size)].

(** Lines 923-928. *)
Definition tramp_args (t : tramp) : gmap string string :=
  list_to_map [("lib_suffix", t_lib_suffix t); ("sym", t_sym t);
               ("offset", str_of_Z (t_offset t)); ("number", str_of_Z (t_number t))].

(** Lines 942-953. *)
Definition init_args (p : init_params) : gmap string string :=
  list_to_map [("lib_suffix", i_lib_suffix p); ("load_name", i_load_name p);
               ("dlopen_callback", i_dlopen_callback p); ("dlsym_callback", i_dlsym_callback p);
               ("has_dlopen_callback", str_of_Z (i_has_dlopen_callback p));
               ("has_dlsym_callback", str_of_Z (i_has_dlsym_callback p));
               ("no_dlopen", str_of_Z (i_no_dlopen p)); ("lazy_load", str_of_Z (i_lazy_load p));
               ("thread_safe", str_of_Z (i_thread_safe p)); ("sym_names", i_sym_names p)].

(** ** Theorems *)

Import PyFacts.

(** C4: the jump table has one pointer-sized slot per function plus a
    sentinel; trampoline [i] is generated for the [i]-th function, named
    with the symbol prefix, at offset [i * ptr] and number [i], and its slot
    lies inside the table below the sentinel (spec section 8, first
    invariant and scenario 1). *)
Theorem trampolines_layout ls pfx ptr funs i name :
  (0 <= ptr)%Z -> funs !! i = Some name ->
  trampolines ls pfx ptr funs !! i =
    Some (mk_tramp ls (pfx +:+ name) (Z.of_nat i * ptr) (Z.of_nat i)) /\
  (0 <= Z.of_nat i * ptr /\ Z.of_nat i * ptr + ptr <= table_size ptr funs - ptr)%Z.
Proof.
  intros Hp Hi. split.
  - unfold trampolines. by rewrite list_lookup_imap, Hi.
  - apply lookup_lt_Some in Hi. unfold table_size. nia.
Qed.

Lemma trampolines_layout_witness :
  table_size 8 ["a"; "b"; "c"] = 32%Z /\
  trampolines "lib" "" 8 ["a"; "b"; "c"] !! 2 = Some (mk_tramp "lib" "c" 16 2) /\
  (0 <= Z.of_nat 2 * 8 /\ Z.of_nat 2 * 8 + 8 <= table_size 8 ["a"; "b"; "c"] - 8)%Z.
Proof.
  split; [reflexivity|].
  apply (trampolines_layout "lib" "" 8 ["a"; "b"; "c"] 2 "c"); [lia|reflexivity].
Defined.

Lemma trampolines_length ls pfx ptr funs :
  List.length (trampolines ls pfx ptr funs) = List.length funs.
Proof. apply length_imap. Qed.

(** [lib_suffix] consists of identifier characters only, and
    sanitising it again leaves it unchanged. *)
Theorem lib_suffix_ident s :
  (forall c, In c (list_ascii_of_string (lib_suffix_of s)) -> is_ident_char c = true) /\
  lib_suffix_of (lib_suffix_of s) = lib_suffix_of s.
Proof.
  assert (forall c, In c (list_ascii_of_string (lib_suffix_of s)) -> is_ident_char c = true) as H.
  { intros c Hc. apply join_chars in Hc as [[<-|[]]|(w & Hw & Hc)]; [done|].
    pose proof (split_runs_no_sep _ s w Hw c Hc) as Hn. simpl in Hn.
    by apply negb_false_iff in Hn. }
  split; [done|]. unfold lib_suffix_of at 1.
  rewrite split_runs_free; [done|]. intros c Hc. by rewrite H.
Qed.

Lemma strip_suffix_unfold suf s :
  strip_suffix suf s =
    if String.eqb s suf then Some EmptyString
    else match s with
         | EmptyString => None
         | String c s' => String c <$> strip_suffix suf s'
         end.
Proof. by destruct s. Qed.

Lemma strip_suffix_app suf s : strip_suffix suf (s +:+ suf) = Some s.
Proof.
  induction s as [|c s IH]; rewrite strip_suffix_unfold.
  - by rewrite append_nil_l, String.eqb_refl.
  - rewrite append_cons.
    destruct (String.eqb_spec (String c (s +:+ suf)) suf) as [E|_].
    + apply (f_equal String.length) in E. simpl in E.
      rewrite length_append in E. lia.
    + rewrite IH. done.
Qed.

(** The output suffix of a [.def] input is its base name without the
    [.def] extension: [re.sub(r"\.def$", "", name + ".def")] is [name]. *)
Theorem strip_def_roundtrip s : strip_def (s +:+ ".def") = s.
Proof. unfold strip_def. by rewrite strip_suffix_app. Qed.

Lemma prefix_split_char_head c t w :
  head (split_char c t) = Some w -> String.prefix w t = true.
Proof.
  revert w; induction t as [|d t IH]; intros w; simpl; [by intros [= <-]|].
  destruct (split_char_cons c t) as (w0 & ws & E). rewrite E in IH |- *.
  destruct (ceq c d); intros [= <-]; [done|].
  simpl. destruct (ascii_dec d d); [|done]. by apply IH.
Qed.

(** C30: a target normalises to [arm] exactly when it starts with [arm]:
    [armv8-...], documented as an alias of [aarch64] in the [--target]
    help text, selects the 32-bit [arm] directory. *)
Theorem normalize_target_arm t :
  normalize_target t = "arm" <-> startswith t "arm" = true.
Proof.
  unfold normalize_target. split; [|by intros ->].
  destruct (startswith t "arm") eqn:Ha; [done|].
  repeat match goal with |- context [if ?b then _ else _] => destruct b; [done|] end.
  destruct (head (split_char "-" t)) as [w|] eqn:E; simpl; [|done].
  intros ->. apply prefix_split_char_head in E. unfold startswith in Ha. congruence.
Qed.

Lemma normalize_target_arm_witness :
  startswith "armv8-linux-gnu" "arm" = true /\ normalize_target "armv8-linux-gnu" = "arm".
Proof. split; [reflexivity|]. apply normalize_target_arm. reflexivity. Defined.

(** Spec scenario 6. *)
Example select_target_scenario :
  select_target (fun d => bool_decide (d ∈ ["powerpc64le"; "x86_64"])) "ppc64le-unknown-linux-gnu"
    = Ok "powerpc64le" /\
  select_target (fun d => bool_decide (d ∈ ["powerpc64le"; "x86_64"])) "sparc64"
    = fatal:("unknown architecture 'sparc64'").
Proof. split; vm_compute; reflexivity. Qed.

(** Spec scenario 2: the quoted names, one per line. *)
Example sym_names_scenario :
  sym_names ["alpha"; "beta"] = dquote +:+ "alpha" +:+ dquote +:+ "," +:+ nl +:+ "  " +:+ dquote +:+ "beta" +:+ dquote +:+ ",".
Proof. reflexivity. Qed.

End Emit.
