(* ===== verification/Cmdline.v ===== *)
(** * Command-line parsing: [parser.parse_args()] (lines 566-690)

    [main] declares its options with [parser.add_argument] (lines
    579-688) and reads them with [parser.parse_args()] (line 690).  This
    file holds the options as data ([arguments], in the order of the
    calls, after the [-h/--help] that [ArgumentParser] adds at line 567),
    the namespace the parse produces ([args], [default_args]), and
    [parse_args], the algorithm of Python 3.11's [argparse] for this
    parser.  Every string is classified first ([parse_optional],
    [classify]): an option (exact, abbreviated, with [=value], or a
    cluster of short options), a positional, or the first [--].  The
    tokens are then consumed from left to right ([consume], a step
    machine whose [mode] records what the next string belongs to), LIB
    taking the first positional.  The parse ends with the checks for LIB
    and for unrecognized arguments ([finish]).  [self.error(msg)] is the
    outcome [Usage msg]: the script prints its usage and [msg] and exits
    with status 2.  [-h] is [Help]: it exits with status 0 after printing
    the help text, which is not modelled. *)

From S2P Require Import Prelude PyStr.

Module Cmdline.
Import Py PyFacts.

(** The namespace [parser.parse_args()] returns. *)
Record args := mk_args {
  a_library : string;
  a_dlopen : bool;
  a_dlopen_callback : string;
  a_dlsym_callback : string;
  a_library_load_name : option string;
  a_lazy_load : bool;
  a_thread_safe : bool;
  a_vtables : bool;
  a_no_weak_symbols : bool;
  a_target : string;
  a_symbol_list : option string;
  a_symbol_prefix : string;
  a_quiet : bool;
  a_outdir : string;
  a_suffix : option string;
  a_verbose : nat
}.

(** The defaults of the options (lines 579-688) for the positional [LIB];
    [--target] defaults to the machine name [os.uname()[-1]]. *)
Definition default_args (library machine : string) : args :=
  mk_args library true "" "" None true true false false machine None "" false "./" None 0.

(** ** The options (lines 567-688) *)

(** The destinations of [store_true] and [store_false]. *)
Inductive flag := FDlopen | FLazyLoad | FThreadSafe | FVtables | FNoWeakSymbols | FQuiet.

(** The destinations of the options that take one value. *)
Inductive field :=
  | SDlopenCallback | SDlsymCallback | SLibraryLoadName | STarget
  | SSymbolList | SSymbolPrefix | SOutdir | SSuffix.

(** The [action] of each [add_argument]. *)
Inductive action :=
  | AHelp
  | ACount
  | AStoreTrue (f : flag)
  | AStoreFalse (f : flag)
  | AStore (s : field).

#[export] Instance flag_eq_dec : EqDecision flag.
Proof. solve_decision. Defined.
#[export] Instance field_eq_dec : EqDecision field.
Proof. solve_decision. Defined.
#[export] Instance action_eq_dec : EqDecision action.
Proof. solve_decision. Defined.

(** The calls [parser.add_argument(...)], each with its option strings in
    the order given, after the [-h/--help] of [ArgumentParser]. *)
Definition arguments : list (list string * action) := [
  (["-h"; "--help"], AHelp);
  (["--verbose"; "-v"], ACount);
  (["--dlopen"], AStoreTrue FDlopen);
  (["--no-dlopen"], AStoreFalse FDlopen);
  (["--dlopen-callback"], AStore SDlopenCallback);
  (["--dlsym-callback"], AStore SDlsymCallback);
  (["--library-load-name"], AStore SLibraryLoadName);
  (["--lazy-load"], AStoreTrue FLazyLoad);
  (["--no-lazy-load"], AStoreFalse FLazyLoad);
  (["--thread-safe"], AStoreTrue FThreadSafe);
  (["--no-thread-safe"], AStoreFalse FThreadSafe);
  (["--vtables"], AStoreTrue FVtables);
  (["--no-vtables"], AStoreFalse FVtables);
  (["--no-weak-symbols"], AStoreTrue FNoWeakSymbols);
  (["--target"], AStore STarget);
  (["--symbol-list"], AStore SSymbolList);
  (["--symbol-prefix"], AStore SSymbolPrefix);
  (["-q"; "--quiet"], AStoreTrue FQuiet);
  (["--outdir"; "-o"], AStore SOutdir);
  (["--suffix"], AStore SSuffix)].

(** [parser._option_string_actions], in insertion order. *)
Definition option_strings : list (string * action) :=
  List.concat (map (fun '(names, act) => map (fun n => (n, act)) names) arguments).

(** [_get_action_name(action)]: its option strings joined by [/]. *)
Definition action_name (act : action) : string :=
  join "/" (List.concat (map (fun '(names, a) => if decide (a = act) then names else []) arguments)).

(** [parser._option_string_actions.get(s)] *)
Definition lookup_option (s : string) : option action :=
  snd <$> List.find (fun '(n, _) => String.eqb n s) option_strings.

(** [nargs]: an option that takes a value takes exactly one. *)
Definition takes_value (act : action) : bool := match act with AStore _ => true | _ => false end.

(** ** Classifying the strings (lines 1935-1954 and 2234-2336 of argparse) *)

(** A string of the command line after classification: a positional
    ('A'), the first [--] ('-'), a known option with the option string it
    stands for and its explicit argument, or an unknown option ('O'). *)
Inductive token :=
  | TArg (s : string)
  | TSep
  | TOpt (act : action) (name : string) (explicit : option string)
  | TUnknown (s : string).

(** The second character of an option string is not [-]. *)
Definition single_dash (s : string) : bool :=
  match s with String _ (String c _) => negb (ceq c "-") | _ => false end.

(** [_negative_number_matcher = re.compile(r'^-\d+$|^-\d*\.\d+$')]; [$]
    also matches before a final newline. *)
Definition is_negative_number (s : string) : bool :=
  let digits (t : string) := forallb is_digit (list_ascii_of_string t) in
  match s with
  | String c r =>
      ceq c "-" &&
      (let r := if bool_decide (last_char r = Some "010"%char)
                then string_of_list_ascii (removelast (list_ascii_of_string r)) else r in
       (negb (String.eqb r "") && digits r) ||
       match split_once "." r with
       | Some (a, b) => digits a && negb (String.eqb b "") && digits b
       | None => false
       end)
  | EmptyString => false
  end.

(** [_get_option_tuples(s)]: every option that [s] may abbreviate.  A
    long prefix is cut at its [=]; a single-dash string also matches the
    option of its first two characters, with the rest as argument. *)
Definition option_tuples (s : string) : list (action * string * option string) :=
  match s with
  | String _ (String c2 r) =>
      if ceq c2 "-" then
        let '(pfx, e) := match split_once "=" s with Some (p, e) => (p, Some e) | None => (s, None) end in
        (fun '(n, act) => (act, n, e)) <$> List.filter (fun '(n, _) => startswith n pfx) option_strings
      else
        let short := String "-" (String c2 EmptyString) in
        flat_map (fun '(n, act) =>
                    if String.eqb n short then [(act, n, Some r)]
                    else if startswith n s then [(act, n, None)] else []) option_strings
  | _ => []
  end.

(** [_parse_optional(s)]; [Inl msg] is [self.error(msg)] for an ambiguous
    abbreviation. *)
Definition parse_optional (s : string) : string + token :=
  match s with
  | EmptyString => inr (TArg s)
  | String c rest =>
      if negb (ceq c "-") then inr (TArg s) else
      match lookup_option s with
      | Some act => inr (TOpt act s None)
      | None =>
          if String.eqb rest "" then inr (TArg s) else
          match match split_once "=" s with
                | Some (o, e) => (fun act => (act, o, e)) <$> lookup_option o
                | None => None
                end with
          | Some (act, o, e) => inr (TOpt act o (Some e))
          | None =>
              match option_tuples s with
              | [] => if is_negative_number s || contains " " s then inr (TArg s) else inr (TUnknown s)
              | [(act, o, e)] => inr (TOpt act o e)
              | tups => inl ("ambiguous option: " +:+ s +:+ " could match " +:+
                             join ", " ((fun '(_, o, _) => o) <$> tups))
              end
          end
      end
  end.

(** The pattern loop of [_parse_known_args]: everything after the first
    [--] is positional. *)
Fixpoint classify (l : list string) : string + list token :=
  match l with
  | [] => inr []
  | s :: l' =>
      if String.eqb s "--" then inr (TSep :: map TArg l')
      else match parse_optional s with
           | inl msg => inl msg
           | inr t => match classify l' with inl msg => inl msg | inr ts => inr (t :: ts) end
           end
  end.

(** ** Consuming the tokens (lines 1956-2114 of argparse) *)

(** How the parse ends: the namespace (with the options whose value is a
    list, see [take_action]), [-h], or [self.error(msg)]. *)
Inductive outcome :=
  | Parsed (a : args)
  | ParsedLists (a : args) (fs : list field)
  | Help
  | Usage (msg : string).

(** The namespace so far, LIB once consumed, the options holding a list,
    and [extras]. *)
Record pstate := mk_pstate {
  p_args : args;
  p_lib : option string;
  p_lists : list field;
  p_extras : list string
}.

Definition set_flag (f : flag) (b : bool) (a : args) : args :=
  let pick g v := if decide (f = g) then b else v in
  mk_args (a_library a) (pick FDlopen (a_dlopen a)) (a_dlopen_callback a) (a_dlsym_callback a)
    (a_library_load_name a) (pick FLazyLoad (a_lazy_load a)) (pick FThreadSafe (a_thread_safe a))
    (pick FVtables (a_vtables a)) (pick FNoWeakSymbols (a_no_weak_symbols a)) (a_target a)
    (a_symbol_list a) (a_symbol_prefix a) (pick FQuiet (a_quiet a)) (a_outdir a) (a_suffix a)
    (a_verbose a).

Definition set_field (fd : field) (v : string) (a : args) : args :=
  let pick g w := if decide (fd = g) then v else w in
  let pick_opt g w := if decide (fd = g) then Some v else w in
  mk_args (a_library a) (a_dlopen a) (pick SDlopenCallback (a_dlopen_callback a))
    (pick SDlsymCallback (a_dlsym_callback a)) (pick_opt SLibraryLoadName (a_library_load_name a))
    (a_lazy_load a) (a_thread_safe a) (a_vtables a) (a_no_weak_symbols a) (pick STarget (a_target a))
    (pick_opt SSymbolList (a_symbol_list a)) (pick SSymbolPrefix (a_symbol_prefix a)) (a_quiet a)
    (pick SOutdir (a_outdir a)) (pick_opt SSuffix (a_suffix a)) (a_verbose a).

Definition set_library (lib : string) (a : args) : args :=
  mk_args lib (a_dlopen a) (a_dlopen_callback a) (a_dlsym_callback a) (a_library_load_name a)
    (a_lazy_load a) (a_thread_safe a) (a_vtables a) (a_no_weak_symbols a) (a_target a)
    (a_symbol_list a) (a_symbol_prefix a) (a_quiet a) (a_outdir a) (a_suffix a) (a_verbose a).

Definition count_verbose (a : args) : args :=
  mk_args (a_library a) (a_dlopen a) (a_dlopen_callback a) (a_dlsym_callback a) (a_library_load_name a)
    (a_lazy_load a) (a_thread_safe a) (a_vtables a) (a_no_weak_symbols a) (a_target a)
    (a_symbol_list a) (a_symbol_prefix a) (a_quiet a) (a_outdir a) (a_suffix a) (S (a_verbose a)).

Definition with_args (a : args) (st : pstate) : pstate :=
  mk_pstate a (p_lib st) (p_lists st) (p_extras st).

(** [list.remove(x)] when [x] occurs *)
Fixpoint remove_first (x : string) (l : list string) : list string :=
  match l with
  | [] => []
  | y :: l' => if String.eqb x y then l' else y :: remove_first x l'
  end.

(** [take_action(action, argument_strings)]: [_get_values] drops the
    first [--]; one string left is the value, any other number of strings
    is stored as a list.  [-h] prints the help and exits ([None]). *)
Definition take_action (act : action) (vals : list string) (st : pstate) : option pstate :=
  match act with
  | AHelp => None
  | ACount => Some (with_args (count_verbose (p_args st)) st)
  | AStoreTrue f => Some (with_args (set_flag f true (p_args st)) st)
  | AStoreFalse f => Some (with_args (set_flag f false (p_args st)) st)
  | AStore fd =>
      let others := List.filter (fun g => bool_decide (g <> fd)) (p_lists st) in
      match remove_first "--" vals with
      | [v] => Some (mk_pstate (set_field fd v (p_args st)) (p_lib st) others (p_extras st))
      | _ => Some (mk_pstate (p_args st) (p_lib st) (fd :: others) (p_extras st))
      end
  end.

Fixpoint take_all (acts : list (action * list string)) (st : pstate) : option pstate :=
  match acts with
  | [] => Some st
  | (act, vals) :: acts' => take_action act vals st ≫= take_all acts'
  end.

Definition ignored (act : action) (e : string) : string :=
  "argument " +:+ action_name act +:+ ": ignored explicit argument " +:+ repr_str e.

Definition expected (act : action) : string :=
  "argument " +:+ action_name act +:+ ": expected one argument".

(** Where the [while] loop of [consume_optional] stops: at an option whose
    explicit argument is its value, or at one that matches the strings
    after it. *)
Inductive chain_end := CValue (act : action) (v : string) | CNext (act : action).

(** The [while] loop of [consume_optional] on an explicit argument [e]:
    after a single-dash option without value, the next character of [e]
    is the next short option. *)
Fixpoint explicit_chain (act : action) (name e : string) {struct e} : string + (list action * chain_end) :=
  if takes_value act then inr ([], CValue act e)
  else match e with
       | String c rest =>
           if single_dash name then
             let name' := String "-" (String c EmptyString) in
             match lookup_option name' with
             | Some act' =>
                 match rest with
                 | EmptyString => inr ([act], CNext act')
                 | _ => match explicit_chain act' name' rest with
                        | inl msg => inl msg
                        | inr (taken, en) => inr (act :: taken, en)
                        end
                 end
             | None => inl (ignored act e)
             end
           else inl (ignored act e)
       | EmptyString => inl (ignored act e)
       end.

(** What the next string belongs to: nothing yet, LIB's match (which takes
    a [--] right after its string), the [--] before LIB's string, or an
    option waiting for its value (with the options of its cluster, taken
    once the value is there). *)
Inductive mode :=
  | MFree
  | MAbsorb
  | MLibSep
  | MArg (taken : list action) (act : action).

Definition extra (s : string) (st : pstate) : pstate :=
  mk_pstate (p_args st) (p_lib st) (p_lists st) (p_extras st ++ [s]).

Definition set_lib (s : string) (st : pstate) : pstate :=
  mk_pstate (p_args st) (Some s) (p_lists st) (p_extras st).

Definition run_actions (acts : list (action * list string)) (st : pstate) : outcome + (pstate * mode) :=
  match take_all acts st with Some st' => inr (st', MFree) | None => inl Help end.

(** [consume_optional] up to the strings after the option. *)
Definition on_option (act : action) (name : string) (e : option string) (st : pstate)
  : outcome + (pstate * mode) :=
  let pending taken last :=
    if takes_value last then inr (st, MArg taken last)
    else run_actions ((fun a => (a, [])) <$> taken ++ [last]) st in
  match e with
  | None => pending [] act
  | Some e =>
      match explicit_chain act name e with
      | inl msg => inl (Usage msg)
      | inr (taken, CValue last v) => run_actions (((fun a => (a, [])) <$> taken) ++ [(last, [v])]) st
      | inr (taken, CNext last) => pending taken last
      end
  end.

(** A token between options: LIB takes the first positional (and the [--]
    before it), later ones are [extras]. *)
Definition step_free (t : token) (st : pstate) : outcome + (pstate * mode) :=
  match t with
  | TArg s => match p_lib st with None => inr (set_lib s st, MAbsorb) | Some _ => inr (extra s st, MFree) end
  | TSep => match p_lib st with None => inr (st, MLibSep) | Some _ => inr (extra "--" st, MFree) end
  | TUnknown s => inr (extra s st, MFree)
  | TOpt act name e => on_option act name e st
  end.

(** An option's value must be a positional: the pattern of an optional
    does not admit [--]. *)
Definition step (md : mode) (t : token) (st : pstate) : outcome + (pstate * mode) :=
  match md, t with
  | MFree, _ => step_free t st
  | MAbsorb, TSep => inr (st, MFree)
  | MAbsorb, _ => step_free t st
  | MLibSep, TArg s => inr (set_lib s st, MAbsorb)
  | MLibSep, _ => step_free t (extra "--" st)
  | MArg taken act, TArg s => run_actions (((fun a => (a, [])) <$> taken) ++ [(act, [s])]) st
  | MArg _ act, _ => inl (Usage (expected act))
  end.

Fixpoint consume (md : mode) (ts : list token) (st : pstate) : outcome + (pstate * mode) :=
  match ts with
  | [] => inr (st, md)
  | t :: ts' =>
      match step md t st with
      | inl o => inl o
      | inr (st', md') => consume md' ts' st'
      end
  end.

(** The end of [_parse_known_args] and [parse_args]: an option still
    waiting for its value, then LIB, then the [extras]. *)
Definition finish (st : pstate) (md : mode) : outcome :=
  match md with
  | MArg _ act => Usage (expected act)
  | _ =>
      let extras := p_extras st ++ (if md is MLibSep then ["--"] else []) in
      match p_lib st with
      | None => Usage "the following arguments are required: LIB"
      | Some lib =>
          match extras, p_lists st with
          | [], [] => Parsed (set_library lib (p_args st))
          | [], fs => ParsedLists (set_library lib (p_args st)) fs
          | _, _ => Usage ("unrecognized arguments: " +:+ join " " extras)
          end
      end
  end.

Definition init_state (machine : string) : pstate := mk_pstate (default_args "" machine) None [] [].

(** [parser.parse_args()] (line 690) on [sys.argv[1:]], [--target]
    defaulting to [machine]. *)
Definition parse_args (machine : string) (argv : list string) : outcome :=
  match classify argv with
  | inl msg => Usage msg
  | inr ts =>
      match consume MFree ts (init_state machine) with
      | inl o => o
      | inr (st, md) => finish st md
      end
  end.

(** ** A command line for a namespace *)

(** The option that sets a flag to [b], where the parser has one:
    [--no-weak-symbols] and [--quiet] have no opposite, their default is
    the other value. *)
Definition flag_option (f : flag) (b : bool) : list string :=
  match f, b with
  | FDlopen, true => ["--dlopen"]
  | FDlopen, false => ["--no-dlopen"]
  | FLazyLoad, true => ["--lazy-load"]
  | FLazyLoad, false => ["--no-lazy-load"]
  | FThreadSafe, true => ["--thread-safe"]
  | FThreadSafe, false => ["--no-thread-safe"]
  | FVtables, true => ["--vtables"]
  | FVtables, false => ["--no-vtables"]
  | FNoWeakSymbols, true => ["--no-weak-symbols"]
  | FQuiet, true => ["--quiet"]
  | _, false => []
  end.

Definition field_option (fd : field) : string :=
  match fd with
  | SDlopenCallback => "--dlopen-callback"
  | SDlsymCallback => "--dlsym-callback"
  | SLibraryLoadName => "--library-load-name"
  | STarget => "--target"
  | SSymbolList => "--symbol-list"
  | SSymbolPrefix => "--symbol-prefix"
  | SOutdir => "--outdir"
  | SSuffix => "--suffix"
  end.

(** [--opt=value] *)
Definition assign (fd : field) (v : string) : string := field_option fd +:+ "=" +:+ v.

Definition assign_opt (fd : field) (o : option string) : list string :=
  match o with Some v => [assign fd v] | None => [] end.

(** [-v] once per count, every option with its value after [=], then
    [--] and LIB. *)
Definition to_argv (a : args) : list string :=
  repeat "-v" (a_verbose a) ++
  flag_option FDlopen (a_dlopen a) ++
  [assign SDlopenCallback (a_dlopen_callback a)] ++ [assign SDlsymCallback (a_dlsym_callback a)] ++
  assign_opt SLibraryLoadName (a_library_load_name a) ++
  flag_option FLazyLoad (a_lazy_load a) ++ flag_option FThreadSafe (a_thread_safe a) ++
  flag_option FVtables (a_vtables a) ++ flag_option FNoWeakSymbols (a_no_weak_symbols a) ++
  [assign STarget (a_target a)] ++ assign_opt SSymbolList (a_symbol_list a) ++
  [assign SSymbolPrefix (a_symbol_prefix a)] ++ flag_option FQuiet (a_quiet a) ++
  [assign SOutdir (a_outdir a)] ++ assign_opt SSuffix (a_suffix a) ++
  ["--"; a_library a].

(** No option value is the string [--]. *)
Definition values_ok (a : args) : bool :=
  forallb (fun v => negb (String.eqb "--" v))
    ([a_dlopen_callback a; a_dlsym_callback a; a_target a; a_symbol_prefix a; a_outdir a] ++
     option_list (a_library_load_name a) ++ option_list (a_symbol_list a) ++ option_list (a_suffix a)).

(** The strings [l] hold no [--], and consuming them between options, with
    no option holding a list, applies [g] to the namespace. *)
Definition runs (l : list string) (g : args -> args) : Prop :=
  "--" ∉ l /\ exists ts, classify l = inr ts /\
    forall st, p_lists st = [] -> consume MFree ts st = inr (with_args (g (p_args st)) st, MFree).

(** A namespace with every kind of value: a count, a flag against its
    default, values with spaces, dashes and [=], and a LIB that starts
    with [-]. *)
Definition sample_args : args :=
  mk_args "-libfoo.so" false "my_dlopen" "" (Some "libfoo.so.1") true false true true
    "x86_64-unknown-linux-gnu" None "a=b -c" true "out dir" (Some "--x") 2.

(** ** Theorems *)

Lemma consume_app md l1 l2 st :
  consume md (l1 ++ l2) st =
    match consume md l1 st with inl o => inl o | inr (st', md') => consume md' l2 st' end.
Proof.
  revert md st. induction l1 as [|t l1 IH]; intros md st; simpl; [done|].
  destruct (step md t st) as [o|[st' md']]; [done|apply IH].
Qed.

Lemma classify_app l1 l2 ts1 :
  classify l1 = inr ts1 -> "--" ∉ l1 ->
  classify (l1 ++ l2) = match classify l2 with inl m => inl m | inr ts2 => inr (ts1 ++ ts2) end.
Proof.
  revert ts1. induction l1 as [|s l1 IH]; intros ts1 H Hn; simpl in *.
  - injection H as <-. by destruct (classify l2).
  - destruct (String.eqb_spec s "--") as [->|_]; [set_solver|].
    destruct (parse_optional s) as [m|t]; [done|].
    destruct (classify l1) as [m|ts] eqn:E; [done|]. injection H as <-.
    rewrite (IH ts) by (done || set_solver). by destruct (classify l2).
Qed.

(** An option that takes a value takes the whole explicit argument. *)
Lemma explicit_chain_value act name e :
  takes_value act = true -> explicit_chain act name e = inr ([], CValue act e).
Proof. intros H. destruct e; simpl; by rewrite H. Qed.

(** A value other than [--] is stored as it is. *)
Lemma take_store fd v st :
  String.eqb "--" v = false ->
  take_action (AStore fd) [v] st =
    Some (mk_pstate (set_field fd v (p_args st)) (p_lib st)
            (List.filter (fun g => bool_decide (g <> fd)) (p_lists st)) (p_extras st)).
Proof. intros Hv. unfold take_action. cbn [remove_first]. by rewrite Hv. Qed.

Lemma runs_ext l g g' : (forall a, g a = g' a) -> runs l g -> runs l g'.
Proof. intros E (Hn & ts & Hc & Hr). split; [done|]. exists ts. split; [done|]. intros. by rewrite <- E, Hr. Qed.

Lemma runs_nil : runs [] (fun a => a).
Proof. split; [set_solver|]. exists []. split; [done|]. intros [] _. done. Qed.

Lemma runs_app l1 g1 l2 g2 : runs l1 g1 -> runs l2 g2 -> runs (l1 ++ l2) (fun a => g2 (g1 a)).
Proof.
  intros (Hn1 & ts1 & Hc1 & Hr1) (Hn2 & ts2 & Hc2 & Hr2). split; [set_solver|].
  exists (ts1 ++ ts2). split; [by rewrite (classify_app _ _ ts1), Hc2|].
  intros st Hl. rewrite consume_app, Hr1 by done. by rewrite Hr2.
Qed.

(** One string that is an option of its own. *)
Lemma runs_single s t g :
  s <> "--" -> parse_optional s = inr t ->
  (forall st, p_lists st = [] -> step MFree t st = inr (with_args (g (p_args st)) st, MFree)) ->
  runs [s] g.
Proof.
  intros Hs Hp Hr. split; [set_solver|]. exists [t]. split; [cbn; by rewrite (proj2 (String.eqb_neq _ _) Hs), Hp|].
  intros st Hl. cbn. by rewrite Hr.
Qed.

Lemma runs_verbose n : runs (repeat "-v" n) (Nat.iter n count_verbose).
Proof.
  induction n as [|n IH]; [apply runs_nil|].
  eapply runs_ext; [|exact (runs_app ["-v"] count_verbose _ _ ltac:(by eapply runs_single) IH)].
  intros a. symmetry. apply Nat.iter_succ_r.
Qed.

Lemma runs_flag f b :
  runs (flag_option f b) (fun a => match flag_option f b with [] => a | _ => set_flag f b a end).
Proof. destruct f, b; (apply runs_nil || (eapply runs_single; [done|reflexivity|by intros [] ?])). Qed.

Lemma runs_assign fd v : String.eqb "--" v = false -> runs [assign fd v] (set_field fd v).
Proof.
  intros Hv. destruct fd; (eapply runs_single; [done|reflexivity|]);
    intros [a lib lists extras] Hl; cbn in Hl; subst lists; cbn;
    rewrite explicit_chain_value by done; unfold run_actions;
    cbn [fmap list_fmap app take_all]; rewrite take_store by done; done.
Qed.

Lemma runs_assign_opt fd o :
  (forall v, o = Some v -> String.eqb "--" v = false) ->
  runs (assign_opt fd o) (fun a => match o with Some v => set_field fd v a | None => a end).
Proof. destruct o; intros H; [by apply runs_assign, H|apply runs_nil]. Qed.

Lemma iter_count_verbose n a :
  Nat.iter n count_verbose a =
    mk_args (a_library a) (a_dlopen a) (a_dlopen_callback a) (a_dlsym_callback a) (a_library_load_name a)
      (a_lazy_load a) (a_thread_safe a) (a_vtables a) (a_no_weak_symbols a) (a_target a)
      (a_symbol_list a) (a_symbol_prefix a) (a_quiet a) (a_outdir a) (a_suffix a) (n + a_verbose a).
Proof. induction n as [|n IH]; [by destruct a|]. rewrite Nat.iter_succ, IH. done. Qed.

(** The strings of [l], then [--] and LIB. *)
Lemma parse_args_runs machine l g lib :
  runs l g -> parse_args machine (l ++ ["--"; lib]) = Parsed (set_library lib (g (default_args "" machine))).
Proof.
  intros (Hn & ts & Hc & Hr). unfold parse_args.
  rewrite (classify_app _ _ ts) by done. cbn [classify String.eqb Ascii.eqb Bool.eqb map].
  rewrite consume_app, Hr by done. done.
Qed.

(** C26: the parser reads back every namespace from the command line
    [to_argv a] (each option once, in its long form with [=value], [-v]
    as often as the count, LIB after [--]), whatever the strings are, as
    long as no option value is [--]. *)
Theorem parse_args_roundtrip machine a :
  values_ok a = true -> parse_args machine (to_argv a) = Parsed a.
Proof.
  destruct a as [lib dl cb sb ll lz ts vt nw tg sl sp q od sf n].
  unfold values_ok, to_argv. cbn [a_library a_dlopen a_dlopen_callback a_dlsym_callback
    a_library_load_name a_lazy_load a_thread_safe a_vtables a_no_weak_symbols a_target
    a_symbol_list a_symbol_prefix a_quiet a_outdir a_suffix a_verbose].
  intros Hv. rewrite !app_assoc.
  destruct ll, sl, sf; cbn in Hv;
    repeat match goal with
           | H : _ && _ = true |- _ => apply andb_prop in H as [? ?]
           | H : negb _ = true |- _ => apply negb_true_iff in H
           end;
    (erewrite parse_args_runs;
     [|repeat apply runs_app;
       first [ apply runs_verbose | apply runs_flag | apply runs_assign; assumption
             | apply runs_assign_opt; intros ? [= <-]; assumption ]]);
    f_equal; cbv beta; rewrite iter_count_verbose;
    destruct dl, lz, ts, vt, nw, q; cbn; by rewrite Nat.add_0_r.
Qed.

(** Every option string classifies as itself. *)
Lemma option_strings_parse n act :
  In (n, act) option_strings -> n <> "--" /\ parse_optional n = inr (TOpt act n None).
Proof. intros H. repeat (destruct H as [[= <- <-]|H]; [done|]). destruct H. Qed.

Lemma lookup_option_In s act : lookup_option s = Some act -> In (s, act) option_strings.
Proof.
  unfold lookup_option. destruct (List.find _ _) as [[n a]|] eqn:E; [|done]. intros [= ->].
  pose proof (find_some _ _ E) as [Hin Heq]. by apply String.eqb_eq in Heq as <-.
Qed.

Lemma startswith_dashes p : startswith p "--" = true -> exists r, p = String "-" (String "-" r).
Proof.
  unfold startswith. destruct p as [|c1 [|c2 r]]; cbn [String.prefix]; [done|..].
  all: destruct (ascii_dec "-" c1) as [<-|]; [|done]; cbn [String.prefix].
  - done.
  - destruct (ascii_dec "-" c2) as [<-|]; [eauto|done].
Qed.

Lemma startswith_refl s : startswith s s = true.
Proof.
  induction s as [|c s IH]; [done|]. unfold startswith in *. cbn [String.prefix].
  by destruct (ascii_dec c c).
Qed.

Lemma split_once_none c s : has_char c s = false -> split_once c s = None.
Proof.
  induction s as [|x s IH]; [done|]. unfold has_char in *. cbn. unfold ceq in *.
  intros [H1 H2]%orb_false_iff. rewrite IH by done.
  rewrite bool_decide_false; [done|]. intros ->. by rewrite bool_decide_true in H1.
Qed.

(** A string that does not start with [-] is positional. *)
Lemma parse_optional_positional s : startswith s "-" = false -> parse_optional s = inr (TArg s).
Proof.
  destruct s as [|c r]; [done|]. unfold startswith. cbn [String.prefix].
  destruct (ascii_dec "-" c) as [<-|Hc]; intros H; [destruct r; cbn in H; discriminate H|].
  cbn [parse_optional]. unfold ceq. by rewrite bool_decide_false by congruence.
Qed.

Lemma classify_cons s l t ts :
  String.eqb s "--" = false -> parse_optional s = inr t -> classify l = inr ts ->
  classify (s :: l) = inr (t :: ts).
Proof.
  intros H1 H2 H3. cbn [classify]. rewrite H1.
  destruct (parse_optional s) as [m|t0]; [discriminate|]. injection H2 as ->.
  destruct (classify l) as [m|ts0]; [discriminate|]. injection H3 as ->. reflexivity.
Qed.

Lemma parse_args_classify machine argv ts :
  classify argv = inr ts ->
  parse_args machine argv =
    match consume MFree ts (init_state machine) with inl o => o | inr (st, md) => finish st md end.
Proof. intros H. unfold parse_args. destruct (classify argv); [discriminate|]. injection H as ->. reflexivity. Qed.

(** Two first strings that classify alike parse alike. *)
Lemma parse_args_cons_same machine s s' l t :
  String.eqb s "--" = false -> String.eqb s' "--" = false ->
  parse_optional s = inr t -> parse_optional s' = inr t ->
  parse_args machine (s :: l) = parse_args machine (s' :: l).
Proof.
  intros H1 H2 H3 H4. unfold parse_args. cbn [classify]. rewrite H1, H2.
  destruct (parse_optional s) as [|t1]; [discriminate|]. destruct (parse_optional s') as [|t2]; [discriminate|].
  injection H3 as ->. injection H4 as ->. reflexivity.
Qed.

(** A string of the form [-...] that is no option string, has no [=] and
    is longer than [-] is read through [option_tuples]. *)
Lemma parse_optional_tuple c rest act o e :
  ceq c "-" = true -> lookup_option (String c rest) = None -> String.eqb rest "" = false ->
  has_char "=" (String c rest) = false -> option_tuples (String c rest) = [(act, o, e)] ->
  parse_optional (String c rest) = inr (TOpt act o e).
Proof.
  intros Hc Hl Hr He Ht. cbn [parse_optional]. rewrite Hc. cbn [negb].
  rewrite Hl, Hr, split_once_none by done. cbn [fmap option_fmap option_map]. by rewrite Ht.
Qed.

(** [-h] wins over every later error of the parse (a missing LIB, an
    unknown or surplus argument, an option without its value): once the
    strings are classified, [-h] first ends the parse with the help.  An
    ambiguous abbreviation anywhere is found while classifying, before. *)
Theorem parse_args_help machine rest ts :
  classify rest = inr ts -> parse_args machine ("-h" :: rest) = Help.
Proof.
  intros H. erewrite parse_args_classify; [|apply classify_cons; [reflexivity|reflexivity|exact H]].
  reflexivity.
Qed.

(** A long option may be abbreviated to any prefix that no other
    option string starts with: the command line parses as with the full
    option string. *)
Theorem parse_args_abbrev machine p o act rest :
  startswith p "--" = true -> has_char "=" p = false ->
  List.filter (fun '(n, _) => startswith n p) option_strings = [(o, act)] ->
  parse_args machine (p :: rest) = parse_args machine (o :: rest).
Proof.
  intros Hs He Hf.
  assert (In (o, act) option_strings) as [Ho Hpo]%option_strings_parse.
  { assert (In (o, act) (List.filter (fun '(n, _) => startswith n p) option_strings)) as [? _]%filter_In
      by (rewrite Hf; by left). done. }
  destruct (startswith_dashes p Hs) as [r ->].
  assert (String "-" (String "-" r) <> "--") as Hp.
  { intros [= ->]. vm_compute in Hf. discriminate. }
  assert (parse_optional (String "-" (String "-" r)) = inr (TOpt act o None)) as Hpp.
  { destruct (lookup_option (String "-" (String "-" r))) as [a|] eqn:El.
    - apply lookup_option_In in El.
      assert (In (String "-" (String "-" r), a) [(o, act)]) as [[= -> ->]|[]]; [|done].
      rewrite <- Hf. apply filter_In. split; [done|apply startswith_refl].
    - apply parse_optional_tuple; [reflexivity|done|done|done|].
      unfold option_tuples. replace (ceq "-" "-") with true by reflexivity.
      rewrite split_once_none by done. cbv beta iota zeta. by rewrite Hf. }
  apply (parse_args_cons_same _ _ _ _ (TOpt act o None)); try done; by apply String.eqb_neq.
Qed.

(** No command line gives an option the value [--]: [--opt=--]
    leaves an empty list in the namespace, since argparse drops the first
    [--] from the strings of every argument, the explicit one included.
    The script then reads a list where it expects a string. *)
Theorem parse_args_dashdash_value machine fd lib :
  startswith lib "-" = false ->
  parse_args machine [assign fd "--"; lib] = ParsedLists (default_args lib machine) [fd].
Proof.
  intros Hl. assert (String.eqb lib "--" = false) as Hd.
  { apply String.eqb_neq. intros ->. discriminate. }
  erewrite parse_args_classify.
  2: { apply (classify_cons _ _ (TOpt (AStore fd) (field_option fd) (Some "--"))); [by destruct fd|by destruct fd|].
       apply classify_cons; [exact Hd|apply parse_optional_positional, Hl|reflexivity]. }
  destruct fd; reflexivity.
Qed.

Lemma parse_args_roundtrip_witness :
  values_ok sample_args = true /\ parse_args "x86_64" (to_argv sample_args) = Parsed sample_args.
Proof. split; [reflexivity|]. apply parse_args_roundtrip. reflexivity. Defined.

Lemma parse_args_help_witness :
  exists ts, classify ["--target"; "extra"] = inr ts /\ parse_args "x86_64" ("-h" :: ["--target"; "extra"]) = Help.
Proof. eexists. split; [reflexivity|]. eapply parse_args_help. reflexivity. Defined.

Lemma parse_args_abbrev_witness :
  startswith "--verb" "--" = true /\ has_char "=" "--verb" = false /\
  List.filter (fun '(n, _) => startswith n "--verb") option_strings = [("--verbose", ACount)] /\
  parse_args "x86_64" ("--verb" :: ["lib"]) = parse_args "x86_64" ("--verbose" :: ["lib"]).
Proof.
  split_and!; [reflexivity|reflexivity|reflexivity|].
  apply (parse_args_abbrev _ _ _ ACount); reflexivity.
Defined.

Lemma parse_args_dashdash_value_witness :
  startswith "libfoo.so" "-" = false /\
  parse_args "x86_64" [assign STarget "--"; "libfoo.so"] = ParsedLists (default_args "libfoo.so" "x86_64") [STarget].
Proof. split; [reflexivity|]. apply parse_args_dashdash_value. reflexivity. Defined.

(** Command lines run through Python 3.11's argparse with the parser of
    lines 567-688: clusters, abbreviations, [=] values, [--], a negative
    number as LIB, and the errors. *)
Example parse_args_examples :
  parse_args "x86_64" ["-qvv"; "-oout"; "lib"] =
    Parsed (mk_args "lib" true "" "" None true true false false "x86_64" None "" true "out" None 2) /\
  parse_args "x86_64" ["--"; "-q"] = Parsed (default_args "-q" "x86_64") /\
  parse_args "x86_64" ["-5"] = Parsed (default_args "-5" "x86_64") /\
  parse_args "x86_64" ["--no"; "x"] =
    Usage "ambiguous option: --no could match --no-dlopen, --no-lazy-load, --no-thread-safe, --no-vtables, --no-weak-symbols" /\
  parse_args "x86_64" ["-vx"; "lib"] = Usage "argument --verbose/-v: ignored explicit argument 'x'" /\
  parse_args "x86_64" ["--target"; "-h"] = Usage "argument --target: expected one argument" /\
  parse_args "x86_64" ["lib"; "--"; "x"] = Usage "unrecognized arguments: x" /\
  parse_args "x86_64" [] = Usage "the following arguments are required: LIB".
Proof. vm_compute. split_and!; reflexivity. Qed.

End Cmdline.
