(* ===== verification/Driver.v ===== *)
(** * The driver: [main] (lines 566-957)

    [main] makes the output directory, then computes everything it will
    write ([plan], lines 725-907).  That computation reads the optional
    symbol list, probes the input, finds the name to load, checks the
    target architecture and reads its [config.ini], collects, demangles and
    filters the symbols, picks the functions, and in vtable mode collects
    the class data.  It prints its warnings and, with [-v], its listings
    where the code does, so that they stay printed when a later step
    fails.  [main] then writes the two files ([emit], lines 909-957).  The jump-table file
    is [write_tramp_file] and the C file is [write_init_file], which also
    generates the vtable code.  Each file is opened (emptied) before its
    templates are read and filled by [Template.substitute].

    The tools are the [System] interface of [Proc].  The file system the
    script reads is the interface [FileSystem]: the contents of the files
    it opens (inputs and templates), whether [arch/<target>] exists, the
    values of the [Arch] section of its [config.ini], and [root].  What
    [main] changes is the [World.world] it runs in: directories, written
    files, standard output and standard error.  A failure keeps what was
    written before it.  The theorems relate a run of [main] to the wrapper
    contract [wrapper_ok] and to the exact texts of the files. *)

From S2P Require Import Prelude PyStr Proc Rows Symbols Exports Vtables.
From S2P Require Import Relocs Sections DefFile Probe Template World Emit Cmdline.
From Stdlib Require Import Strings.Byte.

Module Driver.
Import Py Rows Symbols Exports Vtables Relocs Sections DefFile Probe Template World Emit Cmdline.

(** The file system as the script sees it. *)
Class FileSystem := {
  (** [open(p, "r").read()]; [None] when the file cannot be opened or is
      not text *)
  read_text : string -> option string;
  (** [open(p, "rb").read()] *)
  read_binary : string -> option (list byte);
  (** [os.path.exists(os.path.join(root, "arch", target))] *)
  arch_exists : string -> bool;
  (** [cfg["Arch"][key]] for [arch/<target>/config.ini]; [None] when the
      section or the key is missing *)
  arch_value : string -> string -> option string;
  (** [root = os.path.dirname(__file__)] (line 24), where [arch/] lies *)
  root : string
}.

(** What the computation of [main] hands to the emission (lines
    901-907 and the values substituted at 909-957). *)
Record outputs := mk_outputs {
  o_suffix : string;
  o_target_dir : string;
  o_tramp_file : string;
  o_lib_suffix : string;
  o_table_size : Z;
  o_trampolines : list tramp;
  o_init_file : string;
  o_init : init_params;
  o_vtables : option (gmap string sym * gmap string (list slot))
}.

(** ** Vtable mode (lines 843-899) *)

(** The [re.match] of line 852: [vtable], [typeinfo] or [typeinfo name],
    then [" for "], then the rest of the name is the class.  The second
    alternative fails on [typeinfo name for], where the third matches. *)
Definition vtable_kind (d : string) : option (string * string) :=
  match strip_prefix "vtable for " d with
  | Some cls => Some ("vtable", cls)
  | None =>
      match strip_prefix "typeinfo for " d with
      | Some cls => Some ("typeinfo", cls)
      | None =>
          match strip_prefix "typeinfo name for " d with
          | Some cls => Some ("typeinfo name", cls)
          | None => None
          end
      end
  end.

(** [d[k] = v] on a dict kept as the list of its items in insertion order. *)
Fixpoint dict_set {A} (k : string) (v : A) (l : list (string * A)) : list (string * A) :=
  match l with
  | [] => [(k, v)]
  | (k', v') :: l' => if String.eqb k k' then (k, v) :: l' else (k', v') :: dict_set k v l'
  end.

(** One iteration of the loop of lines 850-858: [cls_tables] and
    [cls_syms]. *)
Definition class_step (nw : bool) (acc : gmap string (gmap string string) * list (string * sym))
    (s : sym) : result (gmap string (gmap string string) * list (string * sym)) :=
  d <- demangled_of s ;;
  match vtable_kind d with
  | Some (typ, cls) =>
      if is_exported nw s then
        let '(tables, cls_syms) := acc in
        Ok (<[cls := <[typ := s_name s]> (default ∅ (tables !! cls))]> tables,
            dict_set (s_name s) s cls_syms)
      else Ok acc
  | None => Ok acc
  end.

(** ** The [--verbose] listings (lines 820-821, 838-841, 862-897) *)

(** [str(v)] of a row value: a string as it is, an integer in decimal,
    the (symbol, addend) pair of a relocation as Python prints a tuple. *)
Definition cell_str (c : cell) : string :=
  match c with
  | CStr s => s
  | CInt z => str_of_Z z
  | CPair n a => "(" +:+ repr_str n +:+ ", " +:+ str_of_Z a +:+ ")"
  end.

(** [f"{v:x}"]: a [str] has no format code [x] ([ValueError]), a tuple
    takes no format spec ([TypeError]). *)
Definition cell_hex (c : cell) : result string :=
  match c with
  | CInt z => Ok (hex_of z)
  | CStr _ => crash:("ValueError")
  | CPair _ _ => crash:("TypeError")
  end.

(** [f"{a + b:x}"]: two strings or two tuples concatenate and then fail
    to format; a string and a number do not add. *)
Definition cell_hex_sum (a b : cell) : result string :=
  match a, b with
  | CInt x, CInt y => Ok (hex_of (x + y))
  | CStr _, CStr _ => crash:("ValueError")
  | _, _ => crash:("TypeError")
  end.

(** Lines 871-874: one section, its fields read left to right. *)
Definition section_verbose_line (sec : gmap string cell) : result string :=
  n <- lookup_cell sec "Name" ;;
  ad <- lookup_cell sec "Address" ;;
  start <- cell_hex ad ;;
  sz <- lookup_cell sec "Size" ;;
  finish <- cell_hex_sum ad sz ;;
  off <- lookup_cell sec "Off" ;;
  at_off <- cell_hex off ;;
  Ok ("  " +:+ cell_str n +:+ ": [" +:+ start +:+ ", " +:+ finish +:+ "), at " +:+ at_off).

(** Lines 881-883: one relocation. *)
Definition reloc_verbose_line (rel : gmap string cell) : result string :=
  sym_add <- lookup_cell rel target_key ;;
  off <- lookup_cell rel "Offset" ;;
  Ok ("  " +:+ cell_str off +:+ ": " +:+ cell_str sym_add).

(** Lines 893-897: a slot, or the target of the relocation that covers
    it ([""] for a relocation without a symbol). *)
Definition slot_str (v : slot) : string :=
  match v with
  | SByte z | SOffset z => str_of_Z z
  | SReloc r => match r_target r with Some (n, a) => cell_str (CPair n a) | None => "" end
  end.

(** Lines 820-821: the exported functions with a non-default version, in
    the order of the symbols. *)
Definition versioned_lines (exported : list sym) : list string :=
  (fun s => "Skipping versioned symbol " +:+ s_name s) <$>
    List.filter (fun s => negb (s_default s)) (List.filter (fun s => String.eqb (s_type s) "FUNC") exported).

(** Lines 838-841. *)
Definition fun_lines (funs : list string) : list string :=
  "Exported functions:" :: imap (fun i f => "  " +:+ str_of_Z (Z.of_nat i) +:+ ": " +:+ f) funs.

(** Lines 888-897: the slots of each class symbol, by name. *)
Definition print_class_data (cls_syms : gmap string sym) (cls_data : gmap string (list slot)) : io unit :=
  _ ← print "Class data:" ;
  io_iter (fun name =>
      d ← lift (match cls_syms !! name with Some s => demangled_of s | None => crash:("KeyError") end) ;
      _ ← print ("  " +:+ name +:+ " (" +:+ d +:+ "):") ;
      io_iter (fun v => print ("    " +:+ slot_str v)) (default [] (cls_data !! name)))
    (sorted_keys cls_data).

Section Main.
Context `{System} `{FileSystem}.

(** [s.endswith(suffix)] *)
Definition endswith (s suffix : string) : bool := bool_decide (is_Some (strip_suffix suffix s)).

(** The class data of vtable mode (lines 845-897), for the exported
    symbols, with its listings under [--verbose]: the class symbols and
    their slots, which [generate_vtables] turns into C at line 956. *)
Definition vtable_data (verbose nw binary : bool) (input : string) (ptr : Z)
    (reloc_types : gset string) (syms : list sym) : io (gmap string sym * gmap string (list slot)) :=
  _ ← lift (if negb binary && endswith input ".def"
            then fatal:("vtables not supported for .def files") else Ok tt) ;
  cls ← lift (fold_result (class_step nw) syms (∅, [])) ;
  let cls_syms := (cls : gmap string (gmap string string) * list (string * sym)).2 in
  _ ← when verbose (_ ← print "Exported classes:" ; io_iter (fun c => print ("  " +:+ c)) (sorted_keys cls.1)) ;
  secs ← lift (collect_sections input) ;
  _ ← when verbose (_ ← print "Sections:" ;
                    io_iter (fun sec => l ← lift (section_verbose_line sec) ; print l) secs) ;
  file ← lift (match read_binary input with Some b => Ok b | None => crash:("OSError") end) ;
  bites ← lift (read_unrelocated_data file cls_syms secs) ;
  rows ← lift (collect_relocs input) ;
  _ ← when verbose (_ ← print "Relocs:" ;
                    io_iter (fun rel => l ← lift (reloc_verbose_line rel) ; print l) rows) ;
  cls_data ← lift (collect_relocated_data (list_to_map cls_syms) bites (map reloc_of_row rows)
                     (Z.to_nat ptr) reloc_types) ;
  _ ← when verbose (print_class_data (list_to_map cls_syms) cls_data) ;
  io_ret (list_to_map cls_syms, cls_data).

(** ** The stages of [main] *)

(** Lines 725-734: the optional symbol list; [open] raises when the file
    cannot be read. *)
Definition user_funs (symbol_list : option string) : result (option (list string)) :=
  match symbol_list with
  | None => Ok None
  | Some p =>
      match read_text p with
      | Some t => Ok (Some (parse_symbol_list t))
      | None => crash:("OSError")
      end
  end.

(** Lines 736-750: the name the wrapper loads. *)
Definition load_name_of (load_name : option string) (binary : bool) (input stem : string)
  : result string :=
  match load_name with
  | Some n => Ok n
  | None =>
      if binary then (so <- read_soname input ;; Ok (default stem so))
      else Ok (default stem (read_library_name (read_text input)))
  end.

Definition arch_str (target key : string) : result string :=
  match arch_value target key with Some v => Ok v | None => crash:("KeyError") end.

(** Lines 754-763: [ptr_size] and [symbol_reloc_types]. *)
Definition arch_config (target : string) : result (Z * gset string) :=
  if negb (arch_exists target) then fatal:("unknown architecture '" +:+ target +:+ "'")
  else
    p <- arch_str target "PointerSize" ;;
    ptr <- (match int10 p with Some z => Ok z | None => crash:("ValueError") end) ;;
    r <- arch_str target "SymbolReloc" ;;
    Ok (ptr, list_to_set (split_comma r)).

(** Lines 777-780: the symbols of a library or of a [.def] file, and the
    warning of the [.def] reader. *)
Definition collect_symbols (binary : bool) (input : string) : result (list sym * list string) :=
  if binary then (s <- collect_syms input ;; Ok (s, []))
  else Ok (collect_def_exports input (read_text input)).

(** Lines 725-907 of [main()]: everything the script computes before it
    writes, with its warnings and its [--verbose] listings where the code
    prints them. *)
Definition plan (a : args) : io outputs :=
  let input := a_library a in
  let nw := a_no_weak_symbols a in
  let verbose := negb (Nat.eqb (a_verbose a) 0) in
  let target := normalize_target (a_target a) in
  user ← lift (user_funs (a_symbol_list a)) ;
  binary ← lift (is_binary_file input) ;
  let stem := if (binary : bool) then basename input else strip_def (basename input) in
  load_name ← lift (load_name_of (a_library_load_name a) binary input stem) ;
  let target_dir := path_join (path_join root "arch") target in
  cfg ← lift (arch_config target) ;
  let '(ptr, reloc_types) := (cfg : Z * gset string) in
  sw ← lift (collect_symbols binary input) ;
  _ ← io_iter warn (sw : list sym * list string).2 ;
  syms ← lift (demangle sw.1) ;
  let exported := List.filter (is_exported nw) syms in
  data_ws ← lift (data_warnings input (a_vtables a) exported) ;
  _ ← io_iter warn data_ws ;
  let '(funs, fun_ws) := exported_funs nw (a_quiet a) input syms user in
  _ ← io_iter warn fun_ws ;
  _ ← when verbose (io_iter print (versioned_lines exported)) ;
  _ ← when verbose (io_iter print (fun_lines funs)) ;
  vt ← (if a_vtables a then
          c ← vtable_data verbose nw binary input ptr reloc_types exported ; io_ret (Some c)
        else io_ret None) ;
  let suffix := output_suffix (a_suffix a) binary input in
  let lib_suffix := lib_suffix_of suffix in
  io_ret (mk_outputs suffix target_dir
        (path_join (a_outdir a) (suffix +:+ ".tramp.S")) lib_suffix (table_size ptr funs)
        (trampolines lib_suffix (a_symbol_prefix a) ptr funs)
        (path_join (a_outdir a) (suffix +:+ ".init.c"))
        (init_params_of lib_suffix load_name (a_dlopen_callback a) (a_dlsym_callback a)
           (a_dlopen a) (a_lazy_load a) (a_thread_safe a) funs)
        vt).

(** [with open(p, "r") as t: t.read()] for a template *)
Definition read_template (p : string) : result string :=
  match read_text p with Some t => Ok t | None => crash:("OSError") end.

(** Lines 909-929: the jump-table file, opened (emptied) before its
    templates are read. *)
Definition write_tramp_file (quiet : bool) (o : outputs) : io unit :=
  _ ← open_w (o_tramp_file o) ;
  _ ← (if quiet then io_ret tt else print ("Generating " +:+ o_suffix o +:+ ".tramp.S...")) ;
  table_tpl ← lift (read_template (o_target_dir o +:+ "/table.S.tpl")) ;
  table_text ← lift (substitute (table_args (o_lib_suffix o) (o_table_size o)) table_tpl) ;
  _ ← write (o_tramp_file o) table_text ;
  tramp_tpl ← lift (read_template (o_target_dir o +:+ "/trampoline.S.tpl")) ;
  io_iter (fun t => lift (substitute (tramp_args t) tramp_tpl) ≫= write (o_tramp_file o))
    (o_trampolines o).

(** Lines 933-957: the C file, with the vtable code at its end. *)
Definition write_init_file (quiet : bool) (o : outputs) : io unit :=
  _ ← open_w (o_init_file o) ;
  _ ← (if quiet then io_ret tt else print ("Generating " +:+ o_suffix o +:+ ".init.c...")) ;
  init_tpl ← lift (read_template (path_join root "arch/common/init.c.tpl")) ;
  init_text ← lift (substitute (init_args (o_init o)) init_tpl) ;
  _ ← write (o_init_file o) init_text ;
  match o_vtables o with
  | Some (cls_syms, cls_data) =>
      vt ← lift (generate_vtables cls_syms cls_data) ; write (o_init_file o) vt
  | None => io_ret tt
  end.

(** Lines 909-957: the two files, in this order. *)
Definition emit (quiet : bool) (o : outputs) : io unit :=
  _ ← write_tramp_file quiet o ; write_init_file quiet o.

(** [main()] after [parser.parse_args()]: the output directory (lines
    719-723), the computation, the files. *)
Definition main (a : args) : io unit :=
  _ ← makedirs (a_outdir a) ;
  o ← plan a ;
  emit (a_quiet a) o.

End Main.

(** ** The contract of the generated wrapper *)

(** [n] names an exported [FUNC] symbol of the library with the default
    version. *)
Definition exported_function (nw : bool) (syms : list sym) (n : string) : Prop :=
  exists s, In s syms /\ s_name s = n /\ s_type s = "FUNC" /\ s_default s = true /\
    is_exported nw s = true.

(** What the two generated files promise together: a list of functions
    such that the jump table has one pointer-sized slot per function and a
    sentinel, trampoline [i] jumps through slot [i] under the prefixed name
    of function [i], the runtime's name list (which resolves slot [i]) is
    the same list, both files share one [lib_suffix], and every function
    is an exported default-version [FUNC] of the library. *)
Definition wrapper_ok (pfx : string) (ptr : Z) (nw : bool) (syms : list sym) (o : outputs) : Prop :=
  exists funs,
    i_sym_names (o_init o) = sym_names funs /\
    i_lib_suffix (o_init o) = o_lib_suffix o /\
    o_table_size o = (ptr * (Z.of_nat (List.length funs) + 1))%Z /\
    List.length (o_trampolines o) = List.length funs /\
    forall i name, funs !! i = Some name ->
      o_trampolines o !! i =
        Some (mk_tramp (o_lib_suffix o) (pfx +:+ name) (Z.of_nat i * ptr) (Z.of_nat i)) /\
      exported_function nw syms name.

(** The text of the jump-table file: its template filled with the table
    size, then one filled trampoline template per function. *)
Definition tramp_emitted `{FileSystem} (o : outputs) (table_text : string)
    (tramp_texts : list string) : Prop :=
  exists table_tpl tramp_tpl,
    read_template (o_target_dir o +:+ "/table.S.tpl") = Ok table_tpl /\
    substitute (table_args (o_lib_suffix o) (o_table_size o)) table_tpl = Ok table_text /\
    read_template (o_target_dir o +:+ "/trampoline.S.tpl") = Ok tramp_tpl /\
    map_result (fun t => substitute (tramp_args t) tramp_tpl) (o_trampolines o) = Ok tramp_texts.

(** The text of the C file: its template filled with the loader settings,
    then the vtable code in vtable mode. *)
Definition init_emitted `{FileSystem} (o : outputs) (init_text vt_text : string) : Prop :=
  exists init_tpl,
    read_template (path_join root "arch/common/init.c.tpl") = Ok init_tpl /\
    substitute (init_args (o_init o)) init_tpl = Ok init_text /\
    match o_vtables o with
    | Some (cls_syms, cls_data) => generate_vtables cls_syms cls_data = Ok vt_text
    | None => vt_text = ""
    end.

(** The progress line printed for the file with extension [ext]. *)
Definition progress (quiet : bool) (o : outputs) (ext : string) : list string :=
  if quiet then [] else ["Generating " +:+ o_suffix o +:+ ext +:+ "..."].

(** ** A library with a C++ class, through every stage *)

Definition demangle_name (n : string) : string :=
  if String.eqb n "_ZTV1C" then "vtable for C"
  else if String.eqb n "_ZN1C3fooEv" then "C::foo()" else n.

Definition scen_symtab : string :=
  "Symbol table '.dynsym' contains 5 entries:" +:+ nl +:+
  "   Num:    Value          Size Type    Bind   Vis      Ndx Name" +:+ nl +:+
  "     0: 0000000000000000     0 NOTYPE  LOCAL  DEFAULT  UND " +:+ nl +:+
  "     1: 0000000000001139    11 FUNC    GLOBAL DEFAULT   12 foo" +:+ nl +:+
  "     2: 0000000000001149    11 FUNC    GLOBAL DEFAULT   12 bar@V1" +:+ nl +:+
  "     3: 0000000000000100    24 OBJECT  GLOBAL DEFAULT   19 _ZTV1C" +:+ nl +:+
  "     4: 0000000000001159    11 FUNC    GLOBAL DEFAULT   12 _ZN1C3fooEv" +:+ nl.

Definition scen_sections : string :=
  "  [Nr] Name              Type            Address          Off    Size   ES Flg Lk Inf Al" +:+ nl +:+
  "  [19] .data.rel.ro      PROGBITS        0000000000000100 000040 000030 00  WA  0   0 32" +:+ nl.

Definition scen_relocs : string :=
  "Relocation section '.rela.dyn' at offset 0x480 contains 1 entry:" +:+ nl +:+
  "    Offset             Info             Type               Symbol's Value  Symbol's Name + Addend" +:+ nl +:+
  "0000000000000110  0000000400000001 R_X86_64_64            0000000000001159 _ZN1C3fooEv + 0" +:+ nl.

Definition scen_tools : System := fun cmd stdin =>
  match cmd with
  | ["readelf"; "-d"; _] =>
      Spawned (mk_completed 0 (" 0x000000000000000e (SONAME)             Library soname: [libfoo.so.1]" +:+ nl) "")
  | ["file"; f] => Spawned (mk_completed 0 (f +:+ ": ELF 64-bit LSB shared object") "")
  | ["nm"; "-g"; _] =>
      Spawned (mk_completed 0 ("0000000000001139 T foo" +:+ nl +:+ "0000000000001149 T bar" +:+ nl) "")
  | ["readelf"; "-sW"; _] => Spawned (mk_completed 0 scen_symtab "")
  | ["c++filt"] => Spawned (mk_completed 0 (join nl (map demangle_name (split_char "010"%char stdin)) +:+ nl) "")
  | ["readelf"; "-SW"; _] => Spawned (mk_completed 0 scen_sections "")
  | ["readelf"; "-rW"; _] => Spawned (mk_completed 0 scen_relocs "")
  | _ => SpawnFailed
  end.

Definition scen_bytes : list byte := (fun _ => x00) <$> seq 0 128.

(** Short templates in the shape of the [x86_64] ones, written as
    pieces. *)
Definition scen_table_ps : list piece :=
  [PText ("  .data" +:+ nl +:+ "  .globl _"); PBraced "lib_suffix";
   PText ("_tramp_table" +:+ nl +:+ "_"); PBraced "lib_suffix";
   PText ("_tramp_table:" +:+ nl +:+ "  .zero "); PNamed "table_size"; PText nl].

Definition scen_tramp_ps : list piece :=
  [PText "  .globl "; PNamed "sym"; PText nl; PNamed "sym"; PText (":" +:+ nl +:+ "  jmp *_");
   PBraced "lib_suffix"; PText "_tramp_table+"; PNamed "offset"; PText "(%rip)  # ";
   PNamed "number"; PText nl].

Definition scen_table_tpl : string := render scen_table_ps.
Definition scen_tramp_tpl : string := render scen_tramp_ps.

Definition scen_init_tpl : string :=
  "#define LIB_NAME $load_name" +:+ nl +:+ "static const char *const sym_names[] = {" +:+ nl +:+
  "  $sym_names" +:+ nl +:+ "  0" +:+ nl +:+ "};" +:+ nl +:+
  "#define LAZY_LOAD $lazy_load" +:+ nl +:+ "#define THREAD_SAFE $thread_safe" +:+ nl.

Definition scen_templates (p : string) : option string :=
  if String.eqb p "/opt/implib/arch/x86_64/table.S.tpl" then Some scen_table_tpl
  else if String.eqb p "/opt/implib/arch/x86_64/trampoline.S.tpl" then Some scen_tramp_tpl
  else if String.eqb p "/opt/implib/arch/common/init.c.tpl" then Some scen_init_tpl
  else None.

Definition scen_fs : FileSystem := {|
  read_text := scen_templates;
  read_binary := fun _ => Some scen_bytes;
  arch_exists := fun t => String.eqb t "x86_64";
  arch_value := fun _ k =>
    if String.eqb k "PointerSize" then Some "8"
    else if String.eqb k "SymbolReloc" then Some "R_X86_64_64, R_X86_64_JUMP_SLOT" else None;
  root := "/opt/implib"
|}.

(** A world with the current directory and no file. *)
Definition scen_world : world := mk_world {["."]} ∅ [] [].

Definition scen_args (vtables : bool) : args :=
  mk_args "libfoo.so" true "" "" None true true vtables false "x86_64-unknown-linux-gnu"
    None "" false "out" None 0.

(** The same run with [-v]. *)
Definition scen_args_verbose (vtables : bool) : args :=
  mk_args "libfoo.so" true "" "" None true true vtables false "x86_64-unknown-linux-gnu"
    None "" false "out" None 1.

(** ** Theorems *)

Import PyFacts.

Lemma last_char_path_join a b : b <> EmptyString -> last_char (path_join a b) = last_char b.
Proof.
  intros Hb. unfold path_join. repeat case_match; try done;
    rewrite !last_char_app; try done; by destruct b.
Qed.

(** The two generated files never share a path. *)
Lemma tramp_init_distinct d s : path_join d (s +:+ ".tramp.S") <> path_join d (s +:+ ".init.c").
Proof.
  intros E. apply (f_equal last_char) in E.
  rewrite !last_char_path_join, !last_char_app in E by (try destruct s; discriminate).
  vm_compute in E. congruence.
Qed.

Section Facts.
Context `{System} `{FileSystem}.

Lemma write_tramp_file_run q o table_text tramp_texts w :
  tramp_emitted o table_text tramp_texts ->
  exists w', write_tramp_file q o w = (w', Ok tt) /\
    w_files w' = <[o_tramp_file o := table_text +:+ concat_str tramp_texts]> (w_files w) /\
    w_stdout w' = w_stdout w ++ progress q o ".tramp.S" /\ w_stderr w' = w_stderr w /\
    w_dirs w' = w_dirs w.
Proof.
  intros (tpl1 & tpl2 & E1 & E2 & E3 & E4).
  unfold write_tramp_file, mbind, io_mbind. cbv beta.
  destruct q; eexists; (split; [|shelve]).
  all: io_run reflexivity; io_run reflexivity.
  all: io_run (rewrite E1; reflexivity); io_run (rewrite E2; reflexivity).
  all: io_run (apply write_run; apply set_file_lookup).
  all: io_run (rewrite E3; reflexivity).
  all: apply (io_iter_write_ok (fun t => substitute (tramp_args t) tpl2)); [apply set_file_lookup|exact E4].
  Unshelve.
  all: destruct w; cbn [set_file w_files w_stdout w_stderr w_dirs]; unfold progress.
  all: rewrite !insert_insert_eq, !append_nil_l. all: split_and!; try done; by rewrite ?app_nil_r.
Qed.

Lemma write_init_file_run q o init_text vt_text w :
  init_emitted o init_text vt_text ->
  exists w', write_init_file q o w = (w', Ok tt) /\
    w_files w' = <[o_init_file o := init_text +:+ vt_text]> (w_files w) /\
    w_stdout w' = w_stdout w ++ progress q o ".init.c" /\ w_stderr w' = w_stderr w /\
    w_dirs w' = w_dirs w.
Proof.
  intros (tpl & E1 & E2 & Evt).
  unfold write_init_file, mbind, io_mbind. cbv beta.
  destruct q, (o_vtables o) as [[cs cd]|]; eexists; (split; [|shelve]).
  all: io_run reflexivity; io_run reflexivity.
  all: io_run (rewrite E1; reflexivity); io_run (rewrite E2; reflexivity).
  all: io_run (apply write_run; apply set_file_lookup).
  1,3: io_run (rewrite Evt; reflexivity); apply write_run, set_file_lookup.
  1,2: reflexivity.
  Unshelve.
  all: destruct w; cbn [set_file w_files w_stdout w_stderr w_dirs]; unfold progress.
  all: rewrite ?Evt, !insert_insert_eq, !append_nil_l, ?append_empty_r.
  all: split_and!; try done; by rewrite ?app_nil_r.
Qed.

Lemma write_tramp_file_inv q o w w' :
  write_tramp_file q o w = (w', Ok tt) ->
  exists table_text tramp_texts, tramp_emitted o table_text tramp_texts.
Proof.
  unfold write_tramp_file, mbind, io_mbind. cbv beta. intros Hm.
  io_inv Hm S1; io_inv Hm S2; io_inv Hm S3. apply lift_Ok in S3 as [E1 ->].
  io_inv Hm S4. apply lift_Ok in S4 as [E2 ->]. io_inv Hm S5.
  io_inv Hm S6. apply lift_Ok in S6 as [E3 ->].
  apply (io_iter_write_inv (fun t => substitute (tramp_args t) _)) in Hm as [ts E4].
  do 4 eexists. split_and!; eauto.
Qed.

Lemma write_init_file_inv q o w w' :
  write_init_file q o w = (w', Ok tt) -> exists init_text vt_text, init_emitted o init_text vt_text.
Proof.
  unfold write_init_file, mbind, io_mbind. cbv beta. intros Hm.
  io_inv Hm S1; io_inv Hm S2; io_inv Hm S3. apply lift_Ok in S3 as [E1 ->].
  io_inv Hm S4. apply lift_Ok in S4 as [E2 ->]. io_inv Hm S5.
  destruct (o_vtables o) as [[cs cd]|] eqn:Ev.
  - io_inv Hm S6. apply lift_Ok in S6 as [Evt ->].
    do 3 eexists. split_and!; eauto. rewrite Ev. exact Evt.
  - do 3 eexists. split_and!; eauto. by rewrite Ev.
Qed.

(** The computation writes no file and makes no directory, whatever its
    outcome; it only appends to standard output, and without [--verbose]
    not even that. *)
Lemma vtable_data_files v nw b i p rt syms : frame true same_files (vtable_data v nw b i p rt syms).
Proof. unfold vtable_data, print_class_data. solve_frame. Qed.

Lemma vtable_data_grows v nw b i p rt syms : frame true stdout_grows (vtable_data v nw b i p rt syms).
Proof. unfold vtable_data, print_class_data. solve_frame. Qed.

Lemma vtable_data_stderr v nw b i p rt syms : frame false same_stderr (vtable_data v nw b i p rt syms).
Proof. unfold vtable_data, print_class_data. solve_frame. Qed.

Lemma vtable_data_quiet nw b i p rt syms : frame true same_stdout (vtable_data false nw b i p rt syms).
Proof. unfold vtable_data. solve_frame. Qed.

#[local] Hint Resolve vtable_data_files vtable_data_grows vtable_data_quiet : io_frame.

Lemma plan_files a : frame true same_files (plan a).
Proof. unfold plan. solve_frame. Qed.

Lemma plan_grows a : frame true stdout_grows (plan a).
Proof. unfold plan. solve_frame. Qed.

Lemma plan_quiet a : a_verbose a = 0 -> frame true same_stdout (plan a).
Proof.
  intros Hv. unfold plan. cbv zeta.
  replace (negb (a_verbose a =? 0)) with false by (by rewrite Hv). solve_frame.
Qed.

(** What a successful [plan] computed, stage by stage, and what it
    printed. *)
Lemma plan_inv a w w' o :
  plan a w = (w', Ok o) ->
  exists user binary ln ptr rt syms0 ws syms dws funs fws vt,
    user_funs (a_symbol_list a) = Ok user /\
    is_binary_file (a_library a) = Ok binary /\
    load_name_of (a_library_load_name a) binary (a_library a)
      (if binary then basename (a_library a) else strip_def (basename (a_library a))) = Ok ln /\
    arch_config (normalize_target (a_target a)) = Ok (ptr, rt) /\
    collect_symbols binary (a_library a) = Ok (syms0, ws) /\ demangle syms0 = Ok syms /\
    data_warnings (a_library a) (a_vtables a)
      (List.filter (is_exported (a_no_weak_symbols a)) syms) = Ok dws /\
    exported_funs (a_no_weak_symbols a) (a_quiet a) (a_library a) syms user = (funs, fws) /\
    (if a_vtables a then
       exists c w1 w2, vt = Some c /\
         vtable_data (negb (a_verbose a =? 0)) (a_no_weak_symbols a) binary (a_library a) ptr rt
           (List.filter (is_exported (a_no_weak_symbols a)) syms) w1 = (w2, Ok c)
     else vt = None) /\
    (let suffix := output_suffix (a_suffix a) binary (a_library a) in
     let ls := lib_suffix_of suffix in
     o = mk_outputs suffix (path_join (path_join root "arch") (normalize_target (a_target a)))
          (path_join (a_outdir a) (suffix +:+ ".tramp.S")) ls (table_size ptr funs)
          (trampolines ls (a_symbol_prefix a) ptr funs)
          (path_join (a_outdir a) (suffix +:+ ".init.c"))
          (init_params_of ls ln (a_dlopen_callback a) (a_dlsym_callback a)
             (a_dlopen a) (a_lazy_load a) (a_thread_safe a) funs)
          vt) /\
    w_stderr w' = w_stderr w ++ map warning_line (ws ++ dws ++ fws) /\
    (a_vtables a = false ->
     w_stdout w' = w_stdout w ++
       (if negb (a_verbose a =? 0)
        then versioned_lines (List.filter (is_exported (a_no_weak_symbols a)) syms) ++ fun_lines funs
        else [])).
Proof.
  unfold plan, mbind, io_mbind. cbv beta zeta. intros Hm.
  io_lift Hm E1 user. io_lift Hm E2 binary. io_lift Hm E3 ln. io_lift Hm E4 [ptr rt].
  io_lift Hm E5 [syms0 ws]. io_unit Hm S1. rewrite io_iter_warn in S1. injection S1 as <-.
  io_lift Hm E6 syms. cbn [fst] in E6. io_lift Hm E7 dws. io_unit Hm S2. rewrite io_iter_warn in S2. injection S2 as <-.
  destruct (exported_funs _ _ _ _ _) as [funs fws] eqn:E8.
  io_unit Hm S3. rewrite io_iter_warn in S3. injection S3 as <-.
  io_unit Hm S4. rewrite when_print_run in S4. injection S4 as <-.
  io_unit Hm S5. rewrite when_print_run in S5. injection S5 as <-.
  apply io_bind_Ok in Hm as (w6 & vt & S6 & [= <- <-]).
  exists user, binary, ln, ptr, rt, syms0, ws, syms, dws, funs, fws, vt.
  destruct (a_vtables a).
  - apply io_bind_Ok in S6 as (w7 & c & S7 & [= <- <-]).
    pose proof (frame_ok _ _ _ _ _ _ (vtable_data_stderr _ _ _ _ _ _ _) S7) as Ee.
    split_and!; try done; [by eexists c, _, w7|]. unfold same_stderr in Ee. rewrite Ee. simpl.
    by rewrite !map_app, !app_assoc.
  - injection S6 as <- <-. split_and!; try done; simpl; [by rewrite !map_app, !app_assoc|].
    intros _. destruct (negb _); by rewrite ?app_nil_r, ?app_assoc.
Qed.

(** The file names [plan] chooses are distinct. *)
Lemma plan_files_distinct a w w' o : plan a w = (w', Ok o) -> o_tramp_file o <> o_init_file o.
Proof.
  intros (? & ? & ? & ? & ? & ? & ? & ? & ? & ? & ? & ? & _ & _ & _ & _ & _ & _ & _ & _ & _ & -> & _)%plan_inv.
  apply tramp_init_distinct.
Qed.

(** Everything a successful run of [main] did, in the order it did it. *)
Lemma main_Ok a w w' :
  main a w = (w', Ok tt) ->
  exists w1 w2 o table_text tramp_texts init_text vt_text,
    makedirs (a_outdir a) w = (w1, Ok tt) /\ plan a w1 = (w2, Ok o) /\
    tramp_emitted o table_text tramp_texts /\ init_emitted o init_text vt_text /\
    w_files w' = <[o_init_file o := init_text +:+ vt_text]>
                   (<[o_tramp_file o := table_text +:+ concat_str tramp_texts]> (w_files w)) /\
    w_stdout w' = w_stdout w2 ++ progress (a_quiet a) o ".tramp.S" ++ progress (a_quiet a) o ".init.c" /\
    w_stderr w' = w_stderr w2 /\
    w_dirs w' ≡ {[a_outdir a]} ∪ w_dirs w.
Proof.
  unfold main, mbind, io_mbind. cbv beta. intros Hm.
  apply io_bind_Ok in Hm as (w1 & [] & S1 & Hm). apply io_bind_Ok in Hm as (w2 & o & S2 & Hm).
  unfold emit, mbind, io_mbind in Hm. cbv beta in Hm. io_unit Hm S4.
  destruct (write_tramp_file_inv _ _ _ _ S4) as (t & ts & Ht).
  destruct (write_init_file_inv _ _ _ _ Hm) as (it & vt & Hi).
  destruct (write_tramp_file_run (a_quiet a) _ _ _ w2 Ht) as (wt & R1 & F1 & O1 & E1 & D1).
  rewrite R1 in S4. injection S4 as <-.
  destruct (write_init_file_run (a_quiet a) _ _ _ wt Hi) as (wi & R2 & F2 & O2 & E2 & D2).
  rewrite R2 in Hm. injection Hm as <-.
  destruct (frame_ok _ _ _ _ _ _ (plan_files a) S2) as [PF PD].
  destruct (makedirs_run (a_outdir a) w) as (w1' & R0 & F0 & _ & _ & D0).
  rewrite R0 in S1. injection S1 as <-.
  exists w1', w2, o, t, ts, it, vt. rewrite F2, O2, E2, D2, F1, O1, E1, D1, PF, PD, F0, D0.
  split_and!; try done. by rewrite <- app_assoc.
Qed.

(** The values [plan] hands to the templates satisfy the wrapper
    contract. *)
Lemma plan_wrapper_ok a w w' o :
  plan a w = (w', Ok o) ->
  exists binary syms0 ws syms ptr rt,
    is_binary_file (a_library a) = Ok binary /\
    collect_symbols binary (a_library a) = Ok (syms0, ws) /\ demangle syms0 = Ok syms /\
    arch_config (normalize_target (a_target a)) = Ok (ptr, rt) /\
    wrapper_ok (a_symbol_prefix a) ptr (a_no_weak_symbols a) syms o.
Proof.
  intros (user & binary & ln & ptr & rt & syms0 & ws & syms & dws & funs & fws & vt &
          _ & Hb & _ & Hc & Hs & Hd & _ & Ef & _ & -> & _)%plan_inv.
  exists binary, syms0, ws, syms, ptr, rt. split_and!; try done.
  exists funs. cbn. split_and!; [done|done|done|apply length_imap|].
  intros i name Hi. split; [unfold trampolines; by rewrite list_lookup_imap, Hi|].
  apply list_elem_of_lookup_2, list_elem_of_In in Hi.
  destruct (exported_funs_elem _ _ _ _ _ _ _ _ Ef Hi) as (s & ? & ? & ? & ? & ?).
  by exists s.
Qed.

(** Once the directory is made and the computation done, [main] is the
    emission. *)
Lemma main_unfold a w w0 w1 o :
  makedirs (a_outdir a) w = (w0, Ok tt) -> plan a w0 = (w1, Ok o) ->
  main a w = emit (a_quiet a) o w1 /\ w_files w1 = w_files w.
Proof.
  intros R Ep. unfold main, mbind, io_mbind. cbv beta.
  rewrite (io_bind_step _ _ _ _ _ R), (io_bind_step _ _ _ _ _ Ep). split; [done|].
  destruct (makedirs_run (a_outdir a) w) as (w0' & R' & F & _). rewrite R in R'. injection R' as <-.
  destruct (frame_ok _ _ _ _ _ _ (plan_files a) Ep). congruence.
Qed.

Lemma write_init_file_no_template q o w :
  read_text (path_join root "arch/common/init.c.tpl") = None ->
  exists w', write_init_file q o w = (w', crash:("OSError")) /\
    w_files w' = <[o_init_file o := ""]> (w_files w).
Proof.
  intros Hn. unfold write_init_file, mbind, io_mbind, read_template. cbv beta. rewrite Hn.
  destruct q; eexists; split; reflexivity.
Qed.

(** C2: [main] refines the contract of the wrapper.  When it succeeds,
    the values it fills the templates with satisfy [wrapper_ok] for the
    pointer size of the target's [config.ini] and the symbols read from
    the input, and the two files hold exactly the filled templates: the
    table followed by one trampoline per function in order, and the C
    file followed by the vtable code. *)
Theorem main_refines a w w' :
  main a w = (w', Ok tt) ->
  exists w1 w2 o binary syms0 ws syms ptr rt table_text tramp_texts init_text vt_text,
    plan a w1 = (w2, Ok o) /\
    is_binary_file (a_library a) = Ok binary /\
    collect_symbols binary (a_library a) = Ok (syms0, ws) /\ demangle syms0 = Ok syms /\
    arch_config (normalize_target (a_target a)) = Ok (ptr, rt) /\
    wrapper_ok (a_symbol_prefix a) ptr (a_no_weak_symbols a) syms o /\
    tramp_emitted o table_text tramp_texts /\ init_emitted o init_text vt_text /\
    w_files w' !! o_tramp_file o = Some (table_text +:+ concat_str tramp_texts) /\
    w_files w' !! o_init_file o = Some (init_text +:+ vt_text).
Proof.
  intros (w1 & w2 & o & t & ts & it & vt & _ & Ep & Ht & Hi & Hf & _)%main_Ok.
  destruct (plan_wrapper_ok _ _ _ _ Ep) as (binary & syms0 & ws & syms & ptr & rt & ? & ? & ? & ? & ?).
  exists w1, w2, o, binary, syms0, ws, syms, ptr, rt, t, ts, it, vt. rewrite Hf. split_and!; try done.
  - rewrite lookup_insert_ne by (apply not_eq_sym, (plan_files_distinct a _ _ o Ep)).
    apply lookup_insert_eq.
  - apply lookup_insert_eq.
Qed.

(** C23: the load name written into the C file is the one given with
    [--library-load-name]; otherwise the SONAME of a library (its file
    name when it has none), or the [LIBRARY] name of a [.def] file (the
    file's stem when it has none). *)
Theorem plan_load_name a w w' o :
  plan a w = (w', Ok o) ->
  exists binary, is_binary_file (a_library a) = Ok binary /\
    match a_library_load_name a with
    | Some n => i_load_name (o_init o) = n
    | None =>
        if binary then exists so, read_soname (a_library a) = Ok so /\
                         i_load_name (o_init o) = default (basename (a_library a)) so
        else i_load_name (o_init o) =
               default (strip_def (basename (a_library a))) (read_library_name (read_text (a_library a)))
    end.
Proof.
  intros (user & binary & ln & ptr & rt & syms0 & ws & syms & dws & funs & fws & vt &
          _ & Hb & El & _ & _ & _ & _ & _ & _ & -> & _)%plan_inv.
  exists binary. split; [done|]. cbn.
  unfold load_name_of in El. destruct (a_library_load_name a); [by injection El|].
  destruct binary; [|by injection El as <-].
  destruct (read_soname _) as [so|]; [|done]. injection El as <-. by exists so.
Qed.

(** C24: vtable mode refuses a [.def] file that is not a library: the run
    fails and leaves every file as it was. *)
Theorem main_vtables_def a w :
  is_binary_file (a_library a) = Ok false -> a_vtables a = true ->
  endswith (a_library a) ".def" = true ->
  let '(w', r) := main a w in is_ok r = false /\ w_files w' = w_files w.
Proof.
  intros Hb Hv Hd. unfold main, mbind, io_mbind. cbv beta.
  destruct (makedirs_run (a_outdir a) w) as (w1 & R & F & _).
  rewrite (io_bind_step _ _ _ _ _ R). unfold io_bind at 1.
  pose proof (plan_files a w1 eq_refl) as [PF _].
  destruct (plan a w1) as [w2 [o|e]] eqn:Ep; simpl in PF.
  - exfalso. apply plan_inv in Ep as (user & binary & ln & ptr & rt & syms0 & ws & syms & dws & funs &
      fws & vt & _ & Hb' & _ & _ & _ & _ & _ & _ & Evt & _).
    rewrite Hb in Hb'. injection Hb' as <-. rewrite Hv in Evt.
    destruct Evt as (c & w3 & w4 & _ & Evt). unfold vtable_data, mbind, io_mbind in Evt.
    rewrite Hd in Evt. by apply io_bind_Ok in Evt as (? & ? & [[=] _]%lift_Ok & _).
  - split; [done|]. congruence.
Qed.

(** C32: the jump-table file is complete before the C file is begun: when
    [init.c.tpl] cannot be read, [main] stops with [OSError] and leaves
    the full [.tramp.S] file and an empty [.init.c] file behind. *)
Theorem main_partial_init a w w0 w1 o table_text tramp_texts :
  makedirs (a_outdir a) w = (w0, Ok tt) -> plan a w0 = (w1, Ok o) ->
  tramp_emitted o table_text tramp_texts ->
  read_text (path_join root "arch/common/init.c.tpl") = None ->
  exists w', main a w = (w', crash:("OSError")) /\
    w_files w' !! o_tramp_file o = Some (table_text +:+ concat_str tramp_texts) /\
    w_files w' !! o_init_file o = Some "".
Proof.
  intros R Ep Ht Hn. destruct (main_unfold _ _ _ _ _ R Ep) as [-> F0].
  destruct (write_tramp_file_run (a_quiet a) _ _ _ w1 Ht) as (w2 & R1 & F1 & _).
  destruct (write_init_file_no_template (a_quiet a) o w2 Hn) as (w3 & R2 & F2).
  unfold emit, mbind, io_mbind. cbv beta. rewrite (io_bind_step _ _ _ _ _ R1), R2.
  eexists. split; [done|]. rewrite F2, F1. split; [|apply lookup_insert_eq].
  rewrite lookup_insert_ne by (apply not_eq_sym, (plan_files_distinct a _ _ o Ep)).
  apply lookup_insert_eq.
Qed.

(** C34: what a successful run shows.  Standard output has the listings
    of [--verbose] (none without it; without [--vtables], the skipped
    versioned functions and the numbered functions), then one progress
    line per file in the order the files are written (none with
    [--quiet]).  Standard error has the warnings of the [.def] reader, of
    the data symbols and of the function selection, in this order.  The
    output directory exists. *)
Theorem main_streams a w w' :
  main a w = (w', Ok tt) ->
  exists w1 w2 o user binary syms0 def_ws syms data_ws funs fun_ws listing,
    plan a w1 = (w2, Ok o) /\
    user_funs (a_symbol_list a) = Ok user /\ is_binary_file (a_library a) = Ok binary /\
    collect_symbols binary (a_library a) = Ok (syms0, def_ws) /\ demangle syms0 = Ok syms /\
    data_warnings (a_library a) (a_vtables a)
      (List.filter (is_exported (a_no_weak_symbols a)) syms) = Ok data_ws /\
    exported_funs (a_no_weak_symbols a) (a_quiet a) (a_library a) syms user = (funs, fun_ws) /\
    w_stdout w' = w_stdout w ++ listing ++
      (if a_quiet a then []
       else ["Generating " +:+ o_suffix o +:+ ".tramp.S..."; "Generating " +:+ o_suffix o +:+ ".init.c..."]) /\
    (a_verbose a = 0 -> listing = []) /\
    (a_vtables a = false -> 0 < a_verbose a ->
     listing = versioned_lines (List.filter (is_exported (a_no_weak_symbols a)) syms) ++ fun_lines funs) /\
    w_stderr w' = w_stderr w ++ map warning_line (def_ws ++ data_ws ++ fun_ws) /\
    a_outdir a ∈ w_dirs w'.
Proof.
  intros (w1 & w2 & o & t & ts & it & vt & R & Ep & _ & _ & _ & Ho & He & Hd)%main_Ok.
  destruct (makedirs_run (a_outdir a) w) as (w1' & R' & _ & O0 & E0 & _).
  rewrite R in R'. injection R' as <-.
  pose proof (frame_ok _ _ _ _ _ _ (plan_grows a) Ep) as [listing Hl].
  pose proof Ep as (user & binary & ln & ptr & rt & syms0 & ws & syms & dws & funs & fws & vt' &
    Eu & Eb & _ & _ & Es & Ed & Edw & Ef & _ & _ & Ee & Eo)%plan_inv.
  exists w1, w2, o, user, binary, syms0, ws, syms, dws, funs, fws, listing.
  split_and!; try done.
  - rewrite Ho, Hl, O0, <- app_assoc. unfold progress. by destruct (a_quiet a).
  - intros Hv. pose proof (frame_ok _ _ _ _ _ _ (plan_quiet a Hv) Ep) as Hq.
    unfold same_stdout in Hq. rewrite Hl in Hq. apply (f_equal List.length) in Hq.
    rewrite length_app in Hq. destruct listing; simpl in *; [done|lia].
  - intros Hvt Hv. apply Eo in Hvt. rewrite Hl in Hvt. apply app_inv_head in Hvt. rewrite Hvt.
    destruct (a_verbose a); [lia|done].
  - by rewrite He, Ee, E0.
  - rewrite Hd. set_solver.
Qed.

(** C33: the jump-table file [write_tramp_file] writes, for templates
    that read as pieces: the table template expanded with [lib_suffix] and
    [table_size], then the trampoline template expanded once per
    trampoline, in order.  Or the run stops with the first failed
    expansion ([KeyError]), which leaves the file incomplete. *)
Theorem tramp_file_text q o w table_ps tramp_ps :
  wf_pieces table_ps = true -> wf_pieces tramp_ps = true ->
  read_text (o_target_dir o +:+ "/table.S.tpl") = Some (render table_ps) ->
  read_text (o_target_dir o +:+ "/trampoline.S.tpl") = Some (render tramp_ps) ->
  let '(w', r) := write_tramp_file q o w in
  match expand (table_args (o_lib_suffix o) (o_table_size o)) table_ps,
        map_result (fun t => expand (tramp_args t) tramp_ps) (o_trampolines o) with
  | Ok table_text, Ok tramp_texts =>
      r = Ok tt /\ w_files w' !! o_tramp_file o = Some (table_text +:+ concat_str tramp_texts)
  | Err e, _ | Ok _, Err e => r = Err e
  end.
Proof.
  intros W1 W2 R1 R2.
  assert (read_template (o_target_dir o +:+ "/table.S.tpl") = Ok (render table_ps)) as T1
    by (unfold read_template; by rewrite R1).
  assert (read_template (o_target_dir o +:+ "/trampoline.S.tpl") = Ok (render tramp_ps)) as T2
    by (unfold read_template; by rewrite R2).
  rewrite <- (substitute_render _ _ W1).
  rewrite <- (map_result_ext (fun t => substitute (tramp_args t) (render tramp_ps)))
    by (intros; by apply substitute_render).
  destruct (substitute _ (render table_ps)) as [t0|e] eqn:E1;
    [destruct (map_result _ (o_trampolines o)) as [ts|e] eqn:E2|].
  - destruct (write_tramp_file_run q o t0 ts w) as (w' & -> & F & _);
      [by exists (render table_ps), (render tramp_ps)|].
    split; [done|]. rewrite F. apply lookup_insert_eq.
  - unfold write_tramp_file, mbind, io_mbind. cbv beta.
    destruct q; (io_run reflexivity); (io_run reflexivity); (io_run (rewrite T1; reflexivity));
      (io_run (rewrite E1; reflexivity)); (io_run (apply write_run, set_file_lookup));
      (io_run (rewrite T2; reflexivity));
      match goal with |- context [io_iter _ _ ?W] =>
        destruct (io_iter_write_err (fun t => substitute (tramp_args t) (render tramp_ps))
                    (o_tramp_file o) (o_trampolines o) W e E2) as [w' Hw]; rewrite Hw; done
      end.
  - unfold write_tramp_file, mbind, io_mbind. cbv beta.
    destruct q; (io_run reflexivity); (io_run reflexivity); (io_run (rewrite T1; reflexivity));
      unfold io_bind at 1; rewrite E1; by destruct e.
Qed.

End Facts.


(** ** The scenario, run *)

(** The file system of the scenario without [init.c.tpl]. *)
Definition scen_fs_noinit : FileSystem := {|
  read_text := fun p => if String.eqb p "/opt/implib/arch/common/init.c.tpl" then None
                        else scen_templates p;
  read_binary := fun _ => Some scen_bytes;
  arch_exists := fun t => String.eqb t "x86_64";
  arch_value := @arch_value scen_fs;
  root := "/opt/implib"
|}.

(** Vtable mode on a [.def] input. *)
Definition def_args : args :=
  mk_args "libfoo.def" true "" "" None true true true false "x86_64" None "" false "out" None 0.

Section Scenario.
#[local] Existing Instance scen_tools.
#[local] Existing Instance scen_fs.

(** The files of the scenario: the jump table with its two trampolines in
    sorted order, then the C file with the SONAME and the vtable code. *)
Example main_scenario :
  let '(w, r) := main (scen_args true) scen_world in
  r = Ok tt /\
  w_files w !! "out/libfoo.so.tramp.S" =
    Some ("  .data" +:+ nl +:+ "  .globl _libfoo_so_tramp_table" +:+ nl +:+
          "_libfoo_so_tramp_table:" +:+ nl +:+ "  .zero 24" +:+ nl +:+
          "  .globl _ZN1C3fooEv" +:+ nl +:+ "_ZN1C3fooEv:" +:+ nl +:+
          "  jmp *_libfoo_so_tramp_table+0(%rip)  # 0" +:+ nl +:+
          "  .globl foo" +:+ nl +:+ "foo:" +:+ nl +:+
          "  jmp *_libfoo_so_tramp_table+8(%rip)  # 1" +:+ nl) /\
  (if w_files w !! "out/libfoo.so.init.c" is Some t then
     contains ("#define LIB_NAME libfoo.so.1" +:+ nl) t &&
     contains "extern const char _ZN1C3fooEv[];" t else false) = true /\
  w_stderr w = ["implib-gen.py: warning: library libfoo.so contains versioned symbols which are NYI"].
Proof. vm_compute. split_and!; reflexivity. Qed.

(** The same run with [-v]: every listing of [--verbose], then the
    progress lines.  The section bounds are hexadecimal, the relocation
    offsets decimal ([str] of an [int]), a relocation target is printed as
    a Python tuple. *)
Example main_verbose_scenario :
  w_stdout (main (scen_args_verbose true) scen_world).1 =
    ["Skipping versioned symbol bar"; "Exported functions:"; "  0: _ZN1C3fooEv"; "  1: foo";
     "Exported classes:"; "  C"; "Sections:"; "  .data.rel.ro: [100, 130), at 40";
     "Relocs:"; "  272: ('_ZN1C3fooEv', 0)"; "Class data:"; "  _ZTV1C (vtable for C):";
     "    0"; "    0"; "    ('_ZN1C3fooEv', 0)";
     "Generating libfoo.so.tramp.S..."; "Generating libfoo.so.init.c..."].
Proof. vm_compute. reflexivity. Qed.

Lemma main_refines_witness :
  exists w', main (scen_args true) scen_world = (w', Ok tt) /\
  exists w1 w2 o binary syms0 ws syms ptr rt table_text tramp_texts init_text vt_text,
    plan (scen_args true) w1 = (w2, Ok o) /\
    is_binary_file (a_library (scen_args true)) = Ok binary /\
    collect_symbols binary (a_library (scen_args true)) = Ok (syms0, ws) /\ demangle syms0 = Ok syms /\
    arch_config (normalize_target (a_target (scen_args true))) = Ok (ptr, rt) /\
    wrapper_ok (a_symbol_prefix (scen_args true)) ptr (a_no_weak_symbols (scen_args true)) syms o /\
    tramp_emitted o table_text tramp_texts /\ init_emitted o init_text vt_text /\
    w_files w' !! o_tramp_file o = Some (table_text +:+ concat_str tramp_texts) /\
    w_files w' !! o_init_file o = Some (init_text +:+ vt_text).
Proof.
  eexists. split; [vm_compute; reflexivity|].
  apply (main_refines (scen_args true) scen_world). vm_compute. reflexivity.
Defined.

Lemma plan_load_name_witness :
  exists w' o, plan (scen_args false) scen_world = (w', Ok o) /\
  exists binary, is_binary_file (a_library (scen_args false)) = Ok binary /\
    match a_library_load_name (scen_args false) with
    | Some n => i_load_name (o_init o) = n
    | None =>
        if binary then exists so, read_soname (a_library (scen_args false)) = Ok so /\
                         i_load_name (o_init o) = default (basename (a_library (scen_args false))) so
        else i_load_name (o_init o) =
               default (strip_def (basename (a_library (scen_args false))))
                 (read_library_name (read_text (a_library (scen_args false))))
    end.
Proof.
  do 2 eexists. split; [vm_compute; reflexivity|].
  eapply (plan_load_name (scen_args false) scen_world). vm_compute. reflexivity.
Defined.

Lemma main_streams_witness :
  exists w', main (scen_args_verbose false) scen_world = (w', Ok tt) /\
  exists w1 w2 o user binary syms0 def_ws syms data_ws funs fun_ws listing,
    plan (scen_args_verbose false) w1 = (w2, Ok o) /\
    user_funs (a_symbol_list (scen_args_verbose false)) = Ok user /\
    is_binary_file (a_library (scen_args_verbose false)) = Ok binary /\
    collect_symbols binary (a_library (scen_args_verbose false)) = Ok (syms0, def_ws) /\
    demangle syms0 = Ok syms /\
    data_warnings (a_library (scen_args_verbose false)) (a_vtables (scen_args_verbose false))
      (List.filter (is_exported (a_no_weak_symbols (scen_args_verbose false))) syms) = Ok data_ws /\
    exported_funs (a_no_weak_symbols (scen_args_verbose false)) (a_quiet (scen_args_verbose false))
      (a_library (scen_args_verbose false)) syms user = (funs, fun_ws) /\
    w_stdout w' = w_stdout scen_world ++ listing ++
      (if a_quiet (scen_args_verbose false) then []
       else ["Generating " +:+ o_suffix o +:+ ".tramp.S..."; "Generating " +:+ o_suffix o +:+ ".init.c..."]) /\
    (a_verbose (scen_args_verbose false) = 0 -> listing = []) /\
    (a_vtables (scen_args_verbose false) = false -> 0 < a_verbose (scen_args_verbose false) ->
     listing = versioned_lines (List.filter (is_exported (a_no_weak_symbols (scen_args_verbose false))) syms)
               ++ fun_lines funs) /\
    w_stderr w' = w_stderr scen_world ++ map warning_line (def_ws ++ data_ws ++ fun_ws) /\
    a_outdir (scen_args_verbose false) ∈ w_dirs w'.
Proof.
  eexists. split; [vm_compute; reflexivity|].
  apply (main_streams (scen_args_verbose false) scen_world). vm_compute. reflexivity.
Defined.

Lemma tramp_file_text_witness :
  exists w' o, plan (scen_args true) scen_world = (w', Ok o) /\
  wf_pieces scen_table_ps = true /\ wf_pieces scen_tramp_ps = true /\
  read_text (o_target_dir o +:+ "/table.S.tpl") = Some (render scen_table_ps) /\
  read_text (o_target_dir o +:+ "/trampoline.S.tpl") = Some (render scen_tramp_ps) /\
  let '(w', r) := write_tramp_file false o scen_world in
  match expand (table_args (o_lib_suffix o) (o_table_size o)) scen_table_ps,
        map_result (fun t => expand (tramp_args t) scen_tramp_ps) (o_trampolines o) with
  | Ok table_text, Ok tramp_texts =>
      r = Ok tt /\ w_files w' !! o_tramp_file o = Some (table_text +:+ concat_str tramp_texts)
  | Err e, _ | Ok _, Err e => r = Err e
  end.
Proof.
  do 2 eexists. split; [vm_compute; reflexivity|].
  split_and!; [reflexivity|reflexivity|vm_compute; reflexivity|vm_compute; reflexivity|].
  apply tramp_file_text; [reflexivity|reflexivity|vm_compute; reflexivity|vm_compute; reflexivity].
Defined.

End Scenario.

Lemma main_vtables_def_witness :
  @is_binary_file text_tools (a_library def_args) = Ok false /\ a_vtables def_args = true /\
  endswith (a_library def_args) ".def" = true /\
  let '(w', r) := @main text_tools scen_fs def_args scen_world in
  is_ok r = false /\ w_files w' = w_files scen_world.
Proof.
  split_and!; [vm_compute; reflexivity|reflexivity|vm_compute; reflexivity|].
  apply (@main_vtables_def text_tools scen_fs def_args scen_world); vm_compute; reflexivity.
Defined.

Lemma main_partial_init_witness :
  exists w0 w1 o table_text tramp_texts,
    makedirs (a_outdir (scen_args false)) scen_world = (w0, Ok tt) /\
    @plan scen_tools scen_fs_noinit (scen_args false) w0 = (w1, Ok o) /\
    @tramp_emitted scen_fs_noinit o table_text tramp_texts /\
    @read_text scen_fs_noinit (path_join (@root scen_fs_noinit) "arch/common/init.c.tpl") = None /\
    exists w', @main scen_tools scen_fs_noinit (scen_args false) scen_world = (w', crash:("OSError")) /\
      w_files w' !! o_tramp_file o = Some (table_text +:+ concat_str tramp_texts) /\
      w_files w' !! o_init_file o = Some "".
Proof.
  do 5 eexists. split; [vm_compute; reflexivity|]. split; [vm_compute; reflexivity|].
  split. { do 2 eexists. split_and!; vm_compute; reflexivity. }
  split; [vm_compute; reflexivity|].
  eapply (@main_partial_init scen_tools scen_fs_noinit (scen_args false) scen_world);
    [vm_compute; reflexivity|vm_compute; reflexivity|do 2 eexists; split_and!; vm_compute; reflexivity|
     vm_compute; reflexivity].
Defined.

End Driver.
